(** * Verification of the publication-list builder (make_publications.py)

    The script reads a BibTeX file, sorts the entries with [sort_key],
    cleans every entry in place with [clean_entry] and renders it with
    [get_bib_entry_as_html].  This development embeds these functions and
    proves the properties the specification states about them.

    Python values are embedded as follows.
    - A [str] is the list of its Unicode code points ([ustring]).
    - A bibliography entry (a [dict] from [str] to [str]) is a finite map
      [gmap ustring ustring].
    - A function that reads or writes the entry passed to it is a
      computation [Py A]: it takes the current contents of the entry and
      gives an outcome (a value, or the exception raised) together with
      the contents of the entry afterwards.
    - The Unicode character database behind [str.isdigit] and [int] is
      fixed on Latin-1 and a parameter above it. *)

From Stdlib Require Import ZArith NArith List String Ascii Lia Bool Sorted.
From stdpp Require Import gmap list.
Import ListNotations.

Local Open Scope N_scope.

(** ** Python strings *)

(** A string is the list of its code points. *)
Abbreviation ustring := (list N).

(** [u "text"] is the Python literal ["text"], for ASCII text. *)
Definition u (s : String.string) : ustring :=
  map N_of_ascii (list_ascii_of_string s).

Module PyStr.

(** [s.startswith(p)] *)
Fixpoint startswith (p s : ustring) : bool :=
  match p, s with
  | [], _ => true
  | _ :: _, [] => false
  | c :: p', d :: s' => (c =? d) && startswith p' s'
  end.

(** The scan of [str.replace] for a non-empty [old]: occurrences are
    found from left to right and do not overlap.  [skip] counts the
    characters of the occurrence just replaced that are still to be
    passed over. *)
Fixpoint replace_from (old new : ustring) (skip : nat) (s : ustring) : ustring :=
  match s with
  | [] => []
  | c :: t =>
      match skip with
      | S k => replace_from old new k t
      | O =>
          if startswith old s
          then new ++ replace_from old new (length old - 1) t
          else c :: replace_from old new 0 t
      end
  end.

(** [s.replace(old, new)].  For an empty [old] Python puts [new] before
    every character and at the end. *)
Definition replace (old new s : ustring) : ustring :=
  match old with
  | [] => new ++ flat_map (fun c => c :: new) s
  | _ :: _ => replace_from old new 0 s
  end.

(** The scan of [str.split] for a non-empty separator. *)
Fixpoint split_from (sep : ustring) (skip : nat) (s : ustring) : list ustring :=
  match s with
  | [] => [[]]
  | c :: t =>
      match skip with
      | S k => split_from sep k t
      | O =>
          if startswith sep s
          then [] :: split_from sep (length sep - 1) t
          else match split_from sep 0 t with
               | w :: ws => (c :: w) :: ws
               | [] => [[c]]
               end
      end
  end.

(** [s.split(sep)] for a non-empty [sep] (Python raises [ValueError] on
    an empty separator; the script only splits on literals). *)
Definition split (sep s : ustring) : list ustring := split_from sep 0 s.

(** [sep.join(xs)] *)
Fixpoint join (sep : ustring) (xs : list ustring) : ustring :=
  match xs with
  | [] => []
  | [x] => x
  | x :: xs' => x ++ sep ++ join sep xs'
  end.

(** [s.find(sub)]: the index of the first occurrence, or -1. *)
Fixpoint find_from (sub : ustring) (i : Z) (s : ustring) : Z :=
  if startswith sub s then i
  else match s with
       | [] => (-1)%Z
       | _ :: t => find_from sub (i + 1)%Z t
       end.

Definition find (sub s : ustring) : Z := find_from sub 0%Z s.

(** [sub in s] *)
Definition contains (sub s : ustring) : bool := (0 <=? find sub s)%Z.

(** [c.isspace()] for one character: the white space of CPython's
    [_PyUnicode_IsWhitespace]. *)
Definition isspace (c : N) : bool :=
  ((9 <=? c) && (c <=? 13)) || ((28 <=? c) && (c <=? 32))
  || (c =? 133) || (c =? 160) || (c =? 5760)
  || ((8192 <=? c) && (c <=? 8202))
  || (c =? 8232) || (c =? 8233) || (c =? 8239) || (c =? 8287) || (c =? 12288).

(** [s.lstrip()], [s.rstrip()], [s.strip()] *)
Fixpoint lstrip (s : ustring) : ustring :=
  match s with
  | [] => []
  | c :: t => if isspace c then lstrip t else s
  end.

Definition rstrip (s : ustring) : ustring := rev (lstrip (rev s)).

Definition strip (s : ustring) : ustring := rstrip (lstrip s).

(** Truth value of a string in a condition: non-empty. *)
Definition truthy (s : ustring) : bool :=
  match s with [] => false | _ :: _ => true end.

End PyStr.

(** Characters that cannot be written inside a literal. *)
Definition bs : N := 92.   (* backslash *)
Definition dq : N := 34.   (* double quote *)
Definition nl : N := 10.   (* line feed *)

(** ** Exceptions, outcomes and computations on an entry *)

Inductive exn : Type :=
| KeyError (k : ustring)
| ValueError.

Inductive outcome (A : Type) : Type :=
| Return (a : A)
| Raise (x : exn).

Arguments Return {A} a.
Arguments Raise {A} x.

(** A bibliography entry: the dictionary bibtexparser builds. *)
Abbreviation entry := (gmap ustring ustring).

(** A computation that may read and write the entry it works on. *)
Definition Py (A : Type) : Type := entry -> outcome A * entry.

Definition ret {A} (a : A) : Py A := fun e => (Return a, e).

Definition bind {A B} (m : Py A) (f : A -> Py B) : Py B :=
  fun e =>
    match m e with
    | (Return a, e') => f a e'
    | (Raise x, e') => (Raise x, e')
    end.

Notation "'let*' x ':=' m 'in' k" := (bind m (fun x => k))
  (at level 10, x name, m at level 100, k at level 200).

(** [entry[k]] *)
Definition getitem (k : ustring) : Py ustring :=
  fun e =>
    match e !! k with
    | Some v => (Return v, e)
    | None => (Raise (KeyError k), e)
    end.

(** [k in entry] *)
Definition has_key (k : ustring) : Py bool :=
  fun e => (Return (bool_decide (is_Some (e !! k))), e).

(** [entry[k] = v] *)
Definition setitem (k v : ustring) : Py unit :=
  fun e => (Return tt, <[k := v]> e).

(** [for x in xs: body(x)] *)
Fixpoint for_each {A} (xs : list A) (body : A -> Py unit) : Py unit :=
  match xs with
  | [] => ret tt
  | x :: xs' => let* _ := body x in for_each xs' body
  end.

(** The value and the final entry of a computation. *)
Definition result {A} (m : Py A) (e : entry) : outcome A := (m e).1.
Definition final {A} (m : Py A) (e : entry) : entry := (m e).2.

(** ** sort_key *)

Definition BIBTYPE_PRIORITY : list ustring :=
  [ u "phdthesis"; u "book"; u "inbook"; u "article"; u "inproceedings";
    u "conferences" ].

(** A component of the sort key: an [int], or [float("inf")]. *)
Inductive number : Type :=
| Int (z : Z)
| Inf.

(** [x in xs] for a list of strings *)
Definition list_contains (x : ustring) (xs : list ustring) : bool :=
  bool_decide (x ∈ xs).

(** [xs.index(x)]: the position of the first element equal to [x];
    Python raises [ValueError] when there is none. *)
Fixpoint index_from (x : ustring) (i : Z) (xs : list ustring) : outcome Z :=
  match xs with
  | [] => Raise ValueError
  | y :: ys => if bool_decide (y = x) then Return i else index_from x (i + 1)%Z ys
  end.

Definition index (x : ustring) (xs : list ustring) : outcome Z :=
  index_from x 0%Z xs.

(** Lift a pure outcome into a computation. *)
Definition lift {A} (o : outcome A) : Py A := fun e => (o, e).

Section UnicodeDatabase.

(** [str.isdigit] and [int] consult the Unicode character database of the
    interpreter.  Its content on Latin-1 is fixed here: the decimal digits
    are 0-9, and superscript two, three and one (U+00B2, U+00B3, U+00B9)
    are digits without a decimal value.  For the code points above Latin-1
    the database is a parameter: [ucd_digit c] tells whether [c] has the
    digit property, [ucd_decimal c] gives its decimal value if it has one. *)
Variable ucd_digit : N -> bool.
Variable ucd_decimal : N -> option N.

Definition is_digit_char (c : N) : bool :=
  if c <? 256
  then ((48 <=? c) && (c <=? 57)) || (c =? 178) || (c =? 179) || (c =? 185)
  else ucd_digit c.

Definition decimal_value (c : N) : option N :=
  if c <? 256
  then if (48 <=? c) && (c <=? 57) then Some (c - 48) else None
  else ucd_decimal c.

(** [s.isdigit()]: at least one character, and all of them digits. *)
Definition isdigit (s : ustring) : bool :=
  PyStr.truthy s && forallb is_digit_char s.

Fixpoint digits_value (acc : Z) (s : ustring) : option Z :=
  match s with
  | [] => Some acc
  | c :: t =>
      match decimal_value c with
      | Some d => digits_value (10 * acc + Z.of_N d)%Z t
      | None => None
      end
  end.

(** [int(s)] on a string that passed [isdigit]: the value of the string
    when every character has a decimal value, [ValueError] otherwise.
    (On other strings [int] also accepts blanks around the number, a sign
    and underscores between digits; none of these characters is a digit,
    and the script calls [int] only behind the [isdigit] test.)  Python
    integers are unbounded, but the interpreter converts at most
    [int_max_str_digits] digits and raises [ValueError] on a longer
    string; the limit is 4300 unless [sys.set_int_max_str_digits] changes
    it, which the script does not do. *)
Definition int_max_str_digits : nat := 4300.

Definition int (s : ustring) : outcome Z :=
  match s with
  | [] => Raise ValueError
  | _ :: _ =>
      if (int_max_str_digits <? length s)%nat then Raise ValueError
      else
        match digits_value 0%Z s with
        | Some z => Return z
        | None => Raise ValueError
        end
  end.

Definition sort_key : Py (number * number) :=
  let* y := getitem (u "year") in
  let* year_val :=
    (if isdigit y
     then let* y' := getitem (u "year") in
          let* z := lift (int y') in ret (Int z)
     else ret Inf) in
  let type_val := Inf in
  let* t := getitem (u "ENTRYTYPE") in
  let* type_val :=
    (if list_contains t BIBTYPE_PRIORITY
     then let* t' := getitem (u "ENTRYTYPE") in
          let* i := lift (index t' BIBTYPE_PRIORITY) in ret (Int i)
     else ret type_val) in
  ret (year_val, type_val).

(** The key, as a function of the fields. *)
Definition year_val_of (y : ustring) : outcome number :=
  if isdigit y
  then match int y with
       | Return z => Return (Int z)
       | Raise x => Raise x
       end
  else Return Inf.

Definition type_val_of (t : ustring) : outcome number :=
  if list_contains t BIBTYPE_PRIORITY
  then match index t BIBTYPE_PRIORITY with
       | Return i => Return (Int i)
       | Raise x => Raise x
       end
  else Return Inf.

Definition key_of (e : entry) : outcome (number * number) :=
  match e !! u "year" with
  | None => Raise (KeyError (u "year"))
  | Some y =>
      match year_val_of y with
      | Raise x => Raise x
      | Return year_val =>
          match e !! u "ENTRYTYPE" with
          | None => Raise (KeyError (u "ENTRYTYPE"))
          | Some t =>
              match type_val_of t with
              | Raise x => Raise x
              | Return type_val => Return (year_val, type_val)
              end
          end
      end
  end.

End UnicodeDatabase.

(** ** clean_entry *)

(** The replacements of special characters, in the order the script
    applies them: each line [v = v.replace(old, new)] is a pair. *)
Definition special_characters : list (ustring * ustring) :=
  [ (bs :: u "AE", [198]);                     (* AE ligature *)
    (bs :: u "$" ++ bs :: u "$", u " ");
    (u "~", u " ");
    (bs :: u "O", [216]);                      (* O with stroke *)
    (bs :: u "AA", [197]);                     (* A with ring *)
    (bs :: u "ae", [230]);                     (* ae ligature *)
    (bs :: u "o", [248]);                      (* o with stroke *)
    (bs :: dq :: u "o", [246]);                (* o with diaeresis *)
    (bs :: dq :: u "a", [228]);                (* a with diaeresis *)
    (bs :: u "aa", [229]);                     (* a with ring *)
    (bs :: u "'a", u "&aacute;");
    (bs :: u "'c", u "&cacute;");
    (bs :: u "'o", u "&oacute;");
    (bs :: u "'e", u "&eacute;");
    (bs :: u "c{c}", u "&ccedil;") ].

Definition replace_special (v : ustring) : ustring :=
  fold_left (fun v p => PyStr.replace p.1 p.2 v) special_characters v.

(** Lines 55-57: braces and double quotes are removed. *)
Definition strip_delimiters (v : ustring) : ustring :=
  let v := PyStr.replace (u "{") [] v in
  let v := PyStr.replace (u "}") [] v in
  PyStr.replace [dq] [] v.

(** Lines 60-62: [if len(v) > 0: if v[-1] == ",": v = v[:-1]] *)
Definition drop_trailing_comma (v : ustring) : ustring :=
  if (0 <? length v)%nat
  then if bool_decide (last v = Some 44) then removelast v else v
  else v.

(** The body of the loop over the authors (lines 78-85): the new value
    of [authors[i]].  [namearray[0]] exists because [split] never gives
    an empty list. *)
Definition reverse_name (a : ustring) : ustring :=
  let namearray := PyStr.split (u "&nbsp;") a in
  let surname := hd [] namearray in
  if (0 <=? PyStr.find (u ",") surname)%Z
  then
    let surname := PyStr.replace (u ",") [] surname in
    let firstname := PyStr.join (u " ") (tl namearray) in
    firstname ++ u " " ++ surname
  else PyStr.join (u " ") namearray.

(** Lines 68-87 *)
Definition fix_author (v : ustring) : ustring :=
  let authors := PyStr.split (u " and ") v in
  let authors := map PyStr.strip authors in
  let authors := map (PyStr.replace (u " ") (u "&nbsp;")) authors in
  let authors := map reverse_name authors in
  PyStr.join (u ", ") authors.

(** Lines 91-92 *)
Definition fix_pages (v : ustring) : ustring :=
  let v := PyStr.replace (u "--") (u "&ndash;") v in
  PyStr.replace (u "-") (u "&ndash;") v.

Definition is_author_key (k : ustring) : bool :=
  bool_decide (k = u "author") || bool_decide (k = u "author_first")
  || bool_decide (k = u "author_corresponding").

(** The field-specific part of the loop body. *)
Definition fix_field (k v : ustring) : ustring :=
  let v := if is_author_key k then fix_author v else v in
  if bool_decide (k = u "pages") then fix_pages v else v.

(** The body of the loop of [clean_entry]: the value stored under [k]
    when the value found there is [v]. *)
Definition clean_value (k v : ustring) : ustring :=
  let v := PyStr.strip v in
  let v := replace_special v in
  let v := strip_delimiters v in
  let v := drop_trailing_comma v in
  fix_field k v.

(** [for k, v in entry.items(): ...; entry[k] = v].  The loop stores only
    under the key it is visiting, so every key is visited once with the
    value it had when the loop started. *)
Definition clean_entry : Py unit :=
  fun e =>
    for_each (map_to_list e) (fun kv => setitem kv.1 (clean_value kv.1 kv.2)) e.

(** ** get_bib_entry_as_html *)

Definition span (cls text : ustring) : ustring :=
  u "<span class=" ++ [dq] ++ cls ++ [dq] ++ u ">" ++ text ++ u "</span>".

Definition format_title_or_chapter : Py ustring :=
  let* has_chapter := has_key (u "chapter") in
  if has_chapter : bool
  then
    let* chapter := getitem (u "chapter") in
    let chapter_html :=
      u "<span class=" ++ [dq] ++ u "title" ++ [dq] ++ u ">"
        ++ [dq] ++ chapter ++ [dq] ++ u "</span>" in
    let* title := getitem (u "title") in
    let* publisher := getitem (u "publisher") in
    let book_info := u "in: " ++ title ++ u ", " ++ publisher in
    ret (chapter_html ++ book_info)
  else
    let* title := getitem (u "title") in
    ret (u "<span class=" ++ [dq] ++ u "title" ++ [dq] ++ u "><i>"
           ++ [dq] ++ title ++ [dq] ++ u "</i></span>").

Definition format_publisher : Py ustring :=
  let* has_journal := has_key (u "journal") in
  if has_journal : bool
  then let* journal := getitem (u "journal") in ret (span (u "publisher") journal)
  else
  let* has_booktitle := has_key (u "booktitle") in
  if has_booktitle : bool
  then let* booktitle := getitem (u "booktitle") in
       ret (span (u "publisher") booktitle)
  else
  let* has_eprint := has_key (u "eprint") in
  if has_eprint : bool
  then let* eprint := getitem (u "eprint") in ret (span (u "publisher") eprint)
  else
  let* ty := getitem (u "ENTRYTYPE") in
  if bool_decide (ty = u "phdthesis")
  then let* school := getitem (u "school") in ret (u "PhD thesis, " ++ school)
  else
  let* ty := getitem (u "ENTRYTYPE") in
  if bool_decide (ty = u "techreport")
  then let* number := getitem (u "number") in ret (u "Tech. Report, " ++ number)
  else
  let* ty := getitem (u "ENTRYTYPE") in
  if bool_decide (ty = u "book")
  then getitem (u "publisher")
  else ret [].

Definition format_volume_pages_notes : Py ustring :=
  let parts := [] in
  let* has_volume := has_key (u "volume") in
  let* parts :=
    (if has_volume : bool
     then let* volume := getitem (u "volume") in
          ret (parts ++ [u "vol. " ++ volume])
     else ret parts) in
  let* has_number := has_key (u "number") in
  let* cond :=
    (if has_number : bool
     then let* ty := getitem (u "ENTRYTYPE") in
          ret (negb (bool_decide (ty = u "techreport")))
     else ret false) in
  let* parts :=
    (if cond : bool
     then let* number := getitem (u "number") in
          ret (parts ++ [u "no. " ++ number])
     else ret parts) in
  let* has_pages := has_key (u "pages") in
  let* parts :=
    (if has_pages : bool
     then let* pages := getitem (u "pages") in
          ret (parts ++ [u "pp. " ++ pages])
     else ret parts) in
  let* has_month := has_key (u "month") in
  let* parts :=
    (if has_month : bool
     then let* month := getitem (u "month") in ret (parts ++ [month])
     else ret parts) in
  ret (PyStr.join (u ", ") parts).

(** [get_link] returns a string or [None]. *)
Definition get_link : Py (option ustring) :=
  let* has_url := has_key (u "url") in
  let* cond :=
    (if has_url : bool
     then let* url := getitem (u "url") in ret (negb (bool_decide (url = [])))
     else ret false) in
  if cond : bool
  then let* url := getitem (u "url") in ret (Some url)
  else
  let* has_www := has_key (u "www") in
  if has_www : bool
  then let* www := getitem (u "www") in ret (Some www)
  else
  let* has_doi := has_key (u "doi") in
  if has_doi : bool
  then let* doi := getitem (u "doi") in
       ret (Some (u "https://dx.doi.org/" ++ doi))
  else
  let* has_hal := has_key (u "hal_id") in
  if has_hal : bool
  then let* hal_id := getitem (u "hal_id") in
       ret (Some (u "https://hal.archives-ouvertes.fr/" ++ hal_id))
  else ret None.

(** [out.insert(i, x)] *)
Definition list_insert_at {A} (i : nat) (x : A) (l : list A) : list A :=
  take i l ++ x :: drop i l.

(** Truth value of the result of [get_link]: a non-empty string. *)
Definition link_truthy (link : option ustring) : bool :=
  match link with
  | Some l => PyStr.truthy l
  | None => false
  end.

Definition get_bib_entry_as_html : Py ustring :=
  let out := [ nl :: u "<li>" ++ [nl] ] in
  let* has_author := has_key (u "author") in
  let* out :=
    (if has_author : bool
     then let* author := getitem (u "author") in
          ret (out ++ [span (u "author") (author ++ u ",")] ++ [[nl]])
     else ret out) in
  let* title_html := format_title_or_chapter in
  let out := out ++ [title_html ++ u "," ++ [nl]] in
  let* publisher_html := format_publisher in
  let out := if PyStr.truthy publisher_html then out ++ [publisher_html] else out in
  let* vp := format_volume_pages_notes in
  let out := if PyStr.truthy vp then out ++ [u ", " ++ vp] else out in
  let* year := getitem (u "year") in
  let out := out ++ [u ", " ++ span (u "year") year ++ u "." ++ [nl]] in
  let* link := get_link in
  let out :=
    if link_truthy link
    then list_insert_at 1 (u "<a href=" ++ [dq] ++ default [] link ++ [dq] ++ u ">") out
           ++ [u "</a>"]
    else out in
  let out := out ++ [nl :: u "</li>" ++ [nl]] in
  let out := out ++ [u "<br>" ++ [nl]] in
  ret (concat out).

(** ** The script *)

(** Comparison of the components of a key: an [int] is below
    [float("inf")], which is equal to itself. *)
Definition number_lt (a b : number) : bool :=
  match a, b with
  | Int x, Int y => (x <? y)%Z
  | Int _, Inf => true
  | Inf, _ => false
  end.

Definition number_eq (a b : number) : bool :=
  match a, b with
  | Int x, Int y => (x =? y)%Z
  | Inf, Inf => true
  | _, _ => false
  end.

(** Comparison of tuples: by the first component on which they differ. *)
Definition key_lt (a b : number * number) : bool :=
  if number_eq a.1 b.1 then number_lt a.2 b.2 else number_lt a.1 b.1.

(** [sorted] is stable: an element goes before the elements of the sorted
    rest that are not below it. *)
Fixpoint insert_by_key {A} (x : (number * number) * A)
    (l : list ((number * number) * A)) : list ((number * number) * A) :=
  match l with
  | [] => [x]
  | y :: l' => if key_lt y.1 x.1 then y :: insert_by_key x l' else x :: l
  end.

Definition sort_by_key {A} (l : list ((number * number) * A)) :
    list ((number * number) * A) :=
  foldr insert_by_key [] l.

(** Run a computation on each entry of a list, stopping at the first
    exception; the entries are left as the computations made them. *)
Fixpoint run_each {A} (m : Py A) (es : list entry) : outcome (list (A * entry)) :=
  match es with
  | [] => Return []
  | e :: es' =>
      match m e with
      | (Return a, e') =>
          match run_each m es' with
          | Return r => Return ((a, e') :: r)
          | Raise x => Raise x
          end
      | (Raise x, _) => Raise x
      end
  end.

Section Script.

Variable ucd_digit : N -> bool.
Variable ucd_decimal : N -> option N.

(** The main block, from the parsed entries to the list items written to
    publications.html between the fixed prelude and the closing tags.
    [sorted] first computes the key of every entry, then orders them;
    each entry is then cleaned and rendered in turn. *)
Definition main (entries : list entry) : outcome (list ustring) :=
  match run_each (sort_key ucd_digit ucd_decimal) entries with
  | Raise x => Raise x
  | Return keyed =>
      let bib_entries := map snd (sort_by_key keyed) in
      match
        run_each (let* _ := clean_entry in get_bib_entry_as_html) bib_entries
      with
      | Raise x => Raise x
      | Return written => Return (map fst written)
      end
  end.

End Script.

(** ** Readings of the renderer in terms of the fields of the entry

    The definitions below are not part of the script: they say, as
    plain functions of the fields, what its computations are proved to
    return. *)

(** The link [get_link] settles on. *)
Definition link_of (e : entry) : option ustring :=
  match e !! u "url" with
  | Some (c :: url) => Some (c :: url)
  | _ =>
      match e !! u "www" with
      | Some www => Some www
      | None =>
          match e !! u "doi" with
          | Some doi => Some (u "https://dx.doi.org/" ++ doi)
          | None =>
              match e !! u "hal_id" with
              | Some hal_id => Some (u "https://hal.archives-ouvertes.fr/" ++ hal_id)
              | None => None
              end
          end
      end
  end.

(** [entry[k]] as an outcome. *)
Definition field (e : entry) (k : ustring) : outcome ustring :=
  match e !! k with
  | Some v => Return v
  | None => Raise (KeyError k)
  end.

Definition title_of (e : entry) : outcome ustring :=
  match e !! u "chapter" with
  | Some chapter =>
      match field e (u "title"), field e (u "publisher") with
      | Return title, Return publisher =>
          Return ((u "<span class=" ++ [dq] ++ u "title" ++ [dq] ++ u ">"
                     ++ [dq] ++ chapter ++ [dq] ++ u "</span>")
                    ++ (u "in: " ++ title ++ u ", " ++ publisher))
      | Raise x, _ => Raise x
      | _, Raise x => Raise x
      end
  | None =>
      match field e (u "title") with
      | Return title =>
          Return (u "<span class=" ++ [dq] ++ u "title" ++ [dq] ++ u "><i>"
                    ++ [dq] ++ title ++ [dq] ++ u "</i></span>")
      | Raise x => Raise x
      end
  end.

Definition publisher_of (e : entry) : outcome ustring :=
  match e !! u "journal", e !! u "booktitle", e !! u "eprint" with
  | Some journal, _, _ => Return (span (u "publisher") journal)
  | None, Some booktitle, _ => Return (span (u "publisher") booktitle)
  | None, None, Some eprint => Return (span (u "publisher") eprint)
  | None, None, None =>
      match e !! u "ENTRYTYPE" with
      | None => Raise (KeyError (u "ENTRYTYPE"))
      | Some ty =>
          if bool_decide (ty = u "phdthesis") then
            match field e (u "school") with
            | Return school => Return (u "PhD thesis, " ++ school)
            | Raise x => Raise x
            end
          else if bool_decide (ty = u "techreport") then
            match field e (u "number") with
            | Return number => Return (u "Tech. Report, " ++ number)
            | Raise x => Raise x
            end
          else if bool_decide (ty = u "book") then field e (u "publisher")
          else Return []
      end
  end.

(** One clause of the summary line, present when the field is. *)
Definition clause (label : ustring) (o : option ustring) : list ustring :=
  match o with
  | Some v => [label ++ v]
  | None => []
  end.

Definition summary_of (e : entry) : outcome ustring :=
  let summary number_clause :=
    PyStr.join (u ", ")
      (clause (u "vol. ") (e !! u "volume") ++ number_clause
         ++ clause (u "pp. ") (e !! u "pages") ++ clause [] (e !! u "month")) in
  match e !! u "number" with
  | None => Return (summary [])
  | Some number =>
      match e !! u "ENTRYTYPE" with
      | None => Raise (KeyError (u "ENTRYTYPE"))
      | Some ty =>
          if bool_decide (ty = u "techreport") then Return (summary [])
          else Return (summary [u "no. " ++ number])
      end
  end.

(** The text of the list item, from its parts: the anchor, when there is
    one, opens right after the opening tag and closes before the closing
    tag; a part that is empty leaves nothing behind. *)
Definition item_html (author : option ustring)
    (title_html publisher_html vp year : ustring) (link : option ustring) : ustring :=
  (nl :: u "<li>" ++ [nl])
    ++ (if link_truthy link
        then u "<a href=" ++ [dq] ++ default [] link ++ [dq] ++ u ">" else [])
    ++ match author with
       | Some a => span (u "author") (a ++ u ",") ++ [nl]
       | None => []
       end
    ++ title_html ++ u "," ++ [nl]
    ++ publisher_html
    ++ (if PyStr.truthy vp then u ", " ++ vp else [])
    ++ u ", " ++ span (u "year") year ++ u "." ++ [nl]
    ++ (if link_truthy link then u "</a>" else [])
    ++ (nl :: u "</li>" ++ [nl])
    ++ u "<br>" ++ [nl].

Definition html_of (e : entry) : outcome ustring :=
  match title_of e with
  | Raise x => Raise x
  | Return title_html =>
      match publisher_of e with
      | Raise x => Raise x
      | Return publisher_html =>
          match summary_of e with
          | Raise x => Raise x
          | Return vp =>
              match e !! u "year" with
              | None => Raise (KeyError (u "year"))
              | Some year =>
                  Return (item_html (e !! u "author") title_html publisher_html
                            vp year (link_of e))
              end
          end
      end
  end.

(** The part of the list item between the anchor tags (or between the
    opening and the closing tag when there is no anchor). *)
Definition item_body (author : option ustring)
    (title_html publisher_html vp year : ustring) : ustring :=
  match author with
  | Some a => span (u "author") (a ++ u ",") ++ [nl]
  | None => []
  end
    ++ title_html ++ u "," ++ [nl]
    ++ publisher_html
    ++ (if PyStr.truthy vp then u ", " ++ vp else [])
    ++ u ", " ++ span (u "year") year ++ u "." ++ [nl].

(** The characters removed as delimiters: braces and the double quote. *)
Definition is_delimiter (c : N) : bool := (c =? 123) || (c =? 125) || (c =? dq).

(** ** Vocabulary for the statements about strings *)

(** [sub] occurs in [s]. *)
Definition occurs (sub s : ustring) : Prop := exists pre post, s = pre ++ sub ++ post.

(** [w] put in front of the first string of a list. *)
Definition app_hd (w : ustring) (l : list ustring) : list ustring :=
  match l with
  | x :: xs => (w ++ x) :: xs
  | [] => [w]
  end.

(** A plain character of a name: not white space, not a comma, and none
    of the characters the cleaner or the author treatment reacts to. *)
Definition plain_char (c : N) : bool :=
  negb (PyStr.isspace c)
  && negb (c =? 44) && negb (c =? bs) && negb (c =? 126)
  && negb (is_delimiter c) && negb (c =? 38).

(** A piece of a name, as the author treatment reads it between blanks:
    at least one character, no white space, and no occurrence of the text
    "&nbsp;", with which the treatment marks the blanks. *)
Definition name_piece (w : ustring) : Prop :=
  w <> []
  /\ forallb (fun c => negb (PyStr.isspace c)) w = true
  /\ ~ occurs (u "&nbsp;") w.

(** A piece after the first one of its name: it is not the word that
    separates the names. *)
Definition later_piece (w : ustring) : Prop := name_piece w /\ w <> u "and".

Definition no_comma (w : ustring) : Prop :=
  forallb (fun c => negb (c =? 44)) w = true.

(** A name, as the value has it once the generic steps are done.  It is
    either "Surname, First ...", where the surname is the first piece and
    the comma follows it at once; or pieces of which the first has no
    comma: a name in its natural order, and also a name such as
    "Le Berre, Daniel", whose comma comes after the second piece. *)
Inductive name : Type :=
| Reversed (surname : ustring) (firsts : list ustring)
| Direct (first : ustring) (rest : list ustring).

Definition name_ok (n : name) : Prop :=
  match n with
  | Reversed surname firsts =>
      name_piece surname /\ no_comma surname
      /\ firsts <> [] /\ Forall later_piece firsts
  | Direct first rest =>
      name_piece first /\ no_comma first /\ Forall later_piece rest
  end.

(** The name as written in the author field. *)
Definition name_in (n : name) : ustring :=
  match n with
  | Reversed surname firsts => surname ++ u ", " ++ PyStr.join (u " ") firsts
  | Direct first rest => PyStr.join (u " ") (first :: rest)
  end.

(** The name as the cleaner stores it. *)
Definition name_out (n : name) : ustring :=
  match n with
  | Reversed surname firsts => PyStr.join (u " ") firsts ++ u " " ++ surname
  | Direct first rest => PyStr.join (u " ") (first :: rest)
  end.

(** The author field holding the given names, and what the cleaner
    makes of it. *)
Definition author_in (names : list name) : ustring :=
  PyStr.join (u " and ") (map name_in names).

Definition author_out (names : list name) : ustring :=
  PyStr.join (u ", ") (map name_out names).

(** The pieces of a name between blanks. *)
Definition name_tokens (n : name) : list ustring :=
  match n with
  | Reversed surname firsts => (surname ++ [44]) :: firsts
  | Direct first rest => first :: rest
  end.

(** A string that neither starts nor ends with white space. *)
Definition ends_solid (s : ustring) : Prop :=
  (exists c t, s = c :: t /\ PyStr.isspace c = false)
  /\ (exists t d, s = t ++ [d] /\ PyStr.isspace d = false).

(** A character the first four steps of the cleaner leave alone. *)
Definition mild_char (c : N) : bool :=
  negb (c =? bs) && negb (c =? 126) && negb (is_delimiter c).

(** A string that starts and ends with a plain character. *)
Definition ends_plain (s : ustring) : Prop :=
  (exists c t, s = c :: t /\ plain_char c = true)
  /\ (exists t d, s = t ++ [d] /\ plain_char d = true).

(** A replacement [(old, new)] cannot bring about an occurrence of the
    pattern [q]: [new] starts with a character that [q] does not have, and
    the first character of [q] is not in [new]. *)
Definition inert_for (q : ustring) (p : ustring * ustring) : bool :=
  match p.1, p.2, q with
  | _ :: _, n0 :: _, q0 :: _ =>
      forallb (fun c => negb (c =? n0)) q && forallb (fun c => negb (c =? q0)) p.2
  | _, _, _ => false
  end.

(** Every replacement of a table is inert for every pattern of it. *)
Definition inert_table (tbl : list (ustring * ustring)) : bool :=
  forallb (fun p => forallb (fun q => inert_for q.1 p) tbl) tbl.

(** A cleaned value on which a second cleaning has nothing to do: no
    white space around it, no sequence of the table in it, no comma at its
    end and, in a field of authors, nothing that would be split or
    reordered. *)
Definition settled (k w : ustring) : Prop :=
  PyStr.strip w = w
  /\ Forall (fun p => ~ occurs p.1 w) special_characters
  /\ last w <> Some 44
  /\ (is_author_key k = true ->
      ~ occurs (u " and ") w
      /\ ~ occurs (u "&nbsp;") w
      /\ PyStr.find (u ",") (hd [] (PyStr.split (u " ") w)) = (-1)%Z).

(** ** Vocabulary for the statements about the replacements *)







(** ** Vocabulary for the statements about the sort key *)

(** One of the digits 0-9. *)
Definition ascii_digit (c : N) : bool := (48 <=? c) && (c <=? 57).

(** The number that a string of the digits 0-9 denotes. *)
Definition decimal_number (y : ustring) : Z :=
  fold_left (fun acc c => (10 * acc + Z.of_N (c - 48))%Z) y 0%Z.

(** The rank of an entry type: its place in the priority list, infinity
    for any other type. *)
Definition type_rank (t : ustring) : number :=
  if bool_decide (t = u "phdthesis") then Int 0
  else if bool_decide (t = u "book") then Int 1
  else if bool_decide (t = u "inbook") then Int 2
  else if bool_decide (t = u "article") then Int 3
  else if bool_decide (t = u "inproceedings") then Int 4
  else if bool_decide (t = u "conferences") then Int 5
  else Inf.

#[global] Instance number_eq_dec : EqDecision number.
Proof. solve_decision. Defined.

(** Equality of keys, as the comparison of tuples sees it. *)
Definition key_eq (a b : number * number) : bool :=
  number_eq a.1 b.1 && number_eq a.2 b.2.

(** ** Sample entries *)

(** The entry with the given fields, written as ASCII text. *)
Definition mk_entry (fields : list (String.string * String.string)) : entry :=
  list_to_map (map (fun f => (u f.1, u f.2)) fields).

(** A database in which no code point above Latin-1 is a digit. *)
Definition no_digit_above_latin1 : N -> bool := fun _ => false.
Definition no_decimal_above_latin1 : N -> option N := fun _ => None.

Local Open Scope string_scope.

Definition entry_without_year : entry :=
  mk_entry [("ENTRYTYPE", "article"); ("title", "T"); ("journal", "J")].

Definition entry_empty_url : entry :=
  mk_entry [("ENTRYTYPE", "article"); ("title", "T"); ("journal", "J");
            ("year", "2023"); ("url", ""); ("doi", "10.1/x")].

Definition entry_with_url : entry :=
  mk_entry [("ENTRYTYPE", "article"); ("title", "T"); ("journal", "J");
            ("year", "2023"); ("url", "https://a.b/c"); ("doi", "10.1/x")].

Definition entry_plain : entry :=
  mk_entry [("ENTRYTYPE", "article"); ("title", "T"); ("journal", "J");
            ("year", "2023")].

Definition entry_techreport_in_journal : entry :=
  mk_entry [("ENTRYTYPE", "techreport"); ("number", "7"); ("title", "T");
            ("journal", "J"); ("year", "2020")].

Definition entry_techreport : entry :=
  mk_entry [("ENTRYTYPE", "techreport"); ("number", "7"); ("title", "T");
            ("volume", "3"); ("year", "2020")].

(** An entry whose year is superscript two (U+00B2). *)
Definition entry_superscript_year : entry :=
  <[u "year" := [178%N]]> (mk_entry [("ENTRYTYPE", "article")]).

Definition entry_two_authors : entry :=
  mk_entry [("author", "Smith, John and Doe, Jane")].

Definition entry_two_word_surname : entry :=
  mk_entry [("author", "Le Berre, Daniel")].

Definition entry_messy_title : entry :=
  mk_entry [("title", " {Proofs},, ")].

Definition entry_braced_year : entry :=
  mk_entry [("ENTRYTYPE", "article"); ("year", "{2023}")].

Definition entry_word_year : entry :=
  mk_entry [("ENTRYTYPE", "misc"); ("year", "in press")].

Definition entry_book_2020 : entry :=
  mk_entry [("ENTRYTYPE", "book"); ("title", "B"); ("publisher", "P");
            ("year", "2020")].

Definition entry_pages : entry :=
  mk_entry [("pages", "1539--1589"); ("note", "  "); ("title", "Proofs, ")].

Definition entry_empty_www : entry :=
  <[u "www" := []]>
    (mk_entry [("title", "T"); ("journal", "J"); ("year", "2020");
               ("doi", "10.1/x")]).

Definition entry_empty_month : entry :=
  <[u "month" := []]>
    (mk_entry [("title", "T"); ("journal", "J"); ("year", "2020")]).

Definition entry_thesis_without_school : entry :=
  mk_entry [("ENTRYTYPE", "phdthesis"); ("title", "T"); ("year", "2020")].


(** Two authors, the first with an escaped o with diaeresis in braces. *)
Definition entry_escaped_author : entry :=
  <[u "author" :=
      (u "Nordstr{" ++ bs :: dq :: u "o}m, Jakob and Gocht, Stephan")%list]> ∅.

Local Close Scope string_scope.

(** * Properties *)

(** ** Reasoning about computations *)

Arguments u : simpl never.

Lemma bind_run {A B} (m : Py A) (f : A -> Py B) (e : entry) :
  (let* x := m in f x) e =
  match m e with
  | (Return a, e') => f a e'
  | (Raise x, e') => (Raise x, e')
  end.
Proof. reflexivity. Qed.

Lemma getitem_run (k : ustring) (e : entry) : getitem k e = (field e k, e).
Proof. unfold getitem, field. destruct (e !! k); reflexivity. Qed.

(** Run a computation symbolically: reduce, and split on the fields it
    looks up and on the tests it makes. *)
Ltac py_run :=
  repeat (cbn;
    match goal with
    | H : ?e !! ?k = _ |- context [ ?e !! ?k ] => rewrite H
    | H : bool_decide ?P = _ |- context [ bool_decide ?P ] => rewrite H
    | |- context [ ?e !! ?k ] => destruct (e !! k) eqn:?
    | |- context [ bool_decide (?a = ?b) ] => destruct (bool_decide (a = b)) eqn:?
    end).

Lemma get_link_run (e : entry) : get_link e = (Return (link_of e), e).
Proof.
  unfold get_link, link_of, bind, has_key, getitem, ret.
  destruct (e !! u "url") as [[|c url]|] eqn:Hurl; py_run; reflexivity.
Qed.

Lemma format_title_or_chapter_run (e : entry) :
  format_title_or_chapter e = (title_of e, e).
Proof.
  unfold format_title_or_chapter, title_of, field, bind, has_key, getitem, ret.
  py_run; reflexivity.
Qed.

Lemma format_publisher_run (e : entry) : format_publisher e = (publisher_of e, e).
Proof.
  unfold format_publisher, publisher_of, field, bind, has_key, getitem, ret.
  py_run; reflexivity.
Qed.

Lemma format_volume_pages_notes_run (e : entry) :
  format_volume_pages_notes e = (summary_of e, e).
Proof.
  unfold format_volume_pages_notes, summary_of, clause, bind, has_key, getitem, ret.
  py_run; reflexivity.
Qed.

Arguments format_title_or_chapter : simpl never.
Arguments format_publisher : simpl never.
Arguments format_volume_pages_notes : simpl never.
Arguments get_link : simpl never.
Arguments span : simpl never.

Lemma get_bib_entry_as_html_run (e : entry) :
  get_bib_entry_as_html e = (html_of e, e).
Proof.
  unfold get_bib_entry_as_html, html_of.
  rewrite bind_run. unfold has_key at 1.
  assert (Hrest : forall rest : list ustring,
    (let* title_html := format_title_or_chapter in
     let out := ((nl :: u "<li>" ++ [nl]) :: rest) ++ [title_html ++ u "," ++ [nl]] in
     let* publisher_html := format_publisher in
     let out :=
       if PyStr.truthy publisher_html then out ++ [publisher_html] else out in
     let* vp := format_volume_pages_notes in
     let out := if PyStr.truthy vp then out ++ [u ", " ++ vp] else out in
     let* year := getitem (u "year") in
     let out := out ++ [u ", " ++ span (u "year") year ++ u "." ++ [nl]] in
     let* link := get_link in
     let out :=
       if link_truthy link
       then list_insert_at 1
              (u "<a href=" ++ [dq] ++ default [] link ++ [dq] ++ u ">") out
              ++ [u "</a>"]
       else out in
     let out := out ++ [nl :: u "</li>" ++ [nl]] in
     let out := out ++ [u "<br>" ++ [nl]] in
     ret (concat out)) e =
    (match title_of e with
     | Raise x => Raise x
     | Return title_html =>
         match publisher_of e with
         | Raise x => Raise x
         | Return publisher_html =>
             match summary_of e with
             | Raise x => Raise x
             | Return vp =>
                 match e !! u "year" with
                 | None => Raise (KeyError (u "year"))
                 | Some year =>
                     Return
                       ((nl :: u "<li>" ++ [nl])
                          ++ (if link_truthy (link_of e)
                              then u "<a href=" ++ [dq] ++ default [] (link_of e)
                                     ++ [dq] ++ u ">"
                              else [])
                          ++ concat rest
                          ++ title_html ++ u "," ++ [nl]
                          ++ publisher_html
                          ++ (if PyStr.truthy vp then u ", " ++ vp else [])
                          ++ u ", " ++ span (u "year") year ++ u "." ++ [nl]
                          ++ (if link_truthy (link_of e) then u "</a>" else [])
                          ++ (nl :: u "</li>" ++ [nl])
                          ++ u "<br>" ++ [nl])
                 end
             end
         end
     end, e)).
  { intros rest.
    rewrite bind_run, format_title_or_chapter_run.
    destruct (title_of e) as [t|x]; [|reflexivity].
    cbv zeta. rewrite bind_run, format_publisher_run.
    destruct (publisher_of e) as [p|x]; [|reflexivity].
    rewrite bind_run, format_volume_pages_notes_run.
    destruct (summary_of e) as [vp|x]; [|reflexivity].
    rewrite bind_run, getitem_run. unfold field.
    destruct (e !! u "year") as [y|]; [|reflexivity].
    rewrite bind_run, get_link_run. unfold ret. f_equal. f_equal.
    destruct (link_truthy (link_of e)); unfold list_insert_at;
      destruct p as [|cp p]; destruct vp as [|cv vp]; cbn [PyStr.truthy];
      rewrite <- ?app_comm_cons; cbn [take drop]; rewrite ?take_0, ?drop_0;
      rewrite ?concat_app, ?concat_cons, ?concat_app, ?concat_cons, ?concat_nil;
      rewrite ?app_nil_r, <- ?app_assoc; cbn [app]; rewrite <- ?app_assoc;
      reflexivity. }
  destruct (e !! u "author") as [a|] eqn:Ha; cbn [bool_decide decide_rel is_Some_dec].
  - rewrite bind_run, bind_run, getitem_run. unfold field. rewrite Ha.
    unfold ret at 1. unfold item_html.
    change ([nl :: u "<li>" ++ [nl]] ++ [span (u "author") (a ++ u ",")] ++ [[nl]])
      with ((nl :: u "<li>" ++ [nl]) :: [span (u "author") (a ++ u ","); [nl]]).
    rewrite Hrest. cbn [concat]. rewrite app_nil_r. reflexivity.
  - rewrite bind_run. unfold ret at 1. unfold item_html.
    rewrite Hrest. reflexivity.
Qed.

(** *** The effect of [clean_entry] *)

Lemma for_each_setitem_run (f : ustring -> ustring -> ustring)
    (l : list (ustring * ustring)) (e : entry) :
  for_each l (fun kv => setitem kv.1 (f kv.1 kv.2)) e =
  (Return tt, foldl (fun acc kv => <[kv.1 := f kv.1 kv.2]> acc) e l).
Proof.
  revert e. induction l as [|[k v] l IH]; intros e; [reflexivity|].
  cbn [for_each foldl]. rewrite bind_run. unfold setitem at 1. apply IH.
Qed.

Lemma lookup_foldl_insert (f : ustring -> ustring -> ustring)
    (l : list (ustring * ustring)) (e : entry) (k : ustring) :
  NoDup l.*1 ->
  foldl (fun acc kv => <[kv.1 := f kv.1 kv.2]> acc) e l !! k =
  match (list_to_map l : entry) !! k with
  | Some v => Some (f k v)
  | None => e !! k
  end.
Proof.
  revert e. induction l as [|[k1 v1] l IH]; intros e Hnd; [reflexivity|].
  cbn [foldl fmap list_fmap fst] in *. apply NoDup_cons in Hnd as [Hk1 Hnd].
  rewrite IH by assumption. cbn [list_to_map foldr uncurry fst snd].
  destruct (decide (k1 = k)) as [->|Hne].
  - rewrite (not_elem_of_list_to_map_1 _ _ Hk1), !lookup_insert_eq.
    reflexivity.
  - rewrite !lookup_insert_ne by assumption. reflexivity.
Qed.

(** [clean_entry] returns [None]; the entry then holds, under every key
    it had, the cleaned value, and nothing else. *)
Lemma clean_entry_result (e : entry) : result clean_entry e = Return tt.
Proof. unfold result, clean_entry. rewrite for_each_setitem_run. reflexivity. Qed.

Lemma clean_entry_lookup (e : entry) (k : ustring) :
  final clean_entry e !! k = clean_value k <$> e !! k.
Proof.
  unfold final, clean_entry. rewrite for_each_setitem_run. cbn [snd].
  rewrite lookup_foldl_insert by apply NoDup_fst_map_to_list.
  rewrite list_to_map_to_list. destruct (e !! k); reflexivity.
Qed.

(** *** The key computed by [sort_key] *)

Section SortKeyFacts.

Variable ucd_digit : N -> bool.
Variable ucd_decimal : N -> option N.

Lemma sort_key_run (e : entry) :
  sort_key ucd_digit ucd_decimal e = (key_of ucd_digit ucd_decimal e, e).
Proof.
  unfold sort_key, key_of, year_val_of, type_val_of, bind, getitem, lift, ret.
  destruct (e !! u "year") as [y|] eqn:Hy; [|reflexivity].
  destruct (isdigit ucd_digit y).
  - rewrite Hy. destruct (int ucd_decimal y); [|reflexivity].
    destruct (e !! u "ENTRYTYPE") as [t|] eqn:Ht; [|reflexivity].
    destruct (list_contains t BIBTYPE_PRIORITY); [|reflexivity].
    rewrite Ht. destruct (index t BIBTYPE_PRIORITY); reflexivity.
  - destruct (e !! u "ENTRYTYPE") as [t|] eqn:Ht; [|reflexivity].
    destruct (list_contains t BIBTYPE_PRIORITY); [|reflexivity].
    rewrite Ht. destruct (index t BIBTYPE_PRIORITY); reflexivity.
Qed.

End SortKeyFacts.

(** *** Substrings *)

Lemma startswith_app (p s : ustring) : PyStr.startswith p (p ++ s) = true.
Proof.
  induction p as [|c p IH]; [reflexivity|].
  cbn. rewrite N.eqb_refl. exact IH.
Qed.

Lemma startswith_true (p s : ustring) :
  PyStr.startswith p s = true -> exists post, s = p ++ post.
Proof.
  revert s. induction p as [|c p IH]; intros s H.
  - exists s. reflexivity.
  - destruct s as [|d s]; [discriminate|]. cbn in H.
    apply andb_true_iff in H as [Hc Hp]. apply N.eqb_eq in Hc as ->.
    destruct (IH _ Hp) as [post ->]. exists post. reflexivity.
Qed.

Lemma find_from_occurrence (sub pre post : ustring) (i : Z) :
  (i <= PyStr.find_from sub i (pre ++ sub ++ post))%Z.
Proof.
  revert i. induction pre as [|c pre IH]; intros i.
  - cbn [app]. destruct (sub ++ post) as [|d r] eqn:E.
    + destruct sub; [|discriminate]. cbn. lia.
    + cbn [PyStr.find_from]. rewrite <- E, startswith_app. lia.
  - cbn [app PyStr.find_from].
    destruct (PyStr.startswith sub (c :: pre ++ sub ++ post)); [lia|].
    specialize (IH (i + 1)%Z). lia.
Qed.

(** [sub in s] is false only if [sub] occurs nowhere in [s]. *)
Lemma contains_false (sub s : ustring) :
  PyStr.contains sub s = false -> ~ exists pre post, s = pre ++ sub ++ post.
Proof.
  unfold PyStr.contains, PyStr.find. intros H [pre [post ->]].
  pose proof (find_from_occurrence sub pre post 0). lia.
Qed.

(** ** The renderer *)

Lemma result_get_link (e : entry) : result get_link e = Return (link_of e).
Proof. unfold result. rewrite get_link_run. reflexivity. Qed.

Lemma result_html (e : entry) : result get_bib_entry_as_html e = html_of e.
Proof. unfold result. rewrite get_bib_entry_as_html_run. reflexivity. Qed.

Lemma html_of_parts (e : entry) (t p vp y : ustring) :
  result format_title_or_chapter e = Return t ->
  result format_publisher e = Return p ->
  result format_volume_pages_notes e = Return vp ->
  e !! u "year" = Some y ->
  html_of e = Return (item_html (e !! u "author") t p vp y (link_of e)).
Proof.
  unfold result, html_of.
  rewrite format_title_or_chapter_run, format_publisher_run,
    format_volume_pages_notes_run.
  cbn [fst]. intros -> -> -> ->. reflexivity.
Qed.

(** Bring concatenations to the same bracketing. *)
Ltac norm_app := repeat first [rewrite <- !app_assoc | progress (cbn [app])].

Lemma item_html_anchor (a : option ustring) (t p vp y l : ustring) :
  l <> [] ->
  item_html a t p vp y (Some l) =
  (nl :: u "<li>" ++ [nl])
    ++ (u "<a href=" ++ [dq] ++ l ++ [dq] ++ u ">")
    ++ item_body a t p vp y
    ++ u "</a>" ++ (nl :: u "</li>" ++ [nl]) ++ u "<br>" ++ [nl].
Proof.
  intros Hl. unfold item_html, item_body, link_truthy.
  destruct l as [|c l]; [contradiction|]. cbn [PyStr.truthy default].
  norm_app. reflexivity.
Qed.

Lemma item_html_no_anchor (a link : option ustring) (t p vp y : ustring) :
  link_truthy link = false ->
  item_html a t p vp y link =
  (nl :: u "<li>" ++ [nl])
    ++ item_body a t p vp y
    ++ (nl :: u "</li>" ++ [nl]) ++ u "<br>" ++ [nl].
Proof.
  intros Hl. unfold item_html, item_body. rewrite Hl.
  norm_app. reflexivity.
Qed.

(** C10.  When the url field is present but empty, [get_link] passes over
    it and takes www, else the DOI address, else the HAL address, else
    nothing.  The test for emptiness is made on url only: an empty www,
    doi or hal_id is taken as it is. *)
Theorem empty_url_falls_through (e : entry) :
  e !! u "url" = Some [] ->
  result get_link e =
    Return
      match e !! u "www" with
      | Some www => Some www
      | None =>
          match e !! u "doi" with
          | Some doi => Some (u "https://dx.doi.org/" ++ doi)
          | None =>
              match e !! u "hal_id" with
              | Some hal_id => Some (u "https://hal.archives-ouvertes.fr/" ++ hal_id)
              | None => None
              end
          end
      end
  /\ (e !! u "www" = Some [] -> result get_link e = Return (Some []))
  /\ (e !! u "www" = None -> e !! u "doi" = Some [] ->
      result get_link e = Return (Some (u "https://dx.doi.org/")))
  /\ (e !! u "www" = None -> e !! u "doi" = None -> e !! u "hal_id" = Some [] ->
      result get_link e = Return (Some (u "https://hal.archives-ouvertes.fr/"))).
Proof.
  intros Hurl. rewrite result_get_link. unfold link_of. rewrite Hurl.
  split; [reflexivity|]. split; [|split].
  - intros ->. reflexivity.
  - intros -> ->. rewrite app_nil_r. reflexivity.
  - intros -> -> ->. rewrite app_nil_r. reflexivity.
Qed.

Lemma empty_url_falls_through_witness :
  entry_empty_url !! u "url" = Some []
  /\ result get_link entry_empty_url = Return (Some (u "https://dx.doi.org/10.1/x")).
Proof.
  split; [vm_compute; reflexivity|].
  destruct (empty_url_falls_through entry_empty_url) as [H _];
    [vm_compute; reflexivity|].
  rewrite H. vm_compute. reflexivity.
Defined.

(** C4, as stated, fails: with an empty url and a doi the anchor points
    to the DOI address, and no anchor with the (empty) url is written. *)
Lemma url_precedence_counterexample :
  is_Some (entry_empty_url !! u "url")
  /\ is_Some (entry_empty_url !! u "doi")
  /\ exists html,
       result get_bib_entry_as_html entry_empty_url = Return html
       /\ (exists pre post,
             html = pre ++ (u "<a href=" ++ [dq] ++ u "https://dx.doi.org/10.1/x"
                              ++ [dq] ++ u ">") ++ post)
       /\ ~ (exists pre post,
               html = pre ++ (u "<a href=" ++ [dq] ++ [] ++ [dq] ++ u ">") ++ post).
Proof.
  split; [vm_compute; eauto|]. split; [vm_compute; eauto|].
  eexists. split; [vm_compute; reflexivity|]. split.
  - exists (nl :: u "<li>" ++ [nl]). eexists. vm_compute. reflexivity.
  - apply contains_false. vm_compute. reflexivity.
Qed.

(** C4, amended.  The link is the url when it is not empty (whether or
    not there is a doi), else www, else the DOI address, else the HAL
    address.  When the link is a non-empty string the item is wrapped in an
    anchor with that address; an entry with a non-empty url is wrapped in
    an anchor to the url, and an entry with none of the four fields gets no
    anchor. *)
Theorem link_precedence (e : entry) (t p vp y : ustring) :
  result format_title_or_chapter e = Return t ->
  result format_publisher e = Return p ->
  result format_volume_pages_notes e = Return vp ->
  e !! u "year" = Some y ->
  result get_link e = Return (link_of e)
  /\ (forall url, e !! u "url" = Some url -> url <> [] ->
      link_of e = Some url
      /\ result get_bib_entry_as_html e =
           Return ((nl :: u "<li>" ++ [nl])
                     ++ (u "<a href=" ++ [dq] ++ url ++ [dq] ++ u ">")
                     ++ item_body (e !! u "author") t p vp y
                     ++ u "</a>" ++ (nl :: u "</li>" ++ [nl]) ++ u "<br>" ++ [nl]))
  /\ (forall l, link_of e = Some l -> l <> [] ->
      result get_bib_entry_as_html e =
        Return ((nl :: u "<li>" ++ [nl])
                  ++ (u "<a href=" ++ [dq] ++ l ++ [dq] ++ u ">")
                  ++ item_body (e !! u "author") t p vp y
                  ++ u "</a>" ++ (nl :: u "</li>" ++ [nl]) ++ u "<br>" ++ [nl]))
  /\ (e !! u "url" = None -> e !! u "www" = None -> e !! u "doi" = None ->
      e !! u "hal_id" = None ->
      link_of e = None
      /\ result get_bib_entry_as_html e =
           Return ((nl :: u "<li>" ++ [nl])
                     ++ item_body (e !! u "author") t p vp y
                     ++ (nl :: u "</li>" ++ [nl]) ++ u "<br>" ++ [nl])).
Proof.
  intros Ht Hp Hvp Hy.
  pose proof (html_of_parts e t p vp y Ht Hp Hvp Hy) as Hhtml.
  rewrite result_html, Hhtml.
  assert (Hanchor : forall l, link_of e = Some l -> l <> [] ->
    Return (item_html (e !! u "author") t p vp y (link_of e)) =
    Return ((nl :: u "<li>" ++ [nl])
              ++ (u "<a href=" ++ [dq] ++ l ++ [dq] ++ u ">")
              ++ item_body (e !! u "author") t p vp y
              ++ u "</a>" ++ (nl :: u "</li>" ++ [nl]) ++ u "<br>" ++ [nl])).
  { intros l -> Hl. rewrite item_html_anchor by assumption. reflexivity. }
  split; [apply result_get_link|]. split; [|split].
  - intros url Hurl Hne.
    assert (Hl : link_of e = Some url).
    { unfold link_of. rewrite Hurl. destruct url; [contradiction|reflexivity]. }
    split; [exact Hl|]. apply Hanchor; assumption.
  - exact Hanchor.
  - intros Hurl Hwww Hdoi Hhal.
    assert (Hl : link_of e = None).
    { unfold link_of. rewrite Hurl, Hwww, Hdoi, Hhal. reflexivity. }
    split; [exact Hl|]. rewrite Hl, item_html_no_anchor; reflexivity.
Qed.

Lemma link_precedence_witness :
  entry_with_url !! u "url" = Some (u "https://a.b/c")
  /\ is_Some (entry_with_url !! u "doi")
  /\ result get_bib_entry_as_html entry_with_url =
       Return ((nl :: u "<li>" ++ [nl])
                 ++ (u "<a href=" ++ [dq] ++ u "https://a.b/c" ++ [dq] ++ u ">")
                 ++ item_body None
                      (u "<span class=" ++ [dq] ++ u "title" ++ [dq] ++ u "><i>"
                         ++ [dq] ++ u "T" ++ [dq] ++ u "</i></span>")
                      (span (u "publisher") (u "J")) [] (u "2023")
                 ++ u "</a>" ++ (nl :: u "</li>" ++ [nl]) ++ u "<br>" ++ [nl]).
Proof.
  assert (H0 : entry_with_url !! u "url" = Some (u "https://a.b/c"))
    by (vm_compute; reflexivity).
  split; [exact H0|]. split; [vm_compute; eauto|].
  assert (H1 : result format_title_or_chapter entry_with_url
    = Return (u "<span class=" ++ [dq] ++ u "title" ++ [dq] ++ u "><i>"
                ++ [dq] ++ u "T" ++ [dq] ++ u "</i></span>"))
    by (vm_compute; reflexivity).
  assert (H2 : result format_publisher entry_with_url
    = Return (span (u "publisher") (u "J"))) by (vm_compute; reflexivity).
  assert (H3 : result format_volume_pages_notes entry_with_url = Return [])
    by (vm_compute; reflexivity).
  assert (H4 : entry_with_url !! u "year" = Some (u "2023"))
    by (vm_compute; reflexivity).
  destruct (link_precedence entry_with_url _ _ _ _ H1 H2 H3 H4) as [_ [H _]].
  destruct (H (u "https://a.b/c") H0) as [_ Hhtml].
  { intros E. vm_compute in E. discriminate E. }
  rewrite Hhtml. reflexivity.
Defined.

Lemma result_format_publisher (e : entry) :
  result format_publisher e = publisher_of e.
Proof. unfold result. rewrite format_publisher_run. reflexivity. Qed.

Lemma result_format_volume_pages_notes (e : entry) :
  result format_volume_pages_notes e = summary_of e.
Proof. unfold result. rewrite format_volume_pages_notes_run. reflexivity. Qed.

Lemma bool_decide_refl (x : ustring) : bool_decide (x = x) = true.
Proof. apply bool_decide_eq_true_2. reflexivity. Qed.

(** C5, as stated, fails: a technical report that also has a journal
    field is rendered with the journal as its venue, and the text
    "Tech. Report, 7" does not occur in the item. *)
Lemma techreport_venue_counterexample :
  entry_techreport_in_journal !! u "ENTRYTYPE" = Some (u "techreport")
  /\ entry_techreport_in_journal !! u "number" = Some (u "7")
  /\ exists html,
       result get_bib_entry_as_html entry_techreport_in_journal = Return html
       /\ ~ (exists pre post, html = pre ++ (u "Tech. Report, " ++ u "7") ++ post).
Proof.
  split; [vm_compute; reflexivity|]. split; [vm_compute; reflexivity|].
  eexists. split; [vm_compute; reflexivity|].
  apply contains_false. vm_compute. reflexivity.
Qed.

(** C5, amended.  For a technical report with a number field, the summary
    line is made of the volume, pages and month clauses only: it has no
    "no." clause.  When the entry has no journal, booktitle or eprint
    field, which come first as the venue, the venue is
    "Tech. Report, <number>" and the item shows it after the title. *)
Theorem techreport_number (e : entry) (n : ustring) :
  e !! u "ENTRYTYPE" = Some (u "techreport") ->
  e !! u "number" = Some n ->
  let vp :=
    PyStr.join (u ", ")
      (clause (u "vol. ") (e !! u "volume") ++ clause (u "pp. ") (e !! u "pages")
         ++ clause [] (e !! u "month")) in
  result format_volume_pages_notes e = Return vp
  /\ (e !! u "journal" = None -> e !! u "booktitle" = None ->
      e !! u "eprint" = None ->
      result format_publisher e = Return (u "Tech. Report, " ++ n)
      /\ forall t y,
           result format_title_or_chapter e = Return t ->
           e !! u "year" = Some y ->
           result get_bib_entry_as_html e =
             Return (item_html (e !! u "author") t (u "Tech. Report, " ++ n)
                       vp y (link_of e))
           /\ exists pre post,
                item_html (e !! u "author") t (u "Tech. Report, " ++ n)
                  vp y (link_of e)
                = pre ++ (t ++ u "," ++ [nl]) ++ (u "Tech. Report, " ++ n) ++ post).
Proof.
  intros Hty Hn vp.
  assert (Hvp : result format_volume_pages_notes e = Return vp).
  { rewrite result_format_volume_pages_notes. unfold summary_of.
    rewrite Hn, Hty, bool_decide_refl. reflexivity. }
  split; [exact Hvp|]. intros Hj Hb He.
  assert (Hp : result format_publisher e = Return (u "Tech. Report, " ++ n)).
  { rewrite result_format_publisher. unfold publisher_of, field.
    rewrite Hj, Hb, He, Hty, Hn. reflexivity. }
  split; [exact Hp|]. intros t y Ht Hy. split.
  - rewrite result_html. apply html_of_parts; assumption.
  - unfold item_html.
    exists ((nl :: u "<li>" ++ [nl])
              ++ (if link_truthy (link_of e)
                  then u "<a href=" ++ [dq] ++ default [] (link_of e) ++ [dq] ++ u ">"
                  else [])
              ++ match e !! u "author" with
                 | Some a => span (u "author") (a ++ u ",") ++ [nl]
                 | None => []
                 end).
    exists ((if PyStr.truthy vp then u ", " ++ vp else [])
              ++ u ", " ++ span (u "year") y ++ u "." ++ [nl]
              ++ (if link_truthy (link_of e) then u "</a>" else [])
              ++ (nl :: u "</li>" ++ [nl]) ++ u "<br>" ++ [nl]).
    norm_app. reflexivity.
Qed.

Lemma techreport_number_witness :
  entry_techreport !! u "ENTRYTYPE" = Some (u "techreport")
  /\ entry_techreport !! u "number" = Some (u "7")
  /\ result format_volume_pages_notes entry_techreport = Return (u "vol. 3").
Proof.
  assert (H1 : entry_techreport !! u "ENTRYTYPE" = Some (u "techreport"))
    by (vm_compute; reflexivity).
  assert (H2 : entry_techreport !! u "number" = Some (u "7"))
    by (vm_compute; reflexivity).
  split; [exact H1|]. split; [exact H2|].
  rewrite (proj1 (techreport_number entry_techreport (u "7") H1 H2)).
  vm_compute. reflexivity.
Defined.

(** C7.  An entry without volume, number, pages and month fields has an
    empty summary, and nothing is written for it: in the item the venue
    is followed at once by the year clause. *)
Theorem no_summary_clause (e : entry) (t p y : ustring) :
  e !! u "volume" = None ->
  e !! u "number" = None ->
  e !! u "pages" = None ->
  e !! u "month" = None ->
  result format_title_or_chapter e = Return t ->
  result format_publisher e = Return p ->
  e !! u "year" = Some y ->
  result format_volume_pages_notes e = Return []
  /\ result get_bib_entry_as_html e =
       Return ((nl :: u "<li>" ++ [nl])
                 ++ (if link_truthy (link_of e)
                     then u "<a href=" ++ [dq] ++ default [] (link_of e)
                            ++ [dq] ++ u ">"
                     else [])
                 ++ match e !! u "author" with
                    | Some a => span (u "author") (a ++ u ",") ++ [nl]
                    | None => []
                    end
                 ++ t ++ u "," ++ [nl]
                 ++ p
                 ++ u ", " ++ span (u "year") y ++ u "." ++ [nl]
                 ++ (if link_truthy (link_of e) then u "</a>" else [])
                 ++ (nl :: u "</li>" ++ [nl])
                 ++ u "<br>" ++ [nl]).
Proof.
  intros Hv Hn Hp Hm Ht Hpub Hy.
  assert (Hvp : result format_volume_pages_notes e = Return []).
  { rewrite result_format_volume_pages_notes. unfold summary_of.
    rewrite Hv, Hn, Hp, Hm. reflexivity. }
  split; [exact Hvp|].
  rewrite result_html, (html_of_parts e t p [] y Ht Hpub Hvp Hy).
  reflexivity.
Qed.

Lemma no_summary_clause_witness :
  entry_plain !! u "volume" = None
  /\ result get_bib_entry_as_html entry_plain =
       Return ((nl :: u "<li>" ++ [nl])
                 ++ (u "<span class=" ++ [dq] ++ u "title" ++ [dq] ++ u "><i>"
                       ++ [dq] ++ u "T" ++ [dq] ++ u "</i></span>")
                 ++ u "," ++ [nl]
                 ++ span (u "publisher") (u "J")
                 ++ u ", " ++ span (u "year") (u "2023") ++ u "." ++ [nl]
                 ++ (nl :: u "</li>" ++ [nl])
                 ++ u "<br>" ++ [nl]).
Proof.
  split; [vm_compute; reflexivity|].
  rewrite (proj2 (no_summary_clause entry_plain
    (u "<span class=" ++ [dq] ++ u "title" ++ [dq] ++ u "><i>"
       ++ [dq] ++ u "T" ++ [dq] ++ u "</i></span>")
    (span (u "publisher") (u "J")) (u "2023")
    ltac:(vm_compute; reflexivity) ltac:(vm_compute; reflexivity)
    ltac:(vm_compute; reflexivity) ltac:(vm_compute; reflexivity)
    ltac:(vm_compute; reflexivity) ltac:(vm_compute; reflexivity)
    ltac:(vm_compute; reflexivity))).
  vm_compute. reflexivity.
Defined.

(** ** Missing fields and the frame *)

Lemma title_of_raises (e : entry) (x : exn) :
  title_of e = Raise x -> exists k, x = KeyError k.
Proof.
  unfold title_of, field.
  destruct (e !! u "chapter"); destruct (e !! u "title");
    try destruct (e !! u "publisher"); intros H; inversion H; eauto.
Qed.

Lemma publisher_of_raises (e : entry) (x : exn) :
  publisher_of e = Raise x -> exists k, x = KeyError k.
Proof.
  unfold publisher_of, field.
  destruct (e !! u "journal"); [discriminate|].
  destruct (e !! u "booktitle"); [discriminate|].
  destruct (e !! u "eprint"); [discriminate|].
  destruct (e !! u "ENTRYTYPE") as [ty|]; [|intros H; inversion H; eauto].
  destruct (bool_decide (ty = u "phdthesis")).
  { destruct (e !! u "school"); intros H; inversion H; eauto. }
  destruct (bool_decide (ty = u "techreport")).
  { destruct (e !! u "number"); intros H; inversion H; eauto. }
  destruct (bool_decide (ty = u "book")); [|discriminate].
  destruct (e !! u "publisher"); intros H; inversion H; eauto.
Qed.

Lemma summary_of_raises (e : entry) (x : exn) :
  summary_of e = Raise x -> exists k, x = KeyError k.
Proof.
  unfold summary_of.
  destruct (e !! u "number"); [|discriminate].
  destruct (e !! u "ENTRYTYPE") as [ty|]; [|intros H; inversion H; eauto].
  destruct (bool_decide (ty = u "techreport")); discriminate.
Qed.

(** The exception [run_each] ends with is the one raised on the first
    entry on which the computation raises. *)
Lemma run_each_raise_at {A} (m : Py A) (pre : list entry) (e : entry)
    (post : list entry) (x : exn) :
  Forall (fun a => exists r, result m a = Return r) pre ->
  result m e = Raise x ->
  run_each m (pre ++ e :: post) = Raise x.
Proof.
  intros Hpre Hx. induction Hpre as [|a pre [r Hr] _ IH].
  - cbn [app run_each]. unfold result in Hx.
    destruct (m e) as [[b|y] e1]; cbn in Hx; [discriminate|].
    injection Hx as ->. reflexivity.
  - cbn [app run_each]. unfold result in Hr.
    destruct (m a) as [[b|y] e1]; cbn in Hr; [|discriminate].
    rewrite IH. reflexivity.
Qed.

Lemma run_each_first_raise {A} (m : Py A) (es : list entry) (e : entry) (x : exn) :
  e ∈ es -> result m e = Raise x ->
  exists pre e' post x',
    es = pre ++ e' :: post
    /\ Forall (fun a => exists r, result m a = Return r) pre
    /\ result m e' = Raise x'.
Proof.
  intros Hin Hx. induction es as [|a es IH]; [inversion Hin|].
  destruct (result m a) as [r|y] eqn:Ha.
  - apply elem_of_cons in Hin as [->|Hin]; [congruence|].
    destruct (IH Hin) as [pre [e' [post [x' [-> [Hpre He']]]]]].
    exists (a :: pre), e', post, x'. split; [reflexivity|].
    split; [|exact He']. apply Forall_cons. split; [eauto | exact Hpre].
  - exists [], a, es, y. split; [reflexivity|]. split; [apply Forall_nil_2 | exact Ha].
Qed.

(** C6.  On an entry without a year field [sort_key] raises [KeyError]
    for "year" and [get_bib_entry_as_html] raises a [KeyError].  The
    script has no handler: when one of its entries has no year, it ends
    with the very exception that [sort_key] raised on the first entry of
    the file on which it raises, and this is [KeyError] for "year" when
    that first entry is the one without a year. *)
Theorem missing_year_raises (ucd_digit : N -> bool) (ucd_decimal : N -> option N)
    (e : entry) :
  e !! u "year" = None ->
  result (sort_key ucd_digit ucd_decimal) e = Raise (KeyError (u "year"))
  /\ (exists k, result get_bib_entry_as_html e = Raise (KeyError k))
  /\ (forall pre post,
      Forall (fun a => exists key,
                result (sort_key ucd_digit ucd_decimal) a = Return key) pre ->
      main ucd_digit ucd_decimal (pre ++ e :: post) = Raise (KeyError (u "year")))
  /\ (forall entries, e ∈ entries ->
      exists pre e' post x,
        entries = pre ++ e' :: post
        /\ Forall (fun a => exists key,
                     result (sort_key ucd_digit ucd_decimal) a = Return key) pre
        /\ result (sort_key ucd_digit ucd_decimal) e' = Raise x
        /\ main ucd_digit ucd_decimal entries = Raise x).
Proof.
  intros Hy.
  assert (Hkey : result (sort_key ucd_digit ucd_decimal) e = Raise (KeyError (u "year"))).
  { unfold result. rewrite sort_key_run. unfold key_of. rewrite Hy. reflexivity. }
  split; [exact Hkey|]. split; [|split].
  - rewrite result_html. unfold html_of. rewrite Hy.
    destruct (title_of e) as [t|x] eqn:Ht.
    2:{ destruct (title_of_raises _ _ Ht) as [k ->]. eauto. }
    destruct (publisher_of e) as [p|x] eqn:Hp.
    2:{ destruct (publisher_of_raises _ _ Hp) as [k ->]. eauto. }
    destruct (summary_of e) as [vp|x] eqn:Hvp.
    2:{ destruct (summary_of_raises _ _ Hvp) as [k ->]. eauto. }
    eauto.
  - intros pre post Hpre. unfold main.
    rewrite (run_each_raise_at _ pre e post _ Hpre Hkey). reflexivity.
  - intros entries Hin.
    destruct (run_each_first_raise _ entries e _ Hin Hkey)
      as [pre [e' [post [x [-> [Hpre He']]]]]].
    exists pre, e', post, x. split; [reflexivity|]. split; [exact Hpre|].
    split; [exact He'|]. unfold main.
    rewrite (run_each_raise_at _ pre e' post _ Hpre He'). reflexivity.
Qed.

Lemma missing_year_raises_witness :
  entry_without_year !! u "year" = None
  /\ result (sort_key no_digit_above_latin1 no_decimal_above_latin1)
       entry_without_year = Raise (KeyError (u "year"))
  /\ main no_digit_above_latin1 no_decimal_above_latin1
       [entry_plain; entry_without_year; entry_superscript_year]
     = Raise (KeyError (u "year")).
Proof.
  assert (H : entry_without_year !! u "year" = None) by (vm_compute; reflexivity).
  split; [exact H|].
  destruct (missing_year_raises no_digit_above_latin1 no_decimal_above_latin1
              entry_without_year H) as [Hkey [_ [Hmain _]]].
  split; [exact Hkey|].
  apply (Hmain [entry_plain] [entry_superscript_year]).
  apply Forall_cons. split; [|apply Forall_nil_2].
  eexists. vm_compute. reflexivity.
Defined.

(** C9.  [clean_entry] changes values only: the entry has the same keys
    afterwards.  [sort_key] and [get_bib_entry_as_html] leave the entry
    exactly as it was, whether they return or raise. *)
Theorem entry_frame (ucd_digit : N -> bool) (ucd_decimal : N -> option N)
    (e : entry) :
  result clean_entry e = Return tt
  /\ dom (final clean_entry e) = dom e
  /\ final (sort_key ucd_digit ucd_decimal) e = e
  /\ final get_bib_entry_as_html e = e.
Proof.
  split; [apply clean_entry_result|]. split; [|split].
  - apply set_eq. intros k.
    rewrite !elem_of_dom, clean_entry_lookup, fmap_is_Some. reflexivity.
  - unfold final. rewrite sort_key_run. reflexivity.
  - unfold final. rewrite get_bib_entry_as_html_run. reflexivity.
Qed.

(** ** The sort key *)

Section SortKeyProperties.

Variable ucd_digit : N -> bool.
Variable ucd_decimal : N -> option N.

(** A year that is not a digit string sorts as infinity. *)
Lemma year_val_not_digit (y : ustring) :
  isdigit ucd_digit y = false -> year_val_of ucd_digit ucd_decimal y = Return Inf.
Proof. unfold year_val_of. intros ->. reflexivity. Qed.

(** [int] on a non-empty string within the limit. *)
Lemma int_within_limit (y : ustring) :
  y <> [] -> (length y <= int_max_str_digits)%nat ->
  int ucd_decimal y
  = match digits_value ucd_decimal 0 y with
    | Some z => Return z
    | None => Raise ValueError
    end.
Proof.
  intros Hne Hlen. unfold int. destruct y as [|c y]; [contradiction|].
  apply Nat.ltb_ge in Hlen. rewrite Hlen. reflexivity.
Qed.

(** [int] on a string beyond the limit. *)
Lemma int_beyond_limit (y : ustring) :
  (int_max_str_digits < length y)%nat -> int ucd_decimal y = Raise ValueError.
Proof.
  intros Hlen. unfold int. destruct y as [|c y]; [reflexivity|].
  apply Nat.ltb_lt in Hlen. rewrite Hlen. reflexivity.
Qed.

(** A year written with characters that all have a decimal value, and
    not too long for [int], is parsed as that number. *)
Lemma year_val_decimal (y : ustring) (z : Z) :
  isdigit ucd_digit y = true ->
  (length y <= int_max_str_digits)%nat ->
  digits_value ucd_decimal 0 y = Some z ->
  year_val_of ucd_digit ucd_decimal y = Return (Int z).
Proof.
  unfold year_val_of. intros Hd Hlen Hz. rewrite Hd.
  rewrite int_within_limit by (first [assumption | intros ->; discriminate Hd]).
  rewrite Hz. reflexivity.
Qed.

(** An unknown entry type sorts as infinity, a known one by its position
    in the priority list. *)
Lemma type_val_unknown (t : ustring) :
  t ∉ BIBTYPE_PRIORITY -> type_val_of t = Return Inf.
Proof.
  intros H. unfold type_val_of, list_contains.
  rewrite bool_decide_eq_false_2 by assumption. reflexivity.
Qed.

Lemma index_from_lookup (t : ustring) (l : list ustring) (i : Z) :
  t ∈ l ->
  exists n : nat,
    index_from t i l = Return (i + Z.of_nat n)%Z
    /\ l !! n = Some t
    /\ forall m : nat, (m < n)%nat -> l !! m <> Some t.
Proof.
  revert i. induction l as [|x l IH]; intros i Hin; [inversion Hin|].
  cbn [index_from]. destruct (decide (x = t)) as [->|Hne].
  - exists 0%nat. rewrite bool_decide_eq_true_2 by reflexivity.
    split; [f_equal; lia|]. split; [reflexivity|]. intros m Hm. lia.
  - rewrite bool_decide_eq_false_2 by assumption.
    apply elem_of_cons in Hin as [->|Hin]; [contradiction|].
    destruct (IH (i + 1)%Z Hin) as [n [Hi [Hn Hfirst]]].
    exists (S n). split; [rewrite Hi; f_equal; lia|]. split; [exact Hn|].
    intros [|m] Hm; cbn; [congruence|]. apply Hfirst. lia.
Qed.

Lemma type_val_known (t : ustring) :
  t ∈ BIBTYPE_PRIORITY ->
  exists n : nat,
    type_val_of t = Return (Int (Z.of_nat n))
    /\ BIBTYPE_PRIORITY !! n = Some t.
Proof.
  intros H. unfold type_val_of, list_contains, index.
  rewrite bool_decide_eq_true_2 by assumption.
  destruct (index_from_lookup t BIBTYPE_PRIORITY 0 H) as [n [-> [Hn _]]].
  exists n. split; [reflexivity | exact Hn].
Qed.

(** What [sort_key] returns when the year can be read: the pair of the
    two values. *)
Lemma sort_key_returns (e : entry) (y t : ustring) (yv tv : number) :
  e !! u "year" = Some y ->
  e !! u "ENTRYTYPE" = Some t ->
  year_val_of ucd_digit ucd_decimal y = Return yv ->
  type_val_of t = Return tv ->
  result (sort_key ucd_digit ucd_decimal) e = Return (yv, tv).
Proof.
  intros Hy Ht Hyv Htv. unfold result. rewrite sort_key_run. unfold key_of.
  rewrite Hy, Hyv, Ht, Htv. reflexivity.
Qed.

(** The order on keys: an integer is below infinity, so that years that
    are not numbers, and within a year unknown types, come last. *)
Lemma number_lt_inf (z : Z) : number_lt (Int z) Inf = true /\ number_lt Inf (Int z) = false.
Proof. split; reflexivity. Qed.

Lemma key_lt_total (a b : number * number) :
  a <> b -> key_lt a b = true \/ key_lt b a = true.
Proof.
  destruct a as [[x1|] [x2|]], b as [[y1|] [y2|]]; unfold key_lt; cbn;
    intros Hne;
    repeat match goal with
    | |- context [(?x =? ?y)%Z] => destruct (Z.eqb_spec x y); subst
    end;
    try (left; reflexivity); try (right; reflexivity);
    try contradiction; rewrite ?Z.ltb_lt; try lia;
    try (destruct (Z.lt_total x2 y2) as [H|[H|H]]; [left; lia| subst; contradiction | right; lia]).
Qed.

(** A year written with the digits 0-9 is parsed, whatever the database
    says about other characters. *)
Lemma digits_value_ascii (y : ustring) (acc : Z) :
  forallb (fun c => (48 <=? c) && (c <=? 57)) y = true ->
  isdigit ucd_digit y = PyStr.truthy y
  /\ exists z, digits_value ucd_decimal acc y = Some z.
Proof.
  revert acc. induction y as [|c y IH]; intros acc Hy.
  - split; [reflexivity | eauto].
  - cbn [forallb] in Hy. apply andb_true_iff in Hy as [Hc Hy].
    assert (Hlt : (c <? 256) = true).
    { apply andb_true_iff in Hc as [_ Hc]. apply N.leb_le in Hc.
      apply N.ltb_lt. lia. }
    destruct (IH (10 * acc + Z.of_N (c - 48))%Z Hy) as [Hd [z Hz]]. split.
    + unfold isdigit in *. cbn [PyStr.truthy forallb andb].
      unfold is_digit_char at 1. rewrite Hlt, Hc. cbn [orb].
      destruct y; [reflexivity | exact Hd].
    + exists z. cbn [digits_value]. unfold decimal_value. rewrite Hlt, Hc.
      exact Hz.
Qed.

Lemma year_val_ascii (y : ustring) :
  y <> [] ->
  (length y <= int_max_str_digits)%nat ->
  forallb (fun c => (48 <=? c) && (c <=? 57)) y = true ->
  exists z, digits_value ucd_decimal 0 y = Some z
            /\ year_val_of ucd_digit ucd_decimal y = Return (Int z).
Proof.
  intros Hne Hlen Hy. destruct (digits_value_ascii y 0 Hy) as [Hd [z Hz]].
  exists z. split; [exact Hz|]. apply year_val_decimal; [|exact Hlen|exact Hz].
  rewrite Hd. destruct y; [contradiction | reflexivity].
Qed.

(** C2.  A year made of superscript two passes the [isdigit] test, and
    [int] then rejects it: [sort_key] raises [ValueError] instead of
    returning a key with an infinite year. *)
Theorem sort_key_superscript_year :
  entry_superscript_year !! u "year" = Some [178]
  /\ entry_superscript_year !! u "ENTRYTYPE" = Some (u "article")
  /\ isdigit ucd_digit [178] = true
  /\ result (sort_key ucd_digit ucd_decimal) entry_superscript_year = Raise ValueError.
Proof.
  split; [vm_compute; reflexivity|]. split; [vm_compute; reflexivity|].
  split; [reflexivity|].
  unfold result. rewrite sort_key_run. unfold key_of.
  replace (entry_superscript_year !! u "year") with (Some [178])
    by (vm_compute; reflexivity).
  reflexivity.
Qed.

End SortKeyProperties.

(** ** The steps of the cleaner *)

(** *** Trimming *)


Lemma lstrip_fixed (c : N) (s : ustring) :
  PyStr.isspace c = false -> PyStr.lstrip (c :: s) = c :: s.
Proof. intros H. cbn. rewrite H. reflexivity. Qed.

Lemma forallb_rev (f : N -> bool) (l : ustring) :
  forallb f (rev l) = forallb f l.
Proof.
  induction l as [|c l IH]; [reflexivity|].
  cbn [rev forallb]. rewrite forallb_app, IH. cbn. rewrite andb_true_r.
  apply andb_comm.
Qed.


(** *** Removing one character everywhere *)

Lemma replace_char_filter (c : N) (s : ustring) :
  PyStr.replace [c] [] s = List.filter (fun d => negb (c =? d)) s.
Proof.
  unfold PyStr.replace. induction s as [|d s IH]; [reflexivity|].
  cbn [PyStr.replace_from PyStr.startswith List.filter length Nat.sub].
  rewrite andb_true_r. destruct (c =? d); cbn [negb app]; rewrite IH; reflexivity.
Qed.

Lemma filter_filter (f g : N -> bool) (s : ustring) :
  List.filter f (List.filter g s) = List.filter (fun c => g c && f c) s.
Proof.
  induction s as [|c s IH]; [reflexivity|].
  cbn [List.filter]. destruct (g c); cbn [List.filter andb]; [|exact IH].
  destruct (f c); rewrite IH; reflexivity.
Qed.

(** Braces and double quotes are removed wherever they stand; every
    other character stays, in order. *)
Lemma strip_delimiters_filter (s : ustring) :
  strip_delimiters s = List.filter (fun c => negb (is_delimiter c)) s.
Proof.
  unfold strip_delimiters.
  change (u "{") with [123]. change (u "}") with [125].
  rewrite !replace_char_filter, !filter_filter.
  apply List.filter_ext. intros c. unfold is_delimiter.
  rewrite !negb_orb, !(N.eqb_sym c), andb_assoc. reflexivity.
Qed.

(** *** The trailing comma *)

Lemma last_snoc_N (s : ustring) (c : N) : last (s ++ [c]) = Some c.
Proof. apply last_snoc. Qed.


Lemma drop_trailing_comma_other (s : ustring) :
  last s <> Some 44 -> drop_trailing_comma s = s.
Proof.
  intros H. unfold drop_trailing_comma.
  rewrite bool_decide_eq_false_2 by assumption.
  destruct (0 <? length s)%nat; reflexivity.
Qed.

(** ** Scanning: the equations of [replace] and [split] *)

Lemma startswith_head (c d : N) (p s : ustring) :
  c <> d -> PyStr.startswith (c :: p) (d :: s) = false.
Proof. intros H. cbn. apply N.eqb_neq in H. rewrite H. reflexivity. Qed.

Lemma replace_from_skip (old new xs rest : ustring) :
  PyStr.replace_from old new (length xs) (xs ++ rest)
  = PyStr.replace_from old new 0 rest.
Proof. induction xs as [|x xs IH]; [reflexivity | exact IH]. Qed.

Lemma replace_nil (old new : ustring) :
  old <> [] -> PyStr.replace old new [] = [].
Proof. destruct old; [contradiction | reflexivity]. Qed.

Lemma replace_match (old new rest : ustring) :
  old <> [] ->
  PyStr.replace old new (old ++ rest) = new ++ PyStr.replace old new rest.
Proof.
  destruct old as [|o old]; [contradiction|]. intros _. unfold PyStr.replace.
  change ((o :: old) ++ rest) with (o :: (old ++ rest)).
  cbn [PyStr.replace_from].
  change (o :: (old ++ rest)) with ((o :: old) ++ rest).
  rewrite startswith_app. cbn [length Nat.sub]. rewrite Nat.sub_0_r.
  rewrite replace_from_skip. reflexivity.
Qed.

Lemma replace_step (old new : ustring) (c : N) (t : ustring) :
  old <> [] ->
  PyStr.startswith old (c :: t) = false ->
  PyStr.replace old new (c :: t) = c :: PyStr.replace old new t.
Proof.
  destruct old as [|o old]; [contradiction|]. intros _ H. unfold PyStr.replace.
  cbn [PyStr.replace_from]. rewrite H. reflexivity.
Qed.

Lemma split_from_skip (sep xs rest : ustring) :
  PyStr.split_from sep (length xs) (xs ++ rest) = PyStr.split_from sep 0 rest.
Proof. induction xs as [|x xs IH]; [reflexivity | exact IH]. Qed.

Lemma split_from_nonempty (sep : ustring) (k : nat) (s : ustring) :
  PyStr.split_from sep k s <> [].
Proof.
  revert k. induction s as [|c s IH]; intros k; [discriminate|].
  cbn [PyStr.split_from]. destruct k; [|apply IH].
  destruct (PyStr.startswith sep (c :: s)); [discriminate|].
  destruct (PyStr.split_from sep 0 s); discriminate.
Qed.

Lemma split_nonempty (sep s : ustring) : PyStr.split sep s <> [].
Proof. apply split_from_nonempty. Qed.

Lemma split_nil (sep : ustring) : PyStr.split sep [] = [[]].
Proof. reflexivity. Qed.

Lemma split_match (sep rest : ustring) :
  sep <> [] -> PyStr.split sep (sep ++ rest) = [] :: PyStr.split sep rest.
Proof.
  destruct sep as [|o sep]; [contradiction|]. intros _. unfold PyStr.split.
  change ((o :: sep) ++ rest) with (o :: (sep ++ rest)).
  cbn [PyStr.split_from].
  change (o :: (sep ++ rest)) with ((o :: sep) ++ rest).
  rewrite startswith_app. cbn [length Nat.sub]. rewrite Nat.sub_0_r.
  rewrite split_from_skip. reflexivity.
Qed.

Lemma split_step (sep : ustring) (c : N) (t : ustring) :
  PyStr.startswith sep (c :: t) = false ->
  PyStr.split sep (c :: t) = app_hd [c] (PyStr.split sep t).
Proof.
  intros H. unfold PyStr.split. cbn [PyStr.split_from]. rewrite H.
  destruct (PyStr.split_from sep 0 t); reflexivity.
Qed.

Lemma app_hd_app (w1 w2 : ustring) (l : list ustring) :
  l <> [] -> app_hd w1 (app_hd w2 l) = app_hd (w1 ++ w2) l.
Proof.
  destruct l; [contradiction|]. intros _. cbn. rewrite <- app_assoc. reflexivity.
Qed.

Lemma app_hd_nonempty (w : ustring) (l : list ustring) : app_hd w l <> [].
Proof. destruct l; discriminate. Qed.

(** A run of characters that cannot start the separator goes to the
    current piece. *)
Lemma split_word (o : N) (sep w t : ustring) :
  forallb (fun c => negb (c =? o)) w = true ->
  PyStr.split (o :: sep) (w ++ t) = app_hd w (PyStr.split (o :: sep) t).
Proof.
  induction w as [|c w IH]; intros Hw.
  - cbn [app]. pose proof (split_nonempty (o :: sep) t).
    destruct (PyStr.split (o :: sep) t); [contradiction | reflexivity].
  - cbn [forallb] in Hw. apply andb_true_iff in Hw as [Hc Hw].
    cbn [app]. rewrite split_step.
    + rewrite (IH Hw). apply (app_hd_app [c] w), split_nonempty.
    + apply startswith_head. apply negb_true_iff, N.eqb_neq in Hc. congruence.
Qed.

(** Likewise for [replace]: characters that cannot start [old] are kept. *)
Lemma replace_word (o : N) (old new w t : ustring) :
  forallb (fun c => negb (c =? o)) w = true ->
  PyStr.replace (o :: old) new (w ++ t) = w ++ PyStr.replace (o :: old) new t.
Proof.
  induction w as [|c w IH]; intros Hw; [reflexivity|].
  cbn [forallb] in Hw. apply andb_true_iff in Hw as [Hc Hw].
  cbn [app]. rewrite replace_step; [rewrite (IH Hw); reflexivity|discriminate|].
  apply startswith_head. apply negb_true_iff, N.eqb_neq in Hc. congruence.
Qed.

Lemma replace_absent (o : N) (old new s : ustring) :
  forallb (fun c => negb (c =? o)) s = true ->
  PyStr.replace (o :: old) new s = s.
Proof.
  intros H. rewrite <- (app_nil_r s) at 1.
  rewrite (replace_word o old new s [] H), replace_nil by discriminate.
  apply app_nil_r.
Qed.

(** Joining pieces that cannot start the separator, and splitting again. *)
Lemma join_cons (sep x : ustring) (xs : list ustring) :
  xs <> [] -> PyStr.join sep (x :: xs) = x ++ sep ++ PyStr.join sep xs.
Proof. destruct xs; [contradiction | reflexivity]. Qed.

Lemma split_join (o : N) (sep : ustring) (ts : list ustring) :
  ts <> [] ->
  Forall (fun w => forallb (fun c => negb (c =? o)) w = true) ts ->
  PyStr.split (o :: sep) (PyStr.join (o :: sep) ts) = ts.
Proof.
  induction ts as [|w ts IH]; [contradiction|]. intros _ Hts.
  apply Forall_cons in Hts as [Hw Hts]. destruct ts as [|w' ts].
  - cbn [PyStr.join]. rewrite <- (app_nil_r w) at 1.
    rewrite (split_word o sep w [] Hw), split_nil. cbn. rewrite app_nil_r.
    reflexivity.
  - rewrite join_cons by discriminate.
    rewrite (split_word o sep w _ Hw), split_match by discriminate.
    rewrite IH by (discriminate || assumption). cbn. rewrite app_nil_r.
    reflexivity.
Qed.

Lemma replace_join (o : N) (new : ustring) (ts : list ustring) :
  Forall (fun w => forallb (fun c => negb (c =? o)) w = true) ts ->
  PyStr.replace [o] new (PyStr.join [o] ts) = PyStr.join new ts.
Proof.
  induction ts as [|w ts IH]; [reflexivity|]. intros Hts.
  apply Forall_cons in Hts as [Hw Hts]. destruct ts as [|w' ts].
  - cbn [PyStr.join]. apply replace_absent, Hw.
  - rewrite !join_cons by discriminate.
    rewrite (replace_word o [] new w _ Hw), replace_match by discriminate.
    rewrite IH by assumption. reflexivity.
Qed.

(** ** Plain and mild strings *)

Lemma plain_char_facts (c : N) :
  plain_char c = true ->
  PyStr.isspace c = false /\ c <> 32 /\ c <> 44 /\ c <> 38 /\ mild_char c = true.
Proof.
  unfold plain_char, mild_char. intros H.
  repeat (apply andb_true_iff in H as [H ?]).
  repeat match goal with
  | H : negb _ = true |- _ => apply negb_true_iff in H
  end.
  assert (Hs : c <> 32) by (intros ->; discriminate).
  repeat match goal with
  | H : (_ =? _) = false |- _ => apply N.eqb_neq in H
  end.
  repeat split; try assumption.
  rewrite !andb_true_iff, !negb_true_iff, !N.eqb_neq. auto.
Qed.

Lemma forallb_impl (f g : N -> bool) (s : ustring) :
  (forall c, f c = true -> g c = true) ->
  forallb f s = true -> forallb g s = true.
Proof.
  intros Hfg. rewrite !forallb_forall. intros H c Hc. apply Hfg, H, Hc.
Qed.

Lemma plain_no_char (o : N) (w : ustring) :
  plain_char o = false ->
  forallb plain_char w = true -> forallb (fun c => negb (c =? o)) w = true.
Proof.
  intros Ho. apply forallb_impl. intros c Hc.
  apply negb_true_iff, N.eqb_neq. intros ->. congruence.
Qed.

Lemma mild_no_char (o : N) (w : ustring) :
  mild_char o = false ->
  forallb mild_char w = true -> forallb (fun c => negb (c =? o)) w = true.
Proof.
  intros Ho. apply forallb_impl. intros c Hc.
  apply negb_true_iff, N.eqb_neq. intros ->. congruence.
Qed.

Lemma plain_mild (w : ustring) :
  forallb plain_char w = true -> forallb mild_char w = true.
Proof. apply forallb_impl. intros c Hc. apply plain_char_facts, Hc. Qed.

(** *** The first four steps leave a mild string with plain ends alone *)

Lemma replace_special_mild (v : ustring) :
  forallb mild_char v = true -> replace_special v = v.
Proof.
  intros Hv. unfold replace_special, special_characters.
  cbn [fold_left fst snd]. change (u "~") with [126].
  repeat rewrite (replace_absent _ _ _ v)
    by (apply mild_no_char; [reflexivity | assumption]).
  reflexivity.
Qed.

Lemma filter_all (f : N -> bool) (s : ustring) :
  forallb f s = true -> List.filter f s = s.
Proof.
  induction s as [|c s IH]; [reflexivity|]. cbn [forallb List.filter].
  intros H. apply andb_true_iff in H as [Hc Hs]. rewrite Hc, IH by assumption.
  reflexivity.
Qed.

Lemma strip_delimiters_mild (v : ustring) :
  forallb mild_char v = true -> strip_delimiters v = v.
Proof.
  intros Hv. rewrite strip_delimiters_filter. apply filter_all.
  revert Hv. apply forallb_impl. intros c Hc. unfold mild_char in Hc.
  apply andb_true_iff in Hc as [_ Hc]. exact Hc.
Qed.

Lemma strip_fixed (s : ustring) (c d : N) (t t' : ustring) :
  s = c :: t -> s = t' ++ [d] ->
  PyStr.isspace c = false -> PyStr.isspace d = false ->
  PyStr.strip s = s.
Proof.
  intros Hc Hd Hcs Hds. unfold PyStr.strip, PyStr.rstrip.
  rewrite Hc, (lstrip_fixed c t Hcs), <- Hc, Hd, rev_app_distr.
  cbn [rev app]. rewrite (lstrip_fixed d _ Hds).
  change (d :: rev t') with ([d] ++ rev t').
  rewrite rev_app_distr, rev_involutive. reflexivity.
Qed.

Lemma strip_ends_plain (s : ustring) : ends_plain s -> PyStr.strip s = s.
Proof.
  intros [[c [t [Hc Hpc]]] [t' [d [Hd Hpd]]]].
  apply (strip_fixed s c d t t' Hc Hd); apply plain_char_facts; assumption.
Qed.

Lemma drop_trailing_comma_ends_plain (s : ustring) :
  ends_plain s -> drop_trailing_comma s = s.
Proof.
  intros [_ [t [d [-> Hd]]]]. apply drop_trailing_comma_other.
  rewrite last_snoc_N. intros [= ->]. discriminate.
Qed.

Lemma generic_steps_fixed (v : ustring) :
  forallb mild_char v = true -> ends_plain v ->
  drop_trailing_comma (strip_delimiters (replace_special (PyStr.strip v))) = v.
Proof.
  intros Hm He.
  rewrite (strip_ends_plain v He), (replace_special_mild v Hm),
    (strip_delimiters_mild v Hm).
  apply drop_trailing_comma_ends_plain, He.
Qed.

(** *** Strings with plain ends *)

Lemma ends_plain_app (a m b : ustring) :
  ends_plain a -> ends_plain b -> ends_plain (a ++ m ++ b).
Proof.
  intros [[c [t [-> Hc]]] _] [_ [t' [d [-> Hd]]]]. split.
  - exists c, (t ++ m ++ t' ++ [d]). split; [reflexivity | exact Hc].
  - exists ((c :: t) ++ m ++ t'), d. split; [|exact Hd].
    rewrite <- !app_assoc. reflexivity.
Qed.

Lemma ends_plain_join (sep : ustring) (xs : list ustring) :
  xs <> [] -> Forall ends_plain xs -> ends_plain (PyStr.join sep xs).
Proof.
  induction xs as [|x xs IH]; [contradiction|]. intros _ Hxs.
  apply Forall_cons in Hxs as [Hx Hxs]. destruct xs as [|x' xs]; [exact Hx|].
  rewrite join_cons by discriminate.
  apply ends_plain_app; [exact Hx | apply IH; [discriminate | exact Hxs]].
Qed.

Lemma forallb_join (f : N -> bool) (sep : ustring) (xs : list ustring) :
  forallb f sep = true ->
  Forall (fun x => forallb f x = true) xs ->
  forallb f (PyStr.join sep xs) = true.
Proof.
  intros Hsep. induction xs as [|x xs IH]; [reflexivity|]. intros Hxs.
  apply Forall_cons in Hxs as [Hx Hxs]. destruct xs as [|x' xs]; [exact Hx|].
  rewrite join_cons by discriminate.
  rewrite !forallb_app, Hx, Hsep, IH by assumption. reflexivity.
Qed.

(** *** Blanks, absent characters and the keys of authors *)

(** Two strings without blanks that are followed by a blank (or by the
    end) at the same place are equal. *)
Lemma first_blank_unique (t a f post : ustring) :
  forallb (fun c => negb (c =? 32)) t = true ->
  forallb (fun c => negb (c =? 32)) a = true ->
  f = [] \/ (exists f', f = 32 :: f') ->
  t ++ f = a ++ 32 :: post -> t = a.
Proof.
  revert a. induction t as [|c t IH]; intros a Ht Ha Hf H.
  - destruct a as [|d a]; [reflexivity|]. exfalso.
    destruct Hf as [->|[f' ->]]; [discriminate|].
    injection H as <- _. discriminate.
  - cbn in Ht. apply andb_true_iff in Ht as [Hc Ht].
    destruct a as [|d a].
    + injection H as -> _. discriminate.
    + cbn in Ha. apply andb_true_iff in Ha as [_ Ha].
      injection H as -> H. f_equal. exact (IH a Ht Ha Hf H).
Qed.

Lemma find_absent (o : N) (sub s : ustring) :
  forallb (fun c => negb (c =? o)) s = true ->
  PyStr.find (o :: sub) s = (-1)%Z.
Proof.
  unfold PyStr.find. generalize 0%Z.
  induction s as [|c s IH]; intros i Hs; [reflexivity|].
  cbn [forallb] in Hs. apply andb_true_iff in Hs as [Hc Hs].
  cbn [PyStr.find_from]. rewrite startswith_head.
  - apply IH, Hs.
  - apply negb_true_iff, N.eqb_neq in Hc. congruence.
Qed.

Lemma author_key_not_pages (k : ustring) :
  is_author_key k = true -> bool_decide (k = u "pages") = false.
Proof.
  unfold is_author_key. intros H. apply bool_decide_eq_false_2. intros ->.
  discriminate H.
Qed.

(** ** Occurrences and replacement *)

Lemma occurs_cons (q : ustring) (c : N) (s : ustring) :
  occurs q s -> occurs q (c :: s).
Proof. intros [pre [post ->]]. exists (c :: pre), post. reflexivity. Qed.

Lemma occurs_app_l (q p s : ustring) : occurs q s -> occurs q (p ++ s).
Proof.
  intros [pre [post ->]]. exists (p ++ pre), post. rewrite <- app_assoc.
  reflexivity.
Qed.

Lemma occurs_startswith (q s : ustring) :
  PyStr.startswith q s = true -> occurs q s.
Proof. intros H. apply startswith_true in H as [post ->]. exists [], post. reflexivity. Qed.

Lemma not_occurs_startswith (q s : ustring) :
  ~ occurs q s -> PyStr.startswith q s = false.
Proof.
  intros H. destruct (PyStr.startswith q s) eqn:E; [|reflexivity].
  exfalso. apply H, occurs_startswith, E.
Qed.

(** A string in which [old] does not occur is left as it is. *)
Lemma replace_no_occurrence (old new s : ustring) :
  old <> [] -> ~ occurs old s -> PyStr.replace old new s = s.
Proof.
  intros Hold. induction s as [|c s IH]; intros H.
  - apply replace_nil, Hold.
  - rewrite replace_step; [|exact Hold | apply not_occurs_startswith, H].
    rewrite IH; [reflexivity|]. intros Hs. apply H, occurs_cons, Hs.
Qed.

(** Likewise [split] gives the string itself. *)
Lemma split_no_occurrence (sep s : ustring) :
  ~ occurs sep s -> PyStr.split sep s = [s].
Proof.
  induction s as [|c s IH]; intros H; [reflexivity|].
  rewrite split_step by (apply not_occurs_startswith, H).
  rewrite IH; [reflexivity|]. intros Hs. apply H, occurs_cons, Hs.
Qed.

(** What [q] matches in the result of a replacement it already matched
    in the string, when the first character of [new] is not in [q]. *)
Lemma startswith_replace (old new q s : ustring) (n0 : N) (new' : ustring) :
  old <> [] -> new = n0 :: new' ->
  forallb (fun c => negb (c =? n0)) q = true ->
  PyStr.startswith q (PyStr.replace old new s) = true ->
  PyStr.startswith q s = true.
Proof.
  intros Hold -> . revert s. induction q as [|a q IH]; intros s Hq H; [reflexivity|].
  cbn [forallb] in Hq. apply andb_true_iff in Hq as [Ha Hq].
  apply negb_true_iff, N.eqb_neq in Ha.
  destruct s as [|c t].
  - rewrite replace_nil in H by assumption. discriminate H.
  - destruct (PyStr.startswith old (c :: t)) eqn:E.
    + apply startswith_true in E as [rest E]. rewrite E in H.
      rewrite replace_match in H by assumption. cbn in H.
      apply andb_true_iff in H as [H _]. apply N.eqb_eq in H. contradiction.
    + rewrite replace_step in H by assumption. cbn in H |- *.
      apply andb_true_iff in H as [Hc H]. rewrite Hc. exact (IH t Hq H).
Qed.

(** An inert replacement makes no new occurrence of [q], and leaves no
    occurrence of its own pattern. *)
Lemma occurs_replace (q : ustring) (p : ustring * ustring) (s : ustring) :
  inert_for q p = true ->
  occurs q (PyStr.replace p.1 p.2 s) -> q <> p.1 /\ occurs q s.
Proof.
  destruct p as [old new]. unfold inert_for. cbn [fst snd].
  destruct old as [|o old'] eqn:Eold; [discriminate|]. rewrite <- Eold.
  destruct new as [|n0 new'] eqn:Enew; [discriminate|]. rewrite <- Enew.
  destruct q as [|q0 q']; [discriminate|].
  intros Hin. apply andb_true_iff in Hin as [Hn0 Hq0].
  assert (Hold : old <> []) by (rewrite Eold; discriminate).
  clear Eold o old'.
  induction s as [s IH] using (induction_ltof1 _ (@length N)). unfold ltof in IH.
  intros [pre [post Hocc]].
  destruct s as [|c t].
  { rewrite replace_nil in Hocc by assumption. destruct pre; discriminate. }
  destruct (PyStr.startswith old (c :: t)) eqn:E.
  - apply startswith_true in E as [rest E]. rewrite E in *.
    rewrite replace_match in Hocc by assumption.
    assert (Hlen : (length rest < length (old ++ rest))%nat).
    { rewrite length_app. destruct old; [contradiction | cbn; lia]. }
    apply List.app_eq_app in Hocc as [a [[Hnew Hq]|[Hpre HR]]].
    + destruct a as [|a0 a].
      * cbn [app] in Hq. destruct (IH rest Hlen) as [Hne Hr].
        { exists [], post. symmetry. exact Hq. }
        split; [exact Hne | apply occurs_app_l, Hr].
      * exfalso. injection Hq as <- _.
        rewrite Hnew, forallb_app in Hq0. apply andb_true_iff in Hq0 as [_ Hq0].
        cbn in Hq0. rewrite N.eqb_refl in Hq0. discriminate Hq0.
    + destruct (IH rest Hlen) as [Hne Hr].
      { exists a, post. exact HR. }
      split; [exact Hne | apply occurs_app_l, Hr].
  - rewrite replace_step in Hocc by assumption.
    destruct pre as [|x pre].
    + cbn [app] in Hocc. injection Hocc as Hc Hrest. subst q0.
      assert (Hs : PyStr.startswith (c :: q') (c :: t) = true).
      { cbn. rewrite N.eqb_refl. cbn [andb].
        cbn [forallb] in Hn0. apply andb_true_iff in Hn0 as [_ Hn0].
        apply (startswith_replace old new q' t n0 new' Hold Enew Hn0).
        rewrite Hrest. apply startswith_app. }
      split; [intros Heq; rewrite Heq, E in Hs; discriminate Hs|].
      apply occurs_startswith, Hs.
    + injection Hocc as _ Hrest.
      destruct (IH t ltac:(cbn; lia)) as [Hne Hr].
      { exists pre, post. exact Hrest. }
      split; [exact Hne | apply occurs_cons, Hr].
Qed.

(** *** The table of replacements *)

Lemma table_no_occurrence (tbl : list (ustring * ustring)) (q s : ustring) :
  Forall (fun p => inert_for q p = true) tbl ->
  In q (map fst tbl) \/ ~ occurs q s ->
  ~ occurs q (fold_left (fun x p => PyStr.replace p.1 p.2 x) tbl s).
Proof.
  revert s. induction tbl as [|p tbl IH]; intros s Hin Hq.
  - destruct Hq as [[]|Hq]. exact Hq.
  - apply Forall_cons in Hin as [Hp Hin]. cbn [fold_left]. apply IH; [exact Hin|].
    assert (Hstep : q = p.1 \/ ~ occurs q s ->
                    ~ occurs q (PyStr.replace p.1 p.2 s)).
    { intros Hcase Hocc. destruct (occurs_replace q p s Hp Hocc) as [Hne Hs].
      destruct Hcase as [Heq|Hno]; [exact (Hne Heq) | exact (Hno Hs)]. }
    destruct Hq as [[Heq|Hq]|Hq].
    + right. apply Hstep. left. symmetry. exact Heq.
    + left. exact Hq.
    + right. apply Hstep. right. exact Hq.
Qed.

Lemma table_fixed (tbl : list (ustring * ustring)) (s : ustring) :
  Forall (fun p => p.1 <> [] /\ ~ occurs p.1 s) tbl ->
  fold_left (fun x p => PyStr.replace p.1 p.2 x) tbl s = s.
Proof.
  induction tbl as [|p tbl IH]; intros H; [reflexivity|].
  apply Forall_cons in H as [[Hne Hp] H]. cbn [fold_left].
  rewrite replace_no_occurrence by assumption. apply IH, H.
Qed.

Lemma inert_table_spec (tbl : list (ustring * ustring)) :
  inert_table tbl = true ->
  forall q, In q tbl ->
    q.1 <> [] /\ Forall (fun p => inert_for q.1 p = true) tbl.
Proof.
  unfold inert_table. rewrite forallb_forall. intros H q Hq. split.
  - specialize (H q Hq). rewrite forallb_forall in H. specialize (H q Hq).
    unfold inert_for in H. destruct (q.1); [discriminate H | discriminate].
  - apply List.Forall_forall. intros p Hp. specialize (H p Hp).
    rewrite forallb_forall in H. exact (H q Hq).
Qed.

(** After the replacements no sequence of the table is left. *)
Lemma replace_special_no_occurrence (v : ustring) :
  Forall (fun p => ~ occurs p.1 (replace_special v)) special_characters.
Proof.
  apply List.Forall_forall. intros q Hq.
  destruct (inert_table_spec special_characters eq_refl q Hq) as [_ Hin].
  apply table_no_occurrence; [exact Hin|]. left. apply in_map, Hq.
Qed.

Lemma replace_special_fixed (w : ustring) :
  Forall (fun p => ~ occurs p.1 w) special_characters -> replace_special w = w.
Proof.
  intros H. apply table_fixed. apply List.Forall_forall. intros q Hq. split.
  - apply (inert_table_spec special_characters eq_refl q Hq).
  - rewrite List.Forall_forall in H. exact (H q Hq).
Qed.

(** No output of a replacement matches a pattern again: replacing twice
    is replacing once. *)
Lemma replace_special_idempotent (v : ustring) :
  replace_special (replace_special v) = replace_special v.
Proof. apply replace_special_fixed, replace_special_no_occurrence. Qed.

(** ** Characters that no step brings in *)

Section Preservation.

Variable f : N -> bool.

Lemma forallb_replace_from (old new : ustring) (k : nat) (s : ustring) :
  forallb f new = true -> forallb f s = true ->
  forallb f (PyStr.replace_from old new k s) = true.
Proof.
  intros Hnew. revert k. induction s as [|c s IH]; intros k Hs; [reflexivity|].
  cbn [forallb] in Hs. apply andb_true_iff in Hs as [Hc Hs].
  cbn [PyStr.replace_from]. destruct k; [|apply IH, Hs].
  destruct (PyStr.startswith old (c :: s)).
  - rewrite forallb_app, Hnew. apply IH, Hs.
  - cbn [forallb]. rewrite Hc. apply IH, Hs.
Qed.

Lemma forallb_replace (o : N) (old new s : ustring) :
  forallb f new = true -> forallb f s = true ->
  forallb f (PyStr.replace (o :: old) new s) = true.
Proof. apply forallb_replace_from. Qed.

Lemma Forall_split_from (sep : ustring) (k : nat) (s : ustring) :
  forallb f s = true ->
  Forall (fun x => forallb f x = true) (PyStr.split_from sep k s).
Proof.
  revert k. induction s as [|c s IH]; intros k Hs.
  - repeat constructor.
  - cbn [forallb] in Hs. apply andb_true_iff in Hs as [Hc Hs].
    cbn [PyStr.split_from]. destruct k; [|apply IH, Hs].
    destruct (PyStr.startswith sep (c :: s)).
    + apply Forall_cons. split; [reflexivity | apply IH, Hs].
    + specialize (IH 0%nat Hs). destruct (PyStr.split_from sep 0 s) as [|w ws].
      * repeat constructor. cbn. rewrite Hc. reflexivity.
      * apply Forall_cons in IH as [Hw Hws]. apply Forall_cons. split; [|exact Hws].
        cbn. rewrite Hc. exact Hw.
Qed.

Lemma Forall_split (sep s : ustring) :
  forallb f s = true -> Forall (fun x => forallb f x = true) (PyStr.split sep s).
Proof. apply Forall_split_from. Qed.

Lemma forallb_lstrip (s : ustring) :
  forallb f s = true -> forallb f (PyStr.lstrip s) = true.
Proof.
  induction s as [|c s IH]; intros Hs; [reflexivity|].
  cbn [PyStr.lstrip]. destruct (PyStr.isspace c); [|exact Hs].
  cbn [forallb] in Hs. apply andb_true_iff in Hs as [_ Hs]. apply IH, Hs.
Qed.

Lemma forallb_strip (s : ustring) :
  forallb f s = true -> forallb f (PyStr.strip s) = true.
Proof.
  intros Hs. unfold PyStr.strip, PyStr.rstrip.
  rewrite forallb_rev. apply forallb_lstrip. rewrite forallb_rev.
  apply forallb_lstrip, Hs.
Qed.

Lemma forallb_removelast (s : ustring) :
  forallb f s = true -> forallb f (removelast s) = true.
Proof.
  induction s as [|c s IH]; intros Hs; [reflexivity|].
  cbn [forallb] in Hs. apply andb_true_iff in Hs as [Hc Hs].
  cbn [removelast]. destruct s; [reflexivity|].
  cbn [forallb]. rewrite Hc. apply IH, Hs.
Qed.

Lemma forallb_drop_trailing_comma (s : ustring) :
  forallb f s = true -> forallb f (drop_trailing_comma s) = true.
Proof.
  intros Hs. unfold drop_trailing_comma.
  destruct (0 <? length s)%nat; [|exact Hs].
  destruct (bool_decide (last s = Some 44)); [|exact Hs].
  apply forallb_removelast, Hs.
Qed.

Lemma forallb_reverse_name (a : ustring) :
  f 32 = true -> forallb f a = true -> forallb f (reverse_name a) = true.
Proof.
  intros Hsp Ha. unfold reverse_name.
  pose proof (Forall_split (u "&nbsp;") a Ha) as Hsplit.
  assert (Hblank : forallb f (u " ") = true)
    by (change (u " ") with [32]; cbn; rewrite Hsp; reflexivity).
  destruct (PyStr.split (u "&nbsp;") a) as [|w ws] eqn:E; cbn [hd tl].
  - exfalso. exact (split_nonempty _ _ E).
  - pose proof Hsplit as Hall. apply Forall_cons in Hsplit as [Hw Hws].
    destruct (0 <=? PyStr.find (u ",") w)%Z.
    + rewrite !forallb_app, Hblank.
      rewrite (forallb_join f (u " ") ws Hblank Hws).
      change (u ",") with [44]. rewrite forallb_replace; [reflexivity | reflexivity | exact Hw].
    + apply forallb_join; assumption.
Qed.

Lemma forallb_fix_author (v : ustring) :
  f 32 = true -> forallb f (u "&nbsp;") = true -> f 44 = true ->
  forallb f v = true -> forallb f (fix_author v) = true.
Proof.
  intros Hsp Hnbsp Hcomma Hv. unfold fix_author.
  apply forallb_join;
    [change (u ", ") with [44; 32]; cbn; rewrite Hcomma, Hsp; reflexivity|].
  rewrite !List.Forall_map.
  eapply Forall_impl; [apply (Forall_split (u " and ") v Hv)|].
  intros a Ha. cbn beta. apply forallb_reverse_name; [exact Hsp|].
  change (u " ") with [32]. apply forallb_replace; [exact Hnbsp|].
  apply forallb_strip, Ha.
Qed.

Lemma forallb_fix_pages (v : ustring) :
  forallb f (u "&ndash;") = true ->
  forallb f v = true -> forallb f (fix_pages v) = true.
Proof.
  intros Hnd Hv. unfold fix_pages. change (u "-") with [45].
  change (u "--") with [45; 45].
  apply forallb_replace; [exact Hnd|]. apply forallb_replace; assumption.
Qed.

Lemma forallb_fix_field (k v : ustring) :
  f 32 = true -> forallb f (u "&nbsp;") = true -> f 44 = true ->
  forallb f (u "&ndash;") = true ->
  forallb f v = true -> forallb f (fix_field k v) = true.
Proof.
  intros Hsp Hnbsp Hcomma Hnd Hv. unfold fix_field.
  assert (Ha : forallb f (if is_author_key k then fix_author v else v) = true).
  { destruct (is_author_key k); [apply forallb_fix_author; assumption | exact Hv]. }
  destruct (bool_decide (k = u "pages")); [apply forallb_fix_pages; assumption | exact Ha].
Qed.

End Preservation.

Lemma forallb_filter_same (f : N -> bool) (s : ustring) :
  forallb f (List.filter f s) = true.
Proof.
  induction s as [|c s IH]; [reflexivity|]. cbn [List.filter].
  destruct (f c) eqn:E; [|exact IH]. cbn [forallb]. rewrite E. exact IH.
Qed.

(** A cleaned value has no brace and no double quote. *)
Lemma clean_value_no_delimiter (k v : ustring) :
  forallb (fun c => negb (is_delimiter c)) (clean_value k v) = true.
Proof.
  unfold clean_value.
  apply forallb_fix_field; try reflexivity.
  apply forallb_drop_trailing_comma.
  rewrite strip_delimiters_filter. apply forallb_filter_same.
Qed.

Lemma strip_delimiters_fixed (w : ustring) :
  forallb (fun c => negb (is_delimiter c)) w = true -> strip_delimiters w = w.
Proof. intros H. rewrite strip_delimiters_filter. apply filter_all, H. Qed.

(** ** Cleaning a cleaned value *)

Lemma join_app_hd (sep w : ustring) (l : list ustring) :
  l <> [] -> PyStr.join sep (app_hd w l) = w ++ PyStr.join sep l.
Proof.
  destruct l as [|x [|y l]]; [contradiction| |]; intros _; cbn.
  - reflexivity.
  - rewrite <- app_assoc. reflexivity.
Qed.

(** Splitting on one character and joining with it gives the string. *)
Lemma join_split_char (o : N) (s : ustring) :
  PyStr.join [o] (PyStr.split [o] s) = s.
Proof.
  induction s as [|c s IH]; [reflexivity|].
  destruct (N.eqb_spec o c) as [<-|Hne].
  - change (o :: s) with ([o] ++ s). rewrite split_match by discriminate.
    rewrite join_cons by apply split_nonempty. rewrite IH. reflexivity.
  - rewrite split_step by (apply startswith_head, Hne).
    rewrite join_app_hd by apply split_nonempty. rewrite IH. reflexivity.
Qed.

(** When "&nbsp;" does not occur in a string, putting it for every blank
    and splitting on it is splitting on the blanks. *)
Lemma split_nbsp (w : ustring) :
  ~ occurs (u "&nbsp;") w ->
  PyStr.split (u "&nbsp;") (PyStr.replace (u " ") (u "&nbsp;") w)
  = PyStr.split (u " ") w.
Proof.
  change (u " ") with [32].
  induction w as [|c w IH]; intros H; [reflexivity|].
  assert (Hw : ~ occurs (u "&nbsp;") w) by (intros Hw; apply H, occurs_cons, Hw).
  destruct (N.eqb_spec 32 c) as [<-|Hne].
  - change (32 :: w) with ([32] ++ w).
    rewrite replace_match, !split_match by discriminate.
    rewrite (IH Hw). reflexivity.
  - rewrite replace_step; [|discriminate | apply startswith_head, Hne].
    rewrite (split_step [32]) by (apply startswith_head, Hne).
    rewrite split_step; [rewrite (IH Hw); reflexivity|].
    destruct (PyStr.startswith (u "&nbsp;")
                (c :: PyStr.replace [32] (u "&nbsp;") w)) eqn:E; [|reflexivity].
    exfalso. apply H, occurs_startswith.
    change (u "&nbsp;") with (38 :: u "nbsp;") in *. cbn in E |- *.
    apply andb_true_iff in E as [Hc E]. rewrite Hc. cbn [andb].
    apply (startswith_replace [32] (38 :: u "nbsp;") (u "nbsp;") w 38 (u "nbsp;"));
      [discriminate | reflexivity | reflexivity | exact E].
Qed.

Lemma fix_author_settled (w : ustring) :
  PyStr.strip w = w ->
  ~ occurs (u " and ") w ->
  ~ occurs (u "&nbsp;") w ->
  PyStr.find (u ",") (hd [] (PyStr.split (u " ") w)) = (-1)%Z ->
  fix_author w = w.
Proof.
  intros Hstrip Hand Hnbsp Hcomma. unfold fix_author.
  rewrite (split_no_occurrence _ _ Hand). cbn [map PyStr.join].
  rewrite Hstrip. unfold reverse_name. rewrite (split_nbsp w Hnbsp), Hcomma.
  change (0 <=? -1)%Z with false. cbn match.
  change (u " ") with [32]. apply join_split_char.
Qed.

Lemma replace_char_gone (c : N) (new s : ustring) :
  forallb (fun d => negb (d =? c)) new = true ->
  forallb (fun d => negb (d =? c)) (PyStr.replace [c] new s) = true.
Proof.
  intros Hnew. induction s as [|d s IH]; [reflexivity|].
  destruct (N.eqb_spec c d) as [<-|Hne].
  - change (c :: s) with ([c] ++ s). rewrite replace_match by discriminate.
    rewrite forallb_app, Hnew, IH. reflexivity.
  - rewrite replace_step; [|discriminate | apply startswith_head, Hne].
    cbn [forallb]. rewrite IH, andb_true_r.
    apply negb_true_iff, N.eqb_neq. congruence.
Qed.

Lemma fix_pages_idempotent (v : ustring) : fix_pages (fix_pages v) = fix_pages v.
Proof.
  assert (H : forallb (fun d => negb (d =? 45)) (fix_pages v) = true).
  { unfold fix_pages. change (u "-") with [45]. apply replace_char_gone. reflexivity. }
  unfold fix_pages at 1. change (u "--") with [45; 45]. change (u "-") with [45].
  rewrite (replace_absent 45 [45] _ _ H). apply (replace_absent 45 [] _ _ H).
Qed.

(** A second cleaning leaves a settled value as it is. *)
Lemma clean_value_settled (k v : ustring) :
  settled k (clean_value k v) ->
  clean_value k (clean_value k v) = clean_value k v.
Proof.
  intros [Hstrip [Htable [Hlast Hauthor]]].
  pose proof (clean_value_no_delimiter k v) as Hdelim.
  set (w := clean_value k v) in *.
  unfold clean_value at 1.
  rewrite Hstrip, (replace_special_fixed w Htable),
    (strip_delimiters_fixed w Hdelim), (drop_trailing_comma_other w Hlast).
  unfold fix_field. destruct (is_author_key k) eqn:Hk.
  - destruct (Hauthor eq_refl) as [Hand [Hnbsp Hcomma]].
    rewrite (author_key_not_pages k Hk).
    apply fix_author_settled; assumption.
  - destruct (bool_decide (k = u "pages")) eqn:Hp; [|reflexivity].
    unfold w, clean_value, fix_field. rewrite Hk, Hp.
    apply fix_pages_idempotent.
Qed.

(** C1, as stated, fails: a title ending in two commas (after braces
    and white space are removed) loses one comma at each cleaning. *)
Lemma cleaning_twice_counterexample :
  final clean_entry entry_messy_title !! u "title" = Some (u "Proofs,")
  /\ final clean_entry (final clean_entry entry_messy_title) !! u "title"
     = Some (u "Proofs")
  /\ final clean_entry (final clean_entry entry_messy_title)
     <> final clean_entry entry_messy_title.
Proof.
  assert (H1 : final clean_entry entry_messy_title !! u "title" = Some (u "Proofs,"))
    by (vm_compute; reflexivity).
  assert (H2 : final clean_entry (final clean_entry entry_messy_title) !! u "title"
               = Some (u "Proofs")) by (vm_compute; reflexivity).
  split; [exact H1|]. split; [exact H2|].
  intros Heq. rewrite Heq, H1 in H2. vm_compute in H2. discriminate H2.
Qed.

(** C1, amended.  Cleaning twice gives the same entry as cleaning once
    whenever every value is settled after the first cleaning: it has no
    white space around it, no sequence of the table in it and no comma at
    its end, and in a field of authors no " and ", no "&nbsp;" and no
    comma in its first word.  The table itself can be applied twice: no
    output of a replacement matches a pattern again. *)
Theorem cleaning_twice (e : entry) :
  (forall k w, final clean_entry e !! k = Some w -> settled k w) ->
  final clean_entry (final clean_entry e) = final clean_entry e
  /\ forall v, replace_special (replace_special v) = replace_special v.
Proof.
  intros Hsettled. split; [|exact replace_special_idempotent].
  apply map_eq. intros k. rewrite (clean_entry_lookup (final clean_entry e)).
  destruct (final clean_entry e !! k) as [w|] eqn:Hw; [|reflexivity].
  specialize (Hsettled k w Hw).
  rewrite clean_entry_lookup in Hw.
  destruct (e !! k) as [v|]; [|discriminate Hw].
  cbn in Hw. injection Hw as <-. cbn. f_equal.
  apply clean_value_settled, Hsettled.
Qed.

Lemma settled_example : settled (u "author") (u "John Smith, Jane Doe").
Proof.
  split; [vm_compute; reflexivity|]. split; [|split].
  - unfold special_characters.
    repeat (apply Forall_cons; split; [apply contains_false; vm_compute; reflexivity|]).
    apply Forall_nil_2.
  - intros H. vm_compute in H. discriminate H.
  - intros _. split; [apply contains_false; vm_compute; reflexivity|].
    split; [apply contains_false; vm_compute; reflexivity|].
    vm_compute. reflexivity.
Defined.

Lemma cleaning_twice_witness :
  settled (u "author") (u "John Smith, Jane Doe")
  /\ final clean_entry (final clean_entry entry_two_authors)
     = final clean_entry entry_two_authors.
Proof.
  split; [exact settled_example|].
  apply (cleaning_twice entry_two_authors).
  intros k w. rewrite clean_entry_lookup.
  unfold entry_two_authors, mk_entry. cbn [map list_to_map foldr uncurry fst snd].
  destruct (decide (k = u "author")) as [->|Hne].
  - rewrite lookup_insert_eq. cbn [fmap option_fmap option_map].
    intros [= <-].
    change (clean_value (u "author") (u "Smith, John and Doe, Jane"))
      with (u "John Smith, Jane Doe").
    exact settled_example.
  - rewrite lookup_insert_ne by congruence. rewrite lookup_empty.
    intros H. discriminate H.
Defined.

(** ** The field of authors *)

(** *** Names made of pieces *)

Lemma no_space_no_blank (w : ustring) :
  forallb (fun c => negb (PyStr.isspace c)) w = true ->
  forallb (fun c => negb (c =? 32)) w = true.
Proof.
  apply forallb_impl. intros c Hc. apply negb_true_iff, N.eqb_neq. intros ->.
  discriminate Hc.
Qed.

Lemma ends_solid_piece (w : ustring) :
  w <> [] -> forallb (fun c => negb (PyStr.isspace c)) w = true -> ends_solid w.
Proof.
  intros Hne Hw. split.
  - destruct w as [|c w]; [contradiction|]. exists c, w.
    cbn [forallb] in Hw. apply andb_true_iff in Hw as [Hc _].
    split; [reflexivity | apply negb_true_iff, Hc].
  - destruct (exists_last Hne) as [t [d ->]]. exists t, d.
    rewrite forallb_app in Hw. apply andb_true_iff in Hw as [_ Hd].
    cbn [forallb] in Hd. rewrite andb_true_r in Hd.
    split; [reflexivity | apply negb_true_iff, Hd].
Qed.

Lemma ends_solid_app (a m b : ustring) :
  ends_solid a -> ends_solid b -> ends_solid (a ++ m ++ b).
Proof.
  intros [[c [t [-> Hc]]] _] [_ [t' [d [-> Hd]]]]. split.
  - exists c, (t ++ m ++ t' ++ [d]). split; [reflexivity | exact Hc].
  - exists ((c :: t) ++ m ++ t'), d. split; [|exact Hd].
    rewrite <- !app_assoc. reflexivity.
Qed.

Lemma ends_solid_join (sep : ustring) (xs : list ustring) :
  xs <> [] -> Forall ends_solid xs -> ends_solid (PyStr.join sep xs).
Proof.
  induction xs as [|x xs IH]; [contradiction|]. intros _ Hxs.
  apply Forall_cons in Hxs as [Hx Hxs]. destruct xs as [|x' xs]; [exact Hx|].
  rewrite join_cons by discriminate.
  apply ends_solid_app; [exact Hx | apply IH; [discriminate | exact Hxs]].
Qed.

Lemma strip_ends_solid (s : ustring) : ends_solid s -> PyStr.strip s = s.
Proof.
  intros [[c [t [Hc Hsc]]] [t' [d [Hd Hsd]]]].
  apply (strip_fixed s c d t t' Hc Hd); assumption.
Qed.

(** An occurrence of a pattern in two strings put together around a
    character that the pattern does not have is in one of the two. *)
Lemma occurs_around (q a b : ustring) (c : N) :
  q <> [] -> forallb (fun d => negb (d =? c)) q = true ->
  occurs q (a ++ c :: b) -> occurs q a \/ occurs q b.
Proof.
  intros Hq Hc [pre [post E]].
  assert (Hhead : forall t r, q ++ r <> c :: t).
  { intros t r H. destruct q as [|d q]; [contradiction|]. injection H as -> _.
    cbn [forallb] in Hc. rewrite N.eqb_refl in Hc. discriminate Hc. }
  assert (Hmid : forall l m, q <> l ++ c :: m).
  { intros l m H. rewrite H, forallb_app in Hc. cbn [forallb] in Hc.
    rewrite N.eqb_refl, andb_false_r in Hc. discriminate Hc. }
  apply app_eq_app in E as [l [[Ea El]|[Epre El]]].
  - apply app_eq_app in El as [m [[Eq Em]|[El Epost]]].
    + destruct m as [|d m].
      * rewrite app_nil_r in Eq. subst. left. exists pre, []. rewrite app_nil_r.
        reflexivity.
      * cbn [app] in Em. injection Em as <- _. exfalso. exact (Hmid _ _ Eq).
    + subst. left. exists pre, m. reflexivity.
  - destruct l as [|d l].
    + cbn [app] in El. exfalso. exact (Hhead _ _ (eq_sym El)).
    + injection El as <- ->. right. exists l, post. reflexivity.
Qed.

Lemma not_occurs_nil (q : ustring) : q <> [] -> ~ occurs q [].
Proof.
  intros Hq [pre [post E]]. destruct pre; [|discriminate E].
  destruct q; [contradiction | discriminate E].
Qed.

Lemma not_occurs_join (q : ustring) (c : N) (ts : list ustring) :
  q <> [] -> forallb (fun d => negb (d =? c)) q = true ->
  Forall (fun w => ~ occurs q w) ts -> ~ occurs q (PyStr.join [c] ts).
Proof.
  intros Hq Hc. induction ts as [|w ts IH]; intros Hts; [apply not_occurs_nil, Hq|].
  apply Forall_cons in Hts as [Hw Hts]. destruct ts as [|w' ts]; [exact Hw|].
  rewrite join_cons by discriminate. cbn [app]. intros H.
  apply (occurs_around q w _ c Hq Hc) in H as [H|H]; [exact (Hw H)|].
  exact (IH Hts H).
Qed.

Lemma name_tokens_pieces (n : name) : name_ok n -> Forall name_piece (name_tokens n).
Proof.
  assert (Hws : forall ws, Forall later_piece ws -> Forall name_piece ws).
  { intros ws H. eapply Forall_impl; [exact H|]. intros w [Hw _]. exact Hw. }
  destruct n as [surname firsts | first rest]; cbn [name_ok name_tokens].
  - intros [[Hne [Hs Hn]] [_ [_ Hf]]]. apply Forall_cons. split; [|apply Hws, Hf].
    split; [intros H; apply app_eq_nil in H as [_ H]; discriminate H|]. split.
    + rewrite forallb_app, Hs. reflexivity.
    + intros H. change (surname ++ [44]) with (surname ++ 44 :: []) in H.
      apply occurs_around in H as [H|H]; [exact (Hn H) | | discriminate | reflexivity].
      revert H. apply not_occurs_nil. discriminate.
  - intros [Hf [_ Hr]]. apply Forall_cons. split; [exact Hf | apply Hws, Hr].
Qed.

Lemma pieces_no_blank (ts : list ustring) :
  Forall name_piece ts ->
  Forall (fun w => forallb (fun c => negb (c =? 32)) w = true) ts.
Proof.
  intros H. eapply Forall_impl; [exact H|]. intros w [_ [Hw _]].
  apply no_space_no_blank, Hw.
Qed.

Lemma name_in_tokens (n : name) :
  name_ok n -> name_in n = PyStr.join [32] (name_tokens n).
Proof.
  destruct n as [surname firsts | first rest]; cbn [name_ok name_in name_tokens].
  - intros [_ [_ [Hne _]]]. rewrite join_cons by assumption.
    rewrite <- app_assoc. reflexivity.
  - reflexivity.
Qed.

Lemma name_in_ends_solid (n : name) : name_ok n -> ends_solid (name_in n).
Proof.
  intros Hn. rewrite (name_in_tokens n Hn).
  apply ends_solid_join; [destruct n; discriminate|].
  eapply Forall_impl; [apply name_tokens_pieces, Hn|].
  intros w [Hne [Hw _]]. apply ends_solid_piece; assumption.
Qed.

(** *** Splitting the field into names *)

(** After a blank, a piece that is not "and" does not make the
    separator. *)
Lemma piece_not_separator (w f : ustring) :
  later_piece w ->
  f = [] \/ (exists f', f = 32 :: f') ->
  PyStr.startswith (u " and ") (32 :: w ++ f) = false.
Proof.
  intros [[_ [Hw _]] Hand] Hf.
  destruct (PyStr.startswith (u " and ") (32 :: w ++ f)) eqn:E; [|reflexivity].
  apply startswith_true in E as [post E]. exfalso. apply Hand.
  change (u " and " ++ post) with (32 :: u "and" ++ 32 :: post) in E.
  injection E as E.
  apply (first_blank_unique w (u "and") f post);
    [apply no_space_no_blank, Hw | reflexivity | exact Hf | exact E].
Qed.

Lemma split_spaced_pieces (ws : list ustring) (f : ustring) :
  ws <> [] -> Forall later_piece ws ->
  f = [] \/ (exists f', f = 32 :: f') ->
  PyStr.split (u " and ") (32 :: PyStr.join (u " ") ws ++ f)
  = app_hd (32 :: PyStr.join (u " ") ws) (PyStr.split (u " and ") f).
Proof.
  induction ws as [|w ws IH]; [contradiction|]. intros _ Hws Hf.
  apply Forall_cons in Hws as [Hw Hws].
  assert (Hblank : forallb (fun c => negb (c =? 32)) w = true)
    by (apply no_space_no_blank, Hw).
  change (u " and ") with (32 :: u "and ") in *.
  destruct ws as [|w' ws].
  - cbn [PyStr.join].
    rewrite split_step by (apply (piece_not_separator w f Hw Hf)).
    rewrite (split_word 32 _ w f Hblank).
    apply (app_hd_app [32] w), split_nonempty.
  - rewrite join_cons by discriminate. change (u " ") with [32].
    rewrite <- !app_assoc. cbn [app].
    rewrite split_step.
    2:{ apply (piece_not_separator w _ Hw). right. eauto. }
    rewrite (split_word 32 _ w _ Hblank).
    change [32] with (u " ").
    rewrite (IH ltac:(discriminate) Hws Hf).
    rewrite !app_hd_app by (first [apply split_nonempty | apply app_hd_nonempty]).
    rewrite <- !app_assoc. reflexivity.
Qed.

Lemma name_tokens_later (n : name) (w : ustring) (ws : list ustring) :
  name_ok n -> name_tokens n = w :: ws -> Forall later_piece ws.
Proof.
  destruct n as [surname firsts | first rest]; cbn [name_ok name_tokens];
    intros Hn [= _ <-]; apply Hn.
Qed.

(** A name followed by the end or by a blank is one piece of the split. *)
Lemma split_name (n : name) (f : ustring) :
  name_ok n ->
  f = [] \/ (exists f', f = 32 :: f') ->
  PyStr.split (u " and ") (name_in n ++ f)
  = app_hd (name_in n) (PyStr.split (u " and ") f).
Proof.
  intros Hn Hf. rewrite (name_in_tokens n Hn).
  pose proof (pieces_no_blank _ (name_tokens_pieces n Hn)) as Hblank.
  pose proof (name_tokens_later n) as Hlater.
  destruct (name_tokens n) as [|w ws] eqn:E; [destruct n; discriminate E|].
  apply Forall_cons in Hblank as [Hfirst _].
  specialize (Hlater w ws Hn eq_refl).
  change (u " and ") with (32 :: u "and ").
  destruct ws as [|w' ws].
  - cbn [PyStr.join]. apply (split_word 32 _ w f Hfirst).
  - rewrite join_cons by discriminate. rewrite <- !app_assoc. cbn [app].
    rewrite (split_word 32 _ w _ Hfirst).
    change (32 :: u "and ") with (u " and "). change [32] with (u " ").
    rewrite (split_spaced_pieces (w' :: ws) f ltac:(discriminate) Hlater Hf).
    rewrite app_hd_app by apply split_nonempty. reflexivity.
Qed.

Lemma split_author_in (names : list name) :
  names <> [] -> Forall name_ok names ->
  PyStr.split (u " and ") (author_in names) = map name_in names.
Proof.
  unfold author_in.
  induction names as [|n names IH]; [contradiction|]. intros _ Hok.
  apply Forall_cons in Hok as [Hn Hok]. destruct names as [|n' names].
  - cbn [map PyStr.join]. rewrite <- (app_nil_r (name_in n)) at 1.
    rewrite (split_name n [] Hn (or_introl eq_refl)), split_nil. cbn.
    rewrite app_nil_r. reflexivity.
  - cbn [map]. rewrite join_cons by discriminate.
    rewrite (split_name n _ Hn).
    2:{ right. eexists. reflexivity. }
    rewrite split_match by discriminate.
    cbn [map] in IH. rewrite IH by (discriminate || assumption).
    cbn. rewrite app_nil_r. reflexivity.
Qed.

(** *** Reordering one name *)

Lemma nbsp_tokens (n : name) :
  name_ok n ->
  PyStr.split (u "&nbsp;")
    (PyStr.replace (u " ") (u "&nbsp;") (PyStr.strip (name_in n)))
  = name_tokens n.
Proof.
  intros Hn. pose proof (name_tokens_pieces n Hn) as Hp.
  rewrite (strip_ends_solid _ (name_in_ends_solid n Hn)), (name_in_tokens n Hn).
  rewrite split_nbsp.
  - change (u " ") with [32]. apply (split_join 32 []).
    + destruct n; discriminate.
    + apply pieces_no_blank, Hp.
  - apply not_occurs_join; [discriminate | reflexivity |].
    eapply Forall_impl; [exact Hp|]. intros w [_ [_ Hw]]. exact Hw.
Qed.

Lemma reverse_name_out (n : name) :
  name_ok n ->
  reverse_name (PyStr.replace (u " ") (u "&nbsp;") (PyStr.strip (name_in n)))
  = name_out n.
Proof.
  intros Hn. unfold reverse_name. rewrite (nbsp_tokens n Hn).
  destruct n as [surname firsts | first rest]; cbn [name_tokens name_out hd tl].
  - destruct Hn as [_ [Hs _]].
    assert (Hfind : (0 <=? PyStr.find (u ",") (surname ++ [44%N]))%Z = true).
    { apply Z.leb_le.
      pose proof (find_from_occurrence (u ",") surname [] 0) as H.
      exact H. }
    rewrite Hfind. change (u ",") with [44].
    rewrite replace_char_filter, List.filter_app, filter_all.
    + cbn. rewrite app_nil_r. reflexivity.
    + revert Hs. apply forallb_impl. intros c Hc.
      apply negb_true_iff, N.eqb_neq. intros <-. rewrite N.eqb_refl in Hc.
      discriminate Hc.
  - destruct Hn as [_ [Hf _]]. change (u ",") with [44].
    rewrite (find_absent 44 [] first Hf). reflexivity.
Qed.

Lemma fix_author_names (names : list name) :
  names <> [] -> Forall name_ok names ->
  fix_author (author_in names) = author_out names.
Proof.
  intros Hne Hok. unfold fix_author, author_out.
  rewrite (split_author_in names Hne Hok). f_equal.
  clear Hne. induction Hok as [|n names Hn Hok IH]; [reflexivity|].
  cbn [map]. rewrite (reverse_name_out n Hn). f_equal. exact IH.
Qed.

Lemma name_piece_check (w : ustring) :
  PyStr.truthy w = true ->
  forallb (fun c => negb (PyStr.isspace c)) w = true ->
  PyStr.contains (u "&nbsp;") w = false ->
  name_piece w.
Proof.
  intros H1 H2 H3. split; [intros ->; discriminate H1|]. split; [exact H2|].
  apply contains_false, H3.
Qed.

Lemma later_piece_check (w : ustring) :
  PyStr.truthy w = true ->
  forallb (fun c => negb (PyStr.isspace c)) w = true ->
  PyStr.contains (u "&nbsp;") w = false ->
  bool_decide (w = u "and") = false ->
  later_piece w.
Proof.
  intros H1 H2 H3 H4. split; [apply name_piece_check; assumption|].
  intros ->. discriminate H4.
Qed.

(** X19.  What the cleaner makes of a field of authors.  When the
    generic steps leave names joined by " and ", each name made of pieces
    separated by single blanks, a name whose first piece ends with the
    comma, "Surname, First ...", is stored as "First ... Surname", a name
    whose first piece has no comma is stored as it is, and the names are
    joined with ", ".  The escapes and braces of the value as written are
    the business of the generic steps: the names are read after them. *)
Theorem author_reordering (e : entry) (k v : ustring) (names : list name) :
  is_author_key k = true ->
  e !! k = Some v ->
  names <> [] ->
  Forall name_ok names ->
  drop_trailing_comma (strip_delimiters (replace_special (PyStr.strip v)))
    = author_in names ->
  final clean_entry e !! k = Some (author_out names).
Proof.
  intros Hk He Hne Hok Hv.
  rewrite clean_entry_lookup, He. cbn [fmap option_fmap option_map]. f_equal.
  unfold clean_value. rewrite Hv.
  unfold fix_field. rewrite Hk, (author_key_not_pages k Hk).
  apply fix_author_names; assumption.
Qed.

Lemma author_reordering_witness :
  entry_escaped_author !! u "author"
    = Some (u "Nordstr{" ++ bs :: dq :: u "o}m, Jakob and Gocht, Stephan")
  /\ final clean_entry entry_escaped_author !! u "author"
     = Some (u "Jakob Nordstr" ++ 246 :: u "m, Stephan Gocht").
Proof.
  assert (H : entry_escaped_author !! u "author"
              = Some (u "Nordstr{" ++ bs :: dq :: u "o}m, Jakob and Gocht, Stephan"))
    by (vm_compute; reflexivity).
  split; [exact H|].
  apply (author_reordering entry_escaped_author (u "author") _
           [Reversed (u "Nordstr" ++ 246 :: u "m") [u "Jakob"];
            Reversed (u "Gocht") [u "Stephan"]] eq_refl H).
  - discriminate.
  - repeat (apply Forall_cons; split); try apply Forall_nil_2; cbn [name_ok];
      repeat split; try discriminate;
      repeat (apply Forall_cons; split); try apply Forall_nil_2;
      first [ apply later_piece_check; vm_compute; reflexivity
            | apply name_piece_check; vm_compute; reflexivity
            | vm_compute; reflexivity ].
  - vm_compute. reflexivity.
Defined.

(** C3.  The surname that the cleaner moves behind the first names is
    the first blank-separated piece of the name, and only if the comma is
    in that piece.  A surname of two words defeats this: in every field
    of authors the name "Le Berre, Daniel" is stored as it was written,
    and not as "Daniel Le Berre". *)
Theorem author_two_word_surname_kept (e : entry) (k : ustring) :
  is_author_key k = true ->
  e !! k = Some (u "Le Berre, Daniel") ->
  final clean_entry e !! k = Some (u "Le Berre, Daniel")
  /\ u "Le Berre, Daniel" <> u "Daniel Le Berre".
Proof.
  intros Hk He. split; [|intros H; vm_compute in H; discriminate H].
  rewrite clean_entry_lookup, He. cbn [fmap option_fmap option_map]. f_equal.
  unfold clean_value, fix_field. rewrite Hk, (author_key_not_pages k Hk).
  vm_compute. reflexivity.
Qed.

Lemma author_two_word_surname_kept_witness :
  entry_two_word_surname !! u "author" = Some (u "Le Berre, Daniel")
  /\ final clean_entry entry_two_word_surname !! u "author"
     = Some (u "Le Berre, Daniel").
Proof.
  assert (H : entry_two_word_surname !! u "author" = Some (u "Le Berre, Daniel"))
    by (vm_compute; reflexivity).
  split; [exact H|].
  exact (proj1 (author_two_word_surname_kept entry_two_word_surname (u "author")
                  eq_refl H)).
Defined.

(** ** The steps of the cleaner, one by one *)













(** ** Examples *)

Example replace_leftmost :
  PyStr.replace (u "aa") (u "b") (u "aaaxaa") = u "baxb".
Proof. reflexivity. Qed.

Example replace_empty_pattern : PyStr.replace [] (u "-") (u "abc") = u "-a-b-c-".
Proof. reflexivity. Qed.

Example split_adjacent :
  PyStr.split (u " and ") (u "A and  and B") = [u "A"; u ""; u "B"].
Proof. reflexivity. Qed.

Example split_empty : PyStr.split (u ",") (u "") = [u ""].
Proof. reflexivity. Qed.

Example strip_both_ends : PyStr.strip (u "  a b  ") = u "a b".
Proof. reflexivity. Qed.

Example find_comma : PyStr.find (u ",") (u "Smith,") = 5%Z.
Proof. reflexivity. Qed.

Example clean_pages : clean_value (u "pages") (u "1539--1589") = u "1539&ndash;1589".
Proof. vm_compute. reflexivity. Qed.

Example clean_accents :
  clean_value (u "title") (bs :: u "AE" ++ bs :: dq :: u "o") = [198; 246].
Proof. vm_compute. reflexivity. Qed.

(** Two single-word authors: the second cleaning reorders what the first
    one joined. *)
Example clean_two_authors :
  clean_value (u "author") (u "Smith, John and Doe, Jane")
  = u "John Smith, Jane Doe".
Proof. vm_compute. reflexivity. Qed.

Example clean_single_word_authors :
  clean_value (u "author") (u "Smith and Doe") = u "Smith, Doe"
  /\ clean_value (u "author") (u "Smith, Doe") = u "Doe Smith".
Proof. split; vm_compute; reflexivity. Qed.

(** Removing the braces lays bare white space, or an escape sequence,
    for the next cleaning. *)
Example clean_exposed_blank :
  clean_value (u "title") (u "{ x }") = u " x "
  /\ clean_value (u "title") (u " x ") = u "x".
Proof. split; vm_compute; reflexivity. Qed.

Example clean_exposed_escape :
  clean_value (u "title") (bs :: u "{o}") = bs :: u "o"
  /\ clean_value (u "title") (bs :: u "o") = [248].
Proof. split; vm_compute; reflexivity. Qed.

Example sort_key_article_2023 :
  result (sort_key no_digit_above_latin1 no_decimal_above_latin1) entry_plain
  = Return (Int 2023, Int 3).
Proof. vm_compute. reflexivity. Qed.

Example main_orders_by_year_then_type :
  match
    main no_digit_above_latin1 no_decimal_above_latin1
      [ <[u "year" := u "2021"]> entry_plain;
        <[u "ENTRYTYPE" := u "misc"]> (<[u "year" := u "2020"]> entry_plain);
        <[u "ENTRYTYPE" := u "book"]> (<[u "year" := u "2020"]> entry_plain) ]
  with
  | Return items =>
      items =
      map (fun e => match result get_bib_entry_as_html e with
                    | Return html => html
                    | Raise _ => []
                    end)
        [ <[u "ENTRYTYPE" := u "book"]> (<[u "year" := u "2020"]> entry_plain);
          <[u "ENTRYTYPE" := u "misc"]> (<[u "year" := u "2020"]> entry_plain);
          <[u "year" := u "2021"]> entry_plain ]
  | Raise _ => False
  end.
Proof. vm_compute. reflexivity. Qed.

(** * Further properties of the script *)

(** ** The sort key, case by case *)

Section SortKeyCases.

Variable ucd_digit : N -> bool.
Variable ucd_decimal : N -> option N.

Lemma type_val_rank (t : ustring) : type_val_of t = Return (type_rank t).
Proof.
  unfold type_rank.
  repeat (case_bool_decide; [subst t; vm_compute; reflexivity|]).
  apply type_val_unknown. unfold BIBTYPE_PRIORITY.
  rewrite !elem_of_cons, elem_of_nil. intuition congruence.
Qed.

Lemma digits_value_decimal_number (y : ustring) (acc : Z) :
  forallb ascii_digit y = true ->
  digits_value ucd_decimal acc y
  = Some (fold_left (fun a c => (10 * a + Z.of_N (c - 48))%Z) y acc).
Proof.
  revert acc. induction y as [|c y IH]; intros acc Hy; [reflexivity|].
  cbn [forallb] in Hy. apply andb_true_iff in Hy as [Hc Hy].
  cbn [digits_value fold_left]. unfold decimal_value.
  unfold ascii_digit in Hc. rewrite Hc.
  assert (Hlt : (c <? 256) = true).
  { apply andb_true_iff in Hc as [_ Hc]. apply N.leb_le in Hc.
    apply N.ltb_lt. lia. }
  rewrite Hlt. apply IH, Hy.
Qed.

Lemma isdigit_ascii (y : ustring) :
  y <> [] -> forallb ascii_digit y = true -> isdigit ucd_digit y = true.
Proof.
  intros Hne Hy. unfold isdigit. destruct y as [|c y]; [contradiction|].
  cbn [PyStr.truthy andb]. revert Hy. apply forallb_impl. intros d Hd.
  unfold is_digit_char. unfold ascii_digit in Hd.
  assert (Hlt : (d <? 256) = true).
  { apply andb_true_iff in Hd as [_ Hd]. apply N.leb_le in Hd.
    apply N.ltb_lt. lia. }
  rewrite Hlt, Hd. reflexivity.
Qed.

Lemma fold_decimal_nonneg (y : ustring) (acc : Z) :
  (0 <= acc)%Z ->
  (0 <= fold_left (fun a c => (10 * a + Z.of_N (c - 48))%Z) y acc)%Z.
Proof.
  revert acc. induction y as [|c y IH]; intros acc Hacc; [exact Hacc|].
  cbn [fold_left]. apply IH. lia.
Qed.

(** X1.  For an entry whose year is written with the digits 0-9 (at
    least one, and no more than the 4300 that [int] converts under the
    interpreter's default setting) and which has an entry type, [sort_key]
    returns the number the year denotes, which is not negative, and the
    rank of the type. *)
Theorem sort_key_numeric_year (e : entry) (y t : ustring) :
  e !! u "year" = Some y ->
  y <> [] ->
  forallb ascii_digit y = true ->
  (length y <= 4300)%nat ->
  e !! u "ENTRYTYPE" = Some t ->
  result (sort_key ucd_digit ucd_decimal) e
    = Return (Int (decimal_number y), type_rank t)
  /\ (0 <= decimal_number y)%Z.
Proof.
  intros Hy Hne Hd Hlen Ht. split; [|apply fold_decimal_nonneg; lia].
  apply (sort_key_returns ucd_digit ucd_decimal e y t); try assumption.
  - apply year_val_decimal; [apply isdigit_ascii; assumption|exact Hlen|].
    apply digits_value_decimal_number, Hd.
  - apply type_val_rank.
Qed.

Lemma isdigit_other_char (y : ustring) (c : N) :
  c ∈ y -> c < 48 \/ (57 < c /\ c < 178) -> isdigit ucd_digit y = false.
Proof.
  intros Hin Hc. unfold isdigit. apply andb_false_iff. right.
  apply not_true_iff_false. rewrite forallb_forall. intros H.
  apply list_elem_of_In in Hin. specialize (H c Hin).
  unfold is_digit_char in H.
  assert (Hlt : (c <? 256) = true) by (apply N.ltb_lt; lia).
  rewrite Hlt in H.
  repeat (apply orb_true_iff in H as [H|H]).
  - apply andb_true_iff in H as [H1 H2].
    apply N.leb_le in H1. apply N.leb_le in H2. lia.
  - apply N.eqb_eq in H. lia.
  - apply N.eqb_eq in H. lia.
  - apply N.eqb_eq in H. lia.
Qed.

(** X2.  A year that is empty, or that has a character below "0" or
    between "9" and U+00B2 (a letter, a blank, a brace, a sign ...), gives
    an infinite year value, and [sort_key] does not raise on it. *)
Theorem sort_key_non_numeric_year (e : entry) (y t : ustring) :
  e !! u "year" = Some y ->
  y = [] \/ (exists c, c ∈ y /\ (c < 48 \/ (57 < c /\ c < 178))) ->
  e !! u "ENTRYTYPE" = Some t ->
  result (sort_key ucd_digit ucd_decimal) e = Return (Inf, type_rank t).
Proof.
  intros Hy Hcase Ht.
  apply (sort_key_returns ucd_digit ucd_decimal e y t); try assumption;
    [|apply type_val_rank].
  apply year_val_not_digit. destruct Hcase as [->|[c [Hin Hc]]]; [reflexivity|].
  exact (isdigit_other_char y c Hin Hc).
Qed.

Lemma digits_value_none (y : ustring) (acc : Z) :
  digits_value ucd_decimal acc y = None ->
  exists c, c ∈ y /\ decimal_value ucd_decimal c = None.
Proof.
  revert acc. induction y as [|c y IH]; intros acc H; [discriminate H|].
  cbn [digits_value] in H. destruct (decimal_value ucd_decimal c) as [d|] eqn:E.
  - destruct (IH _ H) as [c' [Hin Hc']]. exists c'. split; [|exact Hc'].
    apply elem_of_cons. right. exact Hin.
  - exists c. split; [apply elem_of_cons; left; reflexivity | exact E].
Qed.

(** X3.  What [sort_key] can do.  When it returns, both fields were
    there and the second component is the rank of the type.  It raises
    [KeyError] for "year" exactly when the year is missing, and for
    "ENTRYTYPE" only when the year is there and the type is missing.  It
    raises [ValueError] only from [int], on a year that passed [isdigit]:
    one with a character that has no decimal value, or one of more than
    4300 digits, which [int] does not convert; the guarded [index] never
    raises. *)
Theorem sort_key_outcomes (e : entry) :
  match result (sort_key ucd_digit ucd_decimal) e with
  | Return (year_val, type_val) =>
      exists y t, e !! u "year" = Some y /\ e !! u "ENTRYTYPE" = Some t
                  /\ type_val = type_rank t
                  /\ (year_val = Inf <-> isdigit ucd_digit y = false)
  | Raise (KeyError k) =>
      (k = u "year" /\ e !! u "year" = None)
      \/ (k = u "ENTRYTYPE" /\ is_Some (e !! u "year")
          /\ e !! u "ENTRYTYPE" = None)
  | Raise ValueError =>
      exists y, e !! u "year" = Some y /\ isdigit ucd_digit y = true
                /\ ((exists c, c ∈ y /\ decimal_value ucd_decimal c = None)
                    \/ (4300 < length y)%nat)
  end.
Proof.
  unfold result. rewrite sort_key_run. cbn [fst]. unfold key_of.
  destruct (e !! u "year") as [y|] eqn:Hy; [|left; split; reflexivity].
  unfold year_val_of. destruct (isdigit ucd_digit y) eqn:Hd.
  - destruct (le_lt_dec (length y) int_max_str_digits) as [Hle|Hgt].
    2:{ rewrite (int_beyond_limit ucd_decimal y Hgt).
        exists y. split; [reflexivity|]. split; [exact Hd|]. right. exact Hgt. }
    rewrite (int_within_limit ucd_decimal y)
      by (first [exact Hle | intros ->; discriminate Hd]).
    destruct (digits_value ucd_decimal 0 y) as [z|] eqn:Hz.
    + destruct (e !! u "ENTRYTYPE") as [t|] eqn:Ht.
      * rewrite type_val_rank. exists y, t. repeat split; try assumption.
        -- discriminate.
        -- intros H. rewrite H in Hd. discriminate Hd.
      * right. split; [reflexivity|]. split; [eauto | reflexivity].
    + destruct (digits_value_none y 0 Hz) as [c [Hin Hc]].
      exists y. split; [reflexivity|]. split; [exact Hd|]. left. eauto.
  - destruct (e !! u "ENTRYTYPE") as [t|] eqn:Ht.
    + rewrite type_val_rank. exists y, t. repeat split; try assumption.
      intros _. exact Hd.
    + right. split; [reflexivity|]. split; [eauto | reflexivity].
Qed.

End SortKeyCases.

Lemma sort_key_numeric_year_witness :
  entry_plain !! u "year" = Some (u "2023")
  /\ result (sort_key no_digit_above_latin1 no_decimal_above_latin1) entry_plain
     = Return (Int 2023, Int 3).
Proof.
  assert (H : entry_plain !! u "year" = Some (u "2023")) by (vm_compute; reflexivity).
  split; [exact H|].
  apply (sort_key_numeric_year no_digit_above_latin1 no_decimal_above_latin1
           entry_plain (u "2023") (u "article") H).
  - intros E. vm_compute in E. discriminate E.
  - vm_compute. reflexivity.
  - vm_compute. lia.
  - vm_compute. reflexivity.
Defined.

Lemma sort_key_non_numeric_year_witness :
  entry_word_year !! u "year" = Some (u "in press")
  /\ result (sort_key no_digit_above_latin1 no_decimal_above_latin1) entry_word_year
     = Return (Inf, Inf).
Proof.
  assert (H : entry_word_year !! u "year" = Some (u "in press"))
    by (vm_compute; reflexivity).
  split; [exact H|].
  apply (sort_key_non_numeric_year no_digit_above_latin1 no_decimal_above_latin1
           entry_word_year (u "in press") (u "misc") H).
  - right. exists 32. split; [|left; reflexivity].
    apply list_elem_of_In. vm_compute. tauto.
  - vm_compute. reflexivity.
Defined.

(** ** Sorting sees the entries before they are cleaned *)

Lemma replace_special_unescaped (v : ustring) :
  forallb (fun c => negb (c =? bs)) v = true ->
  forallb (fun c => negb (c =? 126)) v = true ->
  replace_special v = v.
Proof.
  intros Hbs Htilde. unfold replace_special, special_characters.
  cbn [fold_left fst snd]. change (u "~") with [126].
  repeat rewrite (replace_absent _ _ _ v) by assumption.
  reflexivity.
Qed.

Lemma ascii_digit_plain (y : ustring) :
  forallb ascii_digit y = true -> forallb plain_char y = true.
Proof.
  apply forallb_impl. intros c Hc. unfold ascii_digit in Hc.
  apply andb_true_iff in Hc as [H1 H2].
  apply N.leb_le in H1. apply N.leb_le in H2.
  assert (H : c = 48 \/ c = 49 \/ c = 50 \/ c = 51 \/ c = 52 \/ c = 53
              \/ c = 54 \/ c = 55 \/ c = 56 \/ c = 57) by lia.
  repeat (destruct H as [->|H]; [reflexivity|]). subst c. reflexivity.
Qed.

Lemma last_forallb (f : N -> bool) (y : ustring) (d : N) :
  forallb f y = true -> last y = Some d -> f d = true.
Proof.
  intros Hy Hd. apply last_Some in Hd as [l ->].
  rewrite forallb_app in Hy. apply andb_true_iff in Hy as [_ Hy].
  cbn in Hy. rewrite andb_true_r in Hy. exact Hy.
Qed.

Lemma clean_braced_digits (y : ustring) :
  forallb ascii_digit y = true ->
  clean_value (u "year") ([123] ++ y ++ [125]) = y.
Proof.
  intros Hd. pose proof (ascii_digit_plain y Hd) as Hp.
  unfold clean_value.
  rewrite (strip_fixed ([123] ++ y ++ [125]) 123 125 (y ++ [125]) (123 :: y));
    try reflexivity.
  rewrite replace_special_unescaped.
  2:{ cbn [app forallb]. rewrite forallb_app.
      rewrite (plain_no_char bs y eq_refl Hp). reflexivity. }
  2:{ cbn [app forallb]. rewrite forallb_app.
      rewrite (plain_no_char 126 y eq_refl Hp). reflexivity. }
  rewrite strip_delimiters_filter, !List.filter_app.
  rewrite (filter_all _ y).
  2:{ revert Hp. apply forallb_impl. intros c Hc.
      apply plain_char_facts in Hc as [_ [_ [_ [_ Hm]]]].
      unfold mild_char in Hm. apply andb_true_iff in Hm as [_ Hm]. exact Hm. }
  cbn [List.filter is_delimiter N.eqb orb negb app]. rewrite app_nil_r.
  rewrite drop_trailing_comma_other; [reflexivity|].
  intros Hlast. pose proof (last_forallb _ _ _ Hp Hlast) as H. discriminate H.
Qed.

Section RawYear.

Variable ucd_digit : N -> bool.
Variable ucd_decimal : N -> option N.

(** X4.  The keys are computed before the entries are cleaned.  A year
    that bibtexparser left in braces, as in [{2023}], is not a digit string:
    the entry sorts with an infinite year, although [clean_entry] then
    takes the braces away and the year is displayed as the number. *)
Theorem sort_key_sees_raw_year (e : entry) (y t : ustring) :
  e !! u "year" = Some ([123] ++ y ++ [125]) ->
  forallb ascii_digit y = true ->
  e !! u "ENTRYTYPE" = Some t ->
  result (sort_key ucd_digit ucd_decimal) e = Return (Inf, type_rank t)
  /\ final clean_entry e !! u "year" = Some y.
Proof.
  intros Hy Hd Ht. split.
  - apply (sort_key_returns ucd_digit ucd_decimal e _ t _ _ Hy Ht);
      [|apply type_val_rank].
    apply year_val_not_digit. apply (isdigit_other_char ucd_digit _ 123).
    + apply elem_of_cons. left. reflexivity.
    + right. split; reflexivity.
  - rewrite clean_entry_lookup, Hy. cbn [fmap option_fmap option_map].
    rewrite (clean_braced_digits y Hd). reflexivity.
Qed.

End RawYear.

Lemma sort_key_sees_raw_year_witness :
  entry_braced_year !! u "year" = Some ([123] ++ u "2023" ++ [125])
  /\ result (sort_key no_digit_above_latin1 no_decimal_above_latin1)
       entry_braced_year = Return (Inf, Int 3)
  /\ final clean_entry entry_braced_year !! u "year" = Some (u "2023").
Proof.
  assert (H : entry_braced_year !! u "year" = Some ([123] ++ u "2023" ++ [125]))
    by (vm_compute; reflexivity).
  split; [exact H|].
  apply (sort_key_sees_raw_year no_digit_above_latin1 no_decimal_above_latin1
           entry_braced_year (u "2023") (u "article") H);
    vm_compute; reflexivity.
Defined.

(** ** The order of the keys *)

Lemma number_eq_spec (a b : number) : number_eq a b = true <-> a = b.
Proof.
  destruct a as [x|], b as [y|]; cbn; rewrite ?Z.eqb_eq;
    split; intros H; try congruence; try discriminate; reflexivity.
Qed.

Lemma number_lt_irrefl (a : number) : number_lt a a = false.
Proof. destruct a; cbn; [apply Z.ltb_irrefl | reflexivity]. Qed.

Lemma number_lt_trans (a b c : number) :
  number_lt a b = true -> number_lt b c = true -> number_lt a c = true.
Proof.
  destruct a, b, c; cbn; rewrite ?Z.ltb_lt; try discriminate; try reflexivity.
  lia.
Qed.

Lemma number_lt_neq (a b : number) : number_lt a b = true -> number_eq a b = false.
Proof.
  intros H. destruct (number_eq a b) eqn:E; [|reflexivity].
  apply number_eq_spec in E. subst b. rewrite number_lt_irrefl in H. discriminate H.
Qed.

Lemma number_eq_sym (a b : number) : number_eq a b = number_eq b a.
Proof. destruct a, b; cbn; try reflexivity. apply Z.eqb_sym. Qed.

Lemma key_lt_irrefl (a : number * number) : key_lt a a = false.
Proof.
  unfold key_lt. destruct (number_eq a.1 a.1); apply number_lt_irrefl.
Qed.

Lemma key_lt_trans (a b c : number * number) :
  key_lt a b = true -> key_lt b c = true -> key_lt a c = true.
Proof.
  unfold key_lt.
  destruct (number_eq a.1 b.1) eqn:Eab; destruct (number_eq b.1 c.1) eqn:Ebc;
    intros Hab Hbc.
  - apply number_eq_spec in Eab, Ebc. rewrite Eab, Ebc.
    rewrite (proj2 (number_eq_spec c.1 c.1) eq_refl).
    exact (number_lt_trans _ _ _ Hab Hbc).
  - apply number_eq_spec in Eab. rewrite Eab, Ebc. exact Hbc.
  - apply number_eq_spec in Ebc. rewrite <- Ebc, Eab. exact Hab.
  - pose proof (number_lt_trans _ _ _ Hab Hbc) as H.
    rewrite (number_lt_neq _ _ H). exact H.
Qed.

Lemma key_lt_asym (a b : number * number) :
  key_lt a b = true -> key_lt b a = false.
Proof.
  intros H. destruct (key_lt b a) eqn:E; [|reflexivity].
  pose proof (key_lt_trans _ _ _ H E) as Haa.
  rewrite key_lt_irrefl in Haa. discriminate Haa.
Qed.

(** Not being below is transitive too: the order is total. *)
Lemma key_ge_trans (a b c : number * number) :
  key_lt b a = false -> key_lt c b = false -> key_lt c a = false.
Proof.
  intros Hba Hcb. destruct (key_lt c a) eqn:E; [|reflexivity].
  destruct (decide (a = b)) as [->|Hne]; [congruence|].
  destruct (key_lt_total a b Hne) as [Hab|Hab]; [|congruence].
  pose proof (key_lt_trans _ _ _ E Hab). congruence.
Qed.

(** X5.  The comparison of keys that [sorted] uses is a strict total
    order.  In it every numeric year is before every non-numeric year
    whatever the types are, and within a year every ranked type is before
    the unranked ones. *)
Theorem key_order :
  (forall a, key_lt a a = false)
  /\ (forall a b c, key_lt a b = true -> key_lt b c = true -> key_lt a c = true)
  /\ (forall a b, a <> b -> key_lt a b = true \/ key_lt b a = true)
  /\ (forall z tv tv', key_lt (Int z, tv) (Inf, tv') = true)
  /\ (forall yv i, key_lt (yv, Int i) (yv, Inf) = true)
  /\ (forall z z' tv tv', (z < z')%Z -> key_lt (Int z, tv) (Int z', tv') = true).
Proof.
  split; [exact key_lt_irrefl|]. split; [exact key_lt_trans|].
  split; [exact key_lt_total|]. split; [|split].
  - intros z tv tv'. reflexivity.
  - intros yv i. unfold key_lt. cbn [fst snd].
    rewrite (proj2 (number_eq_spec yv yv) eq_refl). reflexivity.
  - intros z z' tv tv' Hlt. unfold key_lt. cbn [fst snd number_eq number_lt].
    destruct (Z.eqb_spec z z'); [lia|]. apply Z.ltb_lt, Hlt.
Qed.

(** ** The main block *)

Lemma run_each_inv {A} (m : Py A) (es : list entry) (r : list (A * entry)) :
  run_each m es = Return r ->
  Forall2 (fun e ar => m e = (Return ar.1, ar.2)) es r.
Proof.
  revert r. induction es as [|e es IH]; intros r H; cbn [run_each] in H.
  - injection H as <-. constructor.
  - destruct (m e) as [[a|x] e'] eqn:E; [|discriminate H].
    destruct (run_each m es) as [r'|x]; [|discriminate H].
    injection H as <-. constructor; [exact E | apply IH; reflexivity].
Qed.


Lemma clean_entry_run (e : entry) : clean_entry e = (Return tt, final clean_entry e).
Proof. unfold final, clean_entry. rewrite for_each_setitem_run. reflexivity. Qed.

Lemma clean_then_render_run (e : entry) :
  (let* _ := clean_entry in get_bib_entry_as_html) e
  = (html_of (final clean_entry e), final clean_entry e).
Proof.
  rewrite bind_run, clean_entry_run. apply get_bib_entry_as_html_run.
Qed.

Lemma insert_by_key_perm {A} (x : (number * number) * A) (l : list ((number * number) * A)) :
  insert_by_key x l ≡ₚ x :: l.
Proof.
  induction l as [|y l IH]; [reflexivity|]. cbn [insert_by_key].
  destruct (key_lt y.1 x.1); [|reflexivity].
  rewrite IH. apply Permutation_swap.
Qed.

Lemma sort_by_key_perm {A} (l : list ((number * number) * A)) :
  sort_by_key l ≡ₚ l.
Proof.
  unfold sort_by_key. induction l as [|x l IH]; [reflexivity|].
  cbn [foldr]. rewrite insert_by_key_perm, IH. reflexivity.
Qed.

Lemma insert_by_key_sorted {A} (x : (number * number) * A)
    (l : list ((number * number) * A)) :
  StronglySorted (fun a b => key_lt b.1 a.1 = false) l ->
  StronglySorted (fun a b => key_lt b.1 a.1 = false) (insert_by_key x l).
Proof.
  induction 1 as [|y l Hl IH Hy]; cbn [insert_by_key].
  - repeat constructor.
  - destruct (key_lt y.1 x.1) eqn:E.
    + constructor; [exact IH|].
      rewrite insert_by_key_perm.
      constructor; [apply key_lt_asym, E | exact Hy].
    + constructor; [constructor; assumption|].
      constructor; [exact E|].
      eapply Forall_impl; [exact Hy|]. intros z Hz. cbn beta in *.
      exact (key_ge_trans _ _ _ E Hz).
Qed.

Lemma sort_by_key_sorted {A} (l : list ((number * number) * A)) :
  StronglySorted (fun a b => key_lt b.1 a.1 = false) (sort_by_key l).
Proof.
  unfold sort_by_key. induction l as [|x l IH]; [constructor|].
  cbn [foldr]. apply insert_by_key_sorted, IH.
Qed.

Section MainBlock.

Variable ucd_digit : N -> bool.
Variable ucd_decimal : N -> option N.

(** What [main] returns, in terms of the entries with their keys. *)
Lemma main_inversion (entries : list entry) (items : list ustring) :
  main ucd_digit ucd_decimal entries = Return items ->
  exists keyed : list ((number * number) * entry),
    map snd keyed = entries
    /\ Forall (fun ke => result (sort_key ucd_digit ucd_decimal) ke.2 = Return ke.1)
         keyed
    /\ Forall2 (fun ke item =>
                  result get_bib_entry_as_html (final clean_entry ke.2) = Return item)
         (sort_by_key keyed) items.
Proof.
  unfold main. intros H.
  destruct (run_each (sort_key ucd_digit ucd_decimal) entries) as [keyed|x] eqn:Hk;
    [|discriminate H].
  destruct (run_each _ (map snd (sort_by_key keyed))) as [written|x] eqn:Hw;
    [|discriminate H].
  injection H as <-. apply run_each_inv in Hk, Hw. exists keyed.
  split; [|split].
  - clear Hw. induction Hk as [|e [k e'] es r He _ IH]; [reflexivity|].
    cbn [map snd] in *. rewrite sort_key_run in He.
    injection He as _ <-. f_equal. exact IH.
  - clear Hw. induction Hk as [|e [k e'] es r He _ IH]; constructor; [|exact IH].
    rewrite sort_key_run in He. injection He as Hkey <-.
    unfold result. rewrite sort_key_run. exact Hkey.
  - clear Hk. revert Hw. generalize (sort_by_key keyed). intros l.
    revert written. induction l as [|ke l IH]; intros written Hw.
    + inversion Hw. constructor.
    + cbn [map] in Hw. inversion Hw as [|? [h e'] ? r Hhead Htail]; subst.
      cbn [map fst]. constructor; [|apply IH, Htail].
      rewrite clean_then_render_run in Hhead. injection Hhead as Hh _.
      rewrite result_html. exact Hh.
Qed.

(** X6.  When [main] returns, the items it writes are the renderings of
    the cleaned entries, one for each entry of the file, in an order in
    which no entry comes before one with a smaller key; the keys are those
    of the entries as parsed. *)
Theorem main_items_sorted (entries : list entry) (items : list ustring) :
  main ucd_digit ucd_decimal entries = Return items ->
  exists sorted : list ((number * number) * entry),
    map snd sorted ≡ₚ entries
    /\ Forall (fun ke => result (sort_key ucd_digit ucd_decimal) ke.2 = Return ke.1)
         sorted
    /\ StronglySorted (fun a b => key_lt b.1 a.1 = false) sorted
    /\ Forall2 (fun ke item =>
                  result get_bib_entry_as_html (final clean_entry ke.2) = Return item)
         sorted items
    /\ length items = length entries.
Proof.
  intros H. destruct (main_inversion entries items H) as [keyed [Hsnd [Hkeys Hitems]]].
  exists (sort_by_key keyed).
  assert (Hperm : map snd (sort_by_key keyed) ≡ₚ entries).
  { rewrite <- Hsnd. apply Permutation_map, sort_by_key_perm. }
  split; [exact Hperm|]. split; [|split; [|split]].
  - rewrite sort_by_key_perm. exact Hkeys.
  - apply sort_by_key_sorted.
  - exact Hitems.
  - rewrite <- (Forall2_length _ _ _ Hitems), <- (Permutation_length Hperm).
    rewrite length_map. reflexivity.
Qed.


End MainBlock.

Lemma key_eq_lt (a b : number * number) : key_lt a b = true -> key_eq a b = false.
Proof.
  unfold key_lt, key_eq. destruct (number_eq a.1 b.1); [|reflexivity].
  intros H. rewrite (number_lt_neq _ _ H). reflexivity.
Qed.

Lemma key_eq_trans_lt (a b k : number * number) :
  key_eq a k = true -> key_lt b a = true -> key_eq b k = false.
Proof.
  unfold key_eq. intros Hak Hba. apply andb_true_iff in Hak as [H1 H2].
  apply number_eq_spec in H1, H2.
  pose proof (key_eq_lt b a Hba) as H. unfold key_eq in H.
  rewrite H1, H2 in H. exact H.
Qed.

Lemma insert_by_key_filter {A} (k : number * number) (x : (number * number) * A)
    (l : list ((number * number) * A)) :
  List.filter (fun ke => key_eq ke.1 k) (insert_by_key x l)
  = List.filter (fun ke => key_eq ke.1 k) (x :: l).
Proof.
  induction l as [|y l IH]; [reflexivity|]. cbn [insert_by_key].
  destruct (key_lt y.1 x.1) eqn:E; [|reflexivity].
  cbn [List.filter] in *. rewrite IH.
  destruct (key_eq x.1 k) eqn:Ex; [|reflexivity].
  rewrite (key_eq_trans_lt x.1 y.1 k Ex E). reflexivity.
Qed.

(** X8.  The sort is stable: the entries that have one and the same key
    come out in the order they had in the file. *)
Theorem sort_by_key_stable {A} (k : number * number)
    (l : list ((number * number) * A)) :
  List.filter (fun ke => key_eq ke.1 k) (sort_by_key l)
  = List.filter (fun ke => key_eq ke.1 k) l.
Proof.
  unfold sort_by_key. induction l as [|x l IH]; [reflexivity|].
  cbn [foldr]. rewrite insert_by_key_filter. cbn [List.filter].
  rewrite IH. reflexivity.
Qed.

Lemma main_items_sorted_witness :
  exists items,
    main no_digit_above_latin1 no_decimal_above_latin1
      [entry_plain; entry_book_2020] = Return items
    /\ length items = 2%nat.
Proof.
  destruct (main no_digit_above_latin1 no_decimal_above_latin1
              [entry_plain; entry_book_2020]) as [items|x] eqn:E.
  - exists items. split; [reflexivity|].
    destruct (main_items_sorted no_digit_above_latin1 no_decimal_above_latin1
                [entry_plain; entry_book_2020] items E) as [s [_ [_ [_ [_ H]]]]].
    exact H.
  - exfalso. vm_compute in E. discriminate E.
Defined.

(** ** What a cleaned value looks like *)

Lemma forallb_filter_and (f g : N -> bool) (s : ustring) :
  forallb g s = true ->
  forallb (fun c => f c && g c) (List.filter f s) = true.
Proof.
  induction s as [|c s IH]; [reflexivity|]. cbn [forallb List.filter].
  intros H. apply andb_true_iff in H as [Hc Hs].
  destruct (f c) eqn:E; [|apply IH, Hs].
  cbn [forallb]. rewrite E, Hc. apply IH, Hs.
Qed.

Lemma replace_special_no_tilde (v : ustring) :
  forallb (fun c => negb (c =? 126)) (replace_special v) = true.
Proof.
  unfold replace_special, special_characters. cbn [fold_left fst snd].
  change (u "~") with [126].
  do 12 (apply forallb_replace; [reflexivity|]).
  apply replace_char_gone. reflexivity.
Qed.

(** X9.  Whatever the value and the key, the cleaned value has no brace,
    no double quote and no tilde. *)
Theorem cleaned_value_has_no_markup (e : entry) (k w : ustring) :
  final clean_entry e !! k = Some w ->
  forallb (fun c => negb (is_delimiter c) && negb (c =? 126)) w = true.
Proof.
  rewrite clean_entry_lookup. destruct (e !! k) as [v|]; [|discriminate].
  intros [= <-]. unfold clean_value.
  apply forallb_fix_field; try reflexivity.
  apply forallb_drop_trailing_comma.
  rewrite strip_delimiters_filter.
  apply (forallb_filter_and (fun c => negb (is_delimiter c))).
  apply replace_special_no_tilde.
Qed.

Lemma cleaned_value_has_no_markup_witness :
  final clean_entry entry_messy_title !! u "title" = Some (u "Proofs,")
  /\ forallb (fun c => negb (is_delimiter c) && negb (c =? 126)) (u "Proofs,") = true.
Proof.
  assert (H : final clean_entry entry_messy_title !! u "title" = Some (u "Proofs,"))
    by (vm_compute; reflexivity).
  split; [exact H|].
  exact (cleaned_value_has_no_markup entry_messy_title (u "title") (u "Proofs,") H).
Defined.

Lemma lstrip_blank (v : ustring) :
  forallb PyStr.isspace v = true -> PyStr.lstrip v = [].
Proof.
  induction v as [|c v IH]; [reflexivity|]. cbn [forallb PyStr.lstrip].
  intros H. apply andb_true_iff in H as [Hc Hv]. rewrite Hc. apply IH, Hv.
Qed.

Lemma fix_field_empty (k : ustring) : fix_field k [] = [].
Proof.
  unfold fix_field. destruct (is_author_key k);
    destruct (bool_decide (k = u "pages")); reflexivity.
Qed.

(** X10.  A value that is empty or made of white space only is cleaned to
    the empty string, under every key, the fields of authors and pages
    included. *)
Theorem blank_value_cleaned_to_empty (e : entry) (k v : ustring) :
  e !! k = Some v ->
  forallb PyStr.isspace v = true ->
  final clean_entry e !! k = Some [].
Proof.
  intros Hk Hv. rewrite clean_entry_lookup, Hk. cbn [fmap option_fmap option_map].
  f_equal. unfold clean_value, PyStr.strip, PyStr.rstrip.
  rewrite (lstrip_blank v Hv). cbn [rev PyStr.lstrip].
  apply fix_field_empty.
Qed.

Lemma blank_value_cleaned_to_empty_witness :
  entry_pages !! u "note" = Some (u "  ")
  /\ final clean_entry entry_pages !! u "note" = Some [].
Proof.
  assert (H : entry_pages !! u "note" = Some (u "  ")) by (vm_compute; reflexivity).
  split; [exact H|].
  apply (blank_value_cleaned_to_empty entry_pages (u "note") (u "  ") H).
  vm_compute. reflexivity.
Defined.

(** X11.  Under a key that is neither a field of authors nor pages, a
    value without backslash, tilde, brace and double quote is only
    trimmed, and loses one comma if it ends with one after trimming. *)
Theorem plain_value_trimmed (e : entry) (k v : ustring) :
  e !! k = Some v ->
  is_author_key k = false ->
  k <> u "pages" ->
  forallb mild_char v = true ->
  final clean_entry e !! k = Some (drop_trailing_comma (PyStr.strip v)).
Proof.
  intros Hk Ha Hp Hv. rewrite clean_entry_lookup, Hk.
  cbn [fmap option_fmap option_map]. f_equal. unfold clean_value.
  pose proof (forallb_strip mild_char v Hv) as Hs.
  rewrite (replace_special_mild _ Hs), (strip_delimiters_mild _ Hs).
  unfold fix_field. rewrite Ha, bool_decide_eq_false_2 by assumption.
  reflexivity.
Qed.

Lemma plain_value_trimmed_witness :
  entry_pages !! u "title" = Some (u "Proofs, ")
  /\ final clean_entry entry_pages !! u "title" = Some (u "Proofs").
Proof.
  assert (H : entry_pages !! u "title" = Some (u "Proofs, "))
    by (vm_compute; reflexivity).
  split; [exact H|].
  rewrite (plain_value_trimmed entry_pages (u "title") (u "Proofs, ") H).
  - vm_compute. reflexivity.
  - reflexivity.
  - intros E. vm_compute in E. discriminate E.
  - vm_compute. reflexivity.
Defined.

(** X12.  Cleaning works key by key: cleaning an entry to which a field
    was added (or in which it was overwritten) is cleaning the entry and
    storing the cleaned value of that field; removing a field and cleaning
    can be done in either order; the empty entry stays empty. *)
Theorem clean_entry_insert (e : entry) (k v : ustring) :
  final clean_entry (<[k := v]> e) = <[k := clean_value k v]> (final clean_entry e)
  /\ final clean_entry (delete k e) = delete k (final clean_entry e)
  /\ final clean_entry (∅ : entry) = ∅.
Proof.
  split; [|split]; apply map_eq; intros k'; rewrite !clean_entry_lookup.
  - destruct (decide (k = k')) as [->|Hne].
    + rewrite !lookup_insert_eq. reflexivity.
    + rewrite !lookup_insert_ne by assumption. rewrite clean_entry_lookup.
      reflexivity.
  - destruct (decide (k = k')) as [->|Hne].
    + rewrite !lookup_delete_eq. reflexivity.
    + rewrite !lookup_delete_ne by assumption. rewrite clean_entry_lookup.
      reflexivity.
  - rewrite !lookup_empty. reflexivity.
Qed.

(** *** Pages *)

Lemma ends_plain_plain (w : ustring) :
  w <> [] -> forallb plain_char w = true -> ends_plain w.
Proof.
  intros Hne Hw. split.
  - destruct w as [|c w]; [contradiction|]. exists c, w.
    cbn in Hw. apply andb_true_iff in Hw as [Hc _]. split; [reflexivity | exact Hc].
  - destruct (exists_last Hne) as [t [d ->]]. exists t, d.
    rewrite forallb_app in Hw. apply andb_true_iff in Hw as [_ Hd].
    cbn in Hd. rewrite andb_true_r in Hd. split; [reflexivity | exact Hd].
Qed.

Lemma fix_pages_double (a b : ustring) :
  forallb (fun c => negb (c =? 45)) a = true ->
  forallb (fun c => negb (c =? 45)) b = true ->
  fix_pages (a ++ u "--" ++ b) = a ++ u "&ndash;" ++ b.
Proof.
  intros Ha Hb. unfold fix_pages. change (u "--") with [45; 45].
  change (u "-") with [45].
  rewrite (replace_word 45 [45] _ a _ Ha), replace_match by discriminate.
  rewrite (replace_absent 45 [45] _ b Hb).
  apply replace_absent. rewrite !forallb_app, Ha, Hb. reflexivity.
Qed.

Lemma fix_pages_single (a b : ustring) :
  forallb (fun c => negb (c =? 45)) a = true ->
  forallb (fun c => negb (c =? 45)) b = true ->
  fix_pages (a ++ u "-" ++ b) = a ++ u "&ndash;" ++ b.
Proof.
  intros Ha Hb. unfold fix_pages. change (u "--") with [45; 45].
  change (u "-") with [45].
  assert (H1 : PyStr.replace [45; 45] (u "&ndash;") (a ++ [45] ++ b) = a ++ [45] ++ b).
  { rewrite (replace_word 45 [45] _ a _ Ha). f_equal. cbn [app].
    rewrite replace_step; [|discriminate|].
    - rewrite (replace_absent 45 [45] _ b Hb). reflexivity.
    - destruct b as [|d b]; [reflexivity|]. cbn [forallb] in Hb.
      apply andb_true_iff in Hb as [Hd _]. apply negb_true_iff in Hd.
      change (PyStr.startswith [45; 45] (45 :: d :: b))
        with (PyStr.startswith [45] (d :: b)).
      apply startswith_head. apply N.eqb_neq in Hd. congruence. }
  rewrite H1, (replace_word 45 [] _ a _ Ha), replace_match by discriminate.
  rewrite (replace_absent 45 [] _ b Hb). reflexivity.
Qed.

(** X13.  The cleaned pages field has no hyphen left: every double hyphen
    and every single one has become "&ndash;".  A range written "a--b"
    and the same range written "a-b" are cleaned to the same value. *)
Theorem pages_hyphens (e : entry) (v : ustring) :
  e !! u "pages" = Some v ->
  (exists w, final clean_entry e !! u "pages" = Some w
             /\ forallb (fun c => negb (c =? 45)) w = true)
  /\ forall a b,
       a <> [] -> b <> [] ->
       forallb plain_char a = true -> forallb plain_char b = true ->
       forallb (fun c => negb (c =? 45)) a = true ->
       forallb (fun c => negb (c =? 45)) b = true ->
       v = a ++ u "--" ++ b \/ v = a ++ u "-" ++ b ->
       final clean_entry e !! u "pages" = Some (a ++ u "&ndash;" ++ b).
Proof.
  intros Hv. rewrite clean_entry_lookup, Hv. cbn [fmap option_fmap option_map].
  split.
  - eexists. split; [reflexivity|]. unfold clean_value, fix_field.
    change (is_author_key (u "pages")) with false.
    rewrite bool_decide_eq_true_2 by reflexivity.
    unfold fix_pages. change (u "-") with [45]. apply replace_char_gone.
    reflexivity.
  - intros a b Hna Hnb Hpa Hpb Ha Hb Hcase. f_equal.
    assert (Hgen : forall m, forallb mild_char m = true ->
      drop_trailing_comma
        (strip_delimiters (replace_special (PyStr.strip (a ++ m ++ b))))
      = a ++ m ++ b).
    { intros m Hm. apply generic_steps_fixed.
      - rewrite !forallb_app, (plain_mild a Hpa), (plain_mild b Hpb), Hm.
        reflexivity.
      - apply ends_plain_app; apply ends_plain_plain; assumption. }
    unfold clean_value, fix_field.
    change (is_author_key (u "pages")) with false.
    rewrite bool_decide_eq_true_2 by reflexivity.
    destruct Hcase as [->| ->]; rewrite Hgen by reflexivity.
    + apply fix_pages_double; assumption.
    + apply fix_pages_single; assumption.
Qed.

Lemma pages_hyphens_witness :
  entry_pages !! u "pages" = Some (u "1539--1589")
  /\ final clean_entry entry_pages !! u "pages" = Some (u "1539&ndash;1589").
Proof.
  assert (H : entry_pages !! u "pages" = Some (u "1539--1589"))
    by (vm_compute; reflexivity).
  split; [exact H|].
  apply (proj2 (pages_hyphens entry_pages (u "1539--1589") H) (u "1539") (u "1589"));
    try (vm_compute; reflexivity); try (intros E; vm_compute in E; discriminate E).
  left. reflexivity.
Defined.

(** ** Which entries can be rendered *)

Lemma title_of_returns_iff (e : entry) :
  (exists t, title_of e = Return t) <->
  is_Some (e !! u "title")
  /\ (is_Some (e !! u "chapter") -> is_Some (e !! u "publisher")).
Proof.
  unfold title_of, field.
  destruct (e !! u "chapter") as [c|]; destruct (e !! u "title") as [t|];
    destruct (e !! u "publisher") as [p|]; (split; [intros [? H]|intros [[? H1] H2]]);
    try discriminate; try (split; [eauto|first [intros X; exact X | intros _; eauto]]);
    eauto;
    try (destruct H2 as [? H2]; [eauto|discriminate H2]).
Qed.

Lemma summary_of_returns_iff (e : entry) :
  (exists vp, summary_of e = Return vp) <->
  (is_Some (e !! u "number") -> is_Some (e !! u "ENTRYTYPE")).
Proof.
  unfold summary_of.
  destruct (e !! u "number") as [n|].
  2:{ split; [intros _ [? [=]] | eauto]. }
  destruct (e !! u "ENTRYTYPE") as [ty|].
  - destruct (bool_decide (ty = u "techreport")); split; eauto.
  - split; [intros [? [=]] | intros H; destruct H as [? [=]]; eauto].
Qed.

Lemma publisher_of_returns_iff (e : entry) :
  (exists p, publisher_of e = Return p) <->
  (e !! u "journal" = None -> e !! u "booktitle" = None -> e !! u "eprint" = None ->
   exists ty, e !! u "ENTRYTYPE" = Some ty
     /\ (ty = u "phdthesis" -> is_Some (e !! u "school"))
     /\ (ty = u "techreport" -> is_Some (e !! u "number"))
     /\ (ty = u "book" -> is_Some (e !! u "publisher"))).
Proof.
  unfold publisher_of, field.
  destruct (e !! u "journal"); [split; [discriminate | eauto]|].
  destruct (e !! u "booktitle"); [split; [discriminate | eauto]|].
  destruct (e !! u "eprint"); [split; [discriminate | eauto]|].
  destruct (e !! u "ENTRYTYPE") as [ty|].
  2:{ split; [intros [? [=]]|].
      intros H. destruct (H eq_refl eq_refl eq_refl) as [? [[=] _]]. }
  split.
  - intros [p Hp] _ _ _. exists ty. split; [reflexivity|].
    repeat case_bool_decide; subst;
      destruct (e !! u "school"); destruct (e !! u "number");
      destruct (e !! u "publisher");
      try discriminate Hp;
      (split; [|split]); intros Hty; try (vm_compute in Hty; discriminate Hty);
      try contradiction; eauto.
  - intros H. destruct (H eq_refl eq_refl eq_refl) as [ty' [[= <-] [Hs [Hn Hb]]]].
    repeat case_bool_decide.
    + destruct (Hs ltac:(assumption)) as [? ->]. eauto.
    + destruct (Hn ltac:(assumption)) as [? ->]. eauto.
    + destruct (Hb ltac:(assumption)) as [? ->]. eauto.
    + eauto.
Qed.

(** X14.  The renderer returns an item exactly for the entries that have:
    a title; a publisher when they have a chapter; a year; an entry type
    when they have a number; and, when they have none of journal,
    booktitle and eprint, an entry type together with the school of a
    thesis, the number of a technical report or the publisher of a book.
    The author and the fields of the link are never required. *)
Theorem render_returns_iff (e : entry) :
  (exists html, result get_bib_entry_as_html e = Return html) <->
  is_Some (e !! u "title")
  /\ (is_Some (e !! u "chapter") -> is_Some (e !! u "publisher"))
  /\ is_Some (e !! u "year")
  /\ (is_Some (e !! u "number") -> is_Some (e !! u "ENTRYTYPE"))
  /\ (e !! u "journal" = None -> e !! u "booktitle" = None ->
      e !! u "eprint" = None ->
      exists ty, e !! u "ENTRYTYPE" = Some ty
        /\ (ty = u "phdthesis" -> is_Some (e !! u "school"))
        /\ (ty = u "techreport" -> is_Some (e !! u "number"))
        /\ (ty = u "book" -> is_Some (e !! u "publisher"))).
Proof.
  rewrite result_html.
  rewrite <- publisher_of_returns_iff, <- summary_of_returns_iff.
  assert (Ht := title_of_returns_iff e).
  assert (Hh : (exists html, html_of e = Return html) <->
    (exists t, title_of e = Return t) /\ (exists p, publisher_of e = Return p)
    /\ (exists vp, summary_of e = Return vp) /\ is_Some (e !! u "year")).
  { unfold html_of.
    destruct (title_of e) as [t|x]; [|split; [intros [? [=]] | intros [[? [=]] _]]].
    destruct (publisher_of e) as [p|x];
      [|split; [intros [? [=]] | intros [_ [[? [=]] _]]]].
    destruct (summary_of e) as [vp|x];
      [|split; [intros [? [=]] | intros [_ [_ [[? [=]] _]]]]].
    destruct (e !! u "year") as [y|].
    - split; eauto 10.
    - split; [intros [? [=]] | intros [_ [_ [_ [? [=]]]]]]. }
  rewrite Hh, Ht. tauto.
Qed.

Lemma title_of_raises_key (e : entry) (x : exn) :
  title_of e = Raise x ->
  exists k, x = KeyError k /\ e !! k = None /\ k ∈ [u "title"; u "publisher"].
Proof.
  unfold title_of, field.
  destruct (e !! u "chapter"); destruct (e !! u "title") eqn:?;
    try destruct (e !! u "publisher") eqn:?; intros [= <-];
    eexists; (split; [reflexivity|]); (split; [eassumption | set_solver]).
Qed.

Lemma publisher_of_raises_key (e : entry) (x : exn) :
  publisher_of e = Raise x ->
  exists k, x = KeyError k /\ e !! k = None
    /\ k ∈ [u "ENTRYTYPE"; u "school"; u "number"; u "publisher"].
Proof.
  unfold publisher_of, field.
  destruct (e !! u "journal"); [discriminate|].
  destruct (e !! u "booktitle"); [discriminate|].
  destruct (e !! u "eprint"); [discriminate|].
  destruct (e !! u "ENTRYTYPE") as [ty|] eqn:?.
  2:{ intros [= <-]. eexists. split; [reflexivity|].
      split; [eassumption | set_solver]. }
  destruct (bool_decide (ty = u "phdthesis")).
  { destruct (e !! u "school") eqn:?; intros [= <-]. eexists.
    split; [reflexivity|]. split; [eassumption | set_solver]. }
  destruct (bool_decide (ty = u "techreport")).
  { destruct (e !! u "number") eqn:?; intros [= <-]. eexists.
    split; [reflexivity|]. split; [eassumption | set_solver]. }
  destruct (bool_decide (ty = u "book")); [|discriminate].
  destruct (e !! u "publisher") eqn:?; intros [= <-]. eexists.
  split; [reflexivity|]. split; [eassumption | set_solver].
Qed.

Lemma summary_of_raises_key (e : entry) (x : exn) :
  summary_of e = Raise x -> x = KeyError (u "ENTRYTYPE") /\ e !! u "ENTRYTYPE" = None.
Proof.
  unfold summary_of.
  destruct (e !! u "number"); [|discriminate].
  destruct (e !! u "ENTRYTYPE") as [ty|]; [|intros [= <-]; split; reflexivity].
  destruct (bool_decide (ty = u "techreport")); discriminate.
Qed.

(** X15.  The only exception the renderer raises is a KeyError, for a key
    the entry does not have, one of title, publisher, ENTRYTYPE, school,
    number and year.  A missing title is reported before anything else,
    also for an entry that has just been cleaned. *)
Theorem render_raises_missing_key (e : entry) (x : exn) :
  result get_bib_entry_as_html e = Raise x ->
  (exists k, x = KeyError k /\ e !! k = None
     /\ k ∈ [u "title"; u "publisher"; u "ENTRYTYPE"; u "school"; u "number";
             u "year"])
  /\ (e !! u "title" = None ->
      x = KeyError (u "title")
      /\ result (let* _ := clean_entry in get_bib_entry_as_html) e
         = Raise (KeyError (u "title"))).
Proof.
  intros Hx. split.
  - revert Hx. rewrite result_html. unfold html_of.
    destruct (title_of e) as [t|x'] eqn:Ht.
    2:{ intros [= <-]. destruct (title_of_raises_key e x' Ht) as [k [-> [Hk Hin]]].
        exists k. split; [reflexivity|]. split; [exact Hk|].
        repeat match goal with
               | H : _ ∈ _ :: _ |- _ => apply elem_of_cons in H as [->|H]
               | H : _ ∈ [] |- _ => inversion H
               end; set_solver. }
    destruct (publisher_of e) as [p|x'] eqn:Hp.
    2:{ intros [= <-]. destruct (publisher_of_raises_key e x' Hp) as [k [-> [Hk Hin]]].
        exists k. split; [reflexivity|]. split; [exact Hk|].
        repeat match goal with
               | H : _ ∈ _ :: _ |- _ => apply elem_of_cons in H as [->|H]
               | H : _ ∈ [] |- _ => inversion H
               end; set_solver. }
    destruct (summary_of e) as [vp|x'] eqn:Hvp.
    2:{ intros [= <-]. destruct (summary_of_raises_key e x' Hvp) as [-> Hk].
        eexists. split; [reflexivity|]. split; [exact Hk | set_solver]. }
    destruct (e !! u "year") eqn:Hy; [discriminate|].
    intros [= <-]. eexists. split; [reflexivity|]. split; [exact Hy | set_solver].
  - intros Ht. revert Hx. unfold result. rewrite clean_then_render_run.
    rewrite get_bib_entry_as_html_run. cbn [fst].
    assert (Hc : final clean_entry e !! u "title" = None)
      by (rewrite clean_entry_lookup, Ht; reflexivity).
    unfold html_of, title_of, field. rewrite Ht, Hc.
    destruct (e !! u "chapter"); destruct (final clean_entry e !! u "chapter");
      intros [= <-]; split; reflexivity.
Qed.

Lemma render_raises_missing_key_witness :
  result get_bib_entry_as_html entry_thesis_without_school
    = Raise (KeyError (u "school"))
  /\ entry_thesis_without_school !! u "school" = None.
Proof.
  assert (H : result get_bib_entry_as_html entry_thesis_without_school
              = Raise (KeyError (u "school"))) by (vm_compute; reflexivity).
  split; [exact H|].
  destruct (proj1 (render_raises_missing_key _ _ H)) as [k [[= <-] [Hk _]]].
  exact Hk.
Defined.

(** ** The venue, the summary and the anchor *)

(** X16.  The venue of an item is the journal when there is one, else the
    booktitle, else the eprint, whatever the type of the entry, which is
    not even looked up.  Without these three fields the type decides: the
    school of a thesis after "PhD thesis, ", the publisher of a book, and
    nothing at all for a type other than phdthesis, techreport and book. *)
Theorem venue_precedence (e : entry) :
  (forall j, e !! u "journal" = Some j ->
     result format_publisher e = Return (span (u "publisher") j))
  /\ (forall b, e !! u "journal" = None -> e !! u "booktitle" = Some b ->
     result format_publisher e = Return (span (u "publisher") b))
  /\ (forall p, e !! u "journal" = None -> e !! u "booktitle" = None ->
     e !! u "eprint" = Some p ->
     result format_publisher e = Return (span (u "publisher") p))
  /\ (e !! u "journal" = None -> e !! u "booktitle" = None ->
      e !! u "eprint" = None ->
      (e !! u "ENTRYTYPE" = None ->
       result format_publisher e = Raise (KeyError (u "ENTRYTYPE")))
      /\ (e !! u "ENTRYTYPE" = Some (u "phdthesis") ->
          result format_publisher e =
            match e !! u "school" with
            | Some s => Return (u "PhD thesis, " ++ s)
            | None => Raise (KeyError (u "school"))
            end)
      /\ (e !! u "ENTRYTYPE" = Some (u "book") ->
          result format_publisher e =
            match e !! u "publisher" with
            | Some p => Return p
            | None => Raise (KeyError (u "publisher"))
            end)
      /\ (forall ty, e !! u "ENTRYTYPE" = Some ty ->
          ty <> u "phdthesis" -> ty <> u "techreport" -> ty <> u "book" ->
          result format_publisher e = Return [])).
Proof.
  rewrite result_format_publisher. unfold publisher_of, field.
  split; [intros j ->; reflexivity|].
  split; [intros b -> ->; reflexivity|].
  split; [intros p -> -> ->; reflexivity|].
  intros -> -> ->.
  split; [intros ->; reflexivity|].
  split.
  { intros ->. rewrite bool_decide_refl. destruct (e !! u "school"); reflexivity. }
  split.
  { intros ->. rewrite bool_decide_refl.
    rewrite !bool_decide_eq_false_2
      by (intros E; vm_compute in E; discriminate E).
    destruct (e !! u "publisher"); reflexivity. }
  intros ty -> H1 H2 H3.
  rewrite !bool_decide_eq_false_2 by assumption. reflexivity.
Qed.

Lemma join_head_nonempty (sep x : ustring) (xs : list ustring) :
  x <> [] -> PyStr.join sep (x :: xs) <> [].
Proof.
  intros Hx. destruct x as [|c x]; [contradiction|].
  destruct xs; cbn; discriminate.
Qed.

Lemma join_empty_head (sep : ustring) (x : ustring) (xs : list ustring) :
  sep <> [] -> PyStr.join sep ([] :: x :: xs) <> [].
Proof.
  intros Hs. destruct sep as [|c sep]; [contradiction|]. cbn. discriminate.
Qed.

Lemma labelled_nonempty (label : String.string) (v : ustring) :
  u label <> [] -> u label ++ v <> [].
Proof. intros H E. apply app_eq_nil in E as [E _]. contradiction. Qed.

(** X17.  The summary of volume, number, pages and month is empty, so
    that the item shows none, exactly when the entry has no volume, no
    pages, a number only if it is a technical report, and a month only if
    it is the empty string. *)
Theorem summary_empty_iff (e : entry) (vp : ustring) :
  result format_volume_pages_notes e = Return vp ->
  vp = [] <->
  e !! u "volume" = None
  /\ e !! u "pages" = None
  /\ (e !! u "number" = None \/ e !! u "ENTRYTYPE" = Some (u "techreport"))
  /\ (e !! u "month" = None \/ e !! u "month" = Some []).
Proof.
  rewrite result_format_volume_pages_notes. unfold summary_of.
  assert (Hparts : forall number_clause : list ustring,
    (number_clause = [] \/ exists n, number_clause = [u "no. " ++ n]) ->
    PyStr.join (u ", ")
      (clause (u "vol. ") (e !! u "volume") ++ number_clause
         ++ clause (u "pp. ") (e !! u "pages") ++ clause [] (e !! u "month")) = []
    <-> e !! u "volume" = None /\ e !! u "pages" = None /\ number_clause = []
        /\ (e !! u "month" = None \/ e !! u "month" = Some [])).
  { intros nc Hnc. unfold clause.
    destruct (e !! u "volume") as [v|].
    { split; [|intros [[=] _]]. intros E. exfalso. revert E. cbn [app].
      apply join_head_nonempty, labelled_nonempty. discriminate. }
    destruct Hnc as [->|[n ->]].
    2:{ split; [|intros [_ [_ [[=] _]]]]. intros E. exfalso. revert E. cbn [app].
        apply join_head_nonempty, labelled_nonempty. discriminate. }
    destruct (e !! u "pages") as [p|].
    { split; [|intros [_ [[=] _]]]. intros E. exfalso. revert E. cbn [app].
      apply join_head_nonempty, labelled_nonempty. discriminate. }
    destruct (e !! u "month") as [[|c m]|]; cbn.
    - split; auto.
    - split; [discriminate|]. intros [_ [_ [_ [[=]|[=]]]]].
    - split; auto. }
  destruct (e !! u "number") as [n|] eqn:Hn.
  - destruct (e !! u "ENTRYTYPE") as [ty|]; [|discriminate].
    case_bool_decide as Hty; intros [= <-].
    + subst ty. rewrite (Hparts [] (or_introl eq_refl)). intuition.
    + rewrite (Hparts [u "no. " ++ n]) by eauto.
      split; [intros [_ [_ [[=] _]]]|].
      intros [_ [_ [[[=]|[= ->]] _]]]. contradiction.
  - intros [= <-]. rewrite (Hparts [] (or_introl eq_refl)). intuition.
Qed.

Lemma summary_empty_iff_witness :
  result format_volume_pages_notes entry_empty_month = Return []
  /\ entry_empty_month !! u "month" = Some [].
Proof.
  assert (H : result format_volume_pages_notes entry_empty_month = Return [])
    by (vm_compute; reflexivity).
  split; [exact H|].
  destruct (proj1 (summary_empty_iff entry_empty_month [] H) eq_refl)
    as [_ [_ [_ [Hm|Hm]]]]; [|exact Hm].
  vm_compute in Hm. discriminate Hm.
Defined.

(** X18.  The item is wrapped in an anchor exactly when the link is a
    non-empty string.  No anchor is shown when there is neither url, www,
    doi nor hal_id, and also when an empty www field is reached (the url
    being absent or empty): then the doi and the HAL identifier, though
    present, are not linked. *)
Theorem anchor_shown_iff (e : entry) (t p vp y : ustring) :
  result format_title_or_chapter e = Return t ->
  result format_publisher e = Return p ->
  result format_volume_pages_notes e = Return vp ->
  e !! u "year" = Some y ->
  exists link,
    result get_link e = Return link
    /\ (link_truthy link = false <->
        (e !! u "url" = None \/ e !! u "url" = Some [])
        /\ (e !! u "www" = Some []
            \/ (e !! u "www" = None /\ e !! u "doi" = None
                /\ e !! u "hal_id" = None)))
    /\ (link_truthy link = false ->
        result get_bib_entry_as_html e =
          Return ((nl :: u "<li>" ++ [nl])
                    ++ item_body (e !! u "author") t p vp y
                    ++ (nl :: u "</li>" ++ [nl]) ++ u "<br>" ++ [nl]))
    /\ (link_truthy link = true ->
        exists l, link = Some l /\ l <> []
        /\ result get_bib_entry_as_html e =
             Return ((nl :: u "<li>" ++ [nl])
                       ++ (u "<a href=" ++ [dq] ++ l ++ [dq] ++ u ">")
                       ++ item_body (e !! u "author") t p vp y
                       ++ u "</a>" ++ (nl :: u "</li>" ++ [nl]) ++ u "<br>" ++ [nl])).
Proof.
  intros Ht Hp Hvp Hy. exists (link_of e).
  split; [apply result_get_link|].
  pose proof (html_of_parts e t p vp y Ht Hp Hvp Hy) as Hhtml.
  rewrite <- result_html in Hhtml.
  split; [|split].
  - unfold link_of, link_truthy.
    destruct (e !! u "url") as [[|c url]|];
      destruct (e !! u "www") as [[|c' www]|];
      destruct (e !! u "doi") as [doi|];
      destruct (e !! u "hal_id") as [hal|]; cbn;
      (split; [try discriminate; intros _; eauto 8 |
               try reflexivity;
               intros [[H|H] [H'|[H' [H'' H''']]]]; congruence]).
  - intros Hl. rewrite Hhtml. f_equal. apply item_html_no_anchor, Hl.
  - intros Hl. destruct (link_of e) as [[|c l]|]; try discriminate Hl.
    exists (c :: l). split; [reflexivity|]. split; [discriminate|].
    rewrite Hhtml. f_equal. apply item_html_anchor. discriminate.
Qed.

Lemma anchor_shown_iff_witness :
  entry_empty_www !! u "doi" = Some (u "10.1/x")
  /\ exists html,
       result get_bib_entry_as_html entry_empty_www = Return html
       /\ PyStr.contains (u "<a href") html = false.
Proof.
  split; [vm_compute; reflexivity|].
  destruct (anchor_shown_iff entry_empty_www
              (u "<span class=" ++ [dq] ++ u "title" ++ [dq] ++ u "><i>"
                 ++ [dq] ++ u "T" ++ [dq] ++ u "</i></span>")
              (span (u "publisher") (u "J")) [] (u "2020"))
    as [link [Hlink [Hiff [Hno _]]]]; try (vm_compute; reflexivity).
  eexists. split.
  - apply Hno. apply Hiff. split.
    + left. vm_compute. reflexivity.
    + left. vm_compute. reflexivity.
  - vm_compute. reflexivity.
Defined.
